(** * The OIDC bearer-token worker of [src/index.js]

    A shallow embedding of the Cloudflare worker: the JWKS cache
    ([getJWKS]), the token validation ([validateJWT]) and the request
    handler ([fetch]).  Pure JavaScript built-ins the worker calls
    ([String.prototype.split], [atob], [JSON.parse], [TextEncoder], property
    access, [===], [!], [*], [<]) are written out as functions; the network,
    the clock and the WebCrypto subsystem are capabilities of a [Host]. *)

From Stdlib Require Import ZArith List String Ascii Bool Lia.
From Stdlib Require Import SpecFloat.
From Bignums Require Import BigN.
Import ListNotations.
Local Open Scope Z_scope.
Set Warnings "-register-all".

(** ** JavaScript strings

    A JavaScript string is a sequence of UTF-16 code units. *)
Module Str.

Definition jsstring := list Z.

(** A literal of the source, every character of which is ASCII. *)
Definition js (s : string) : jsstring :=
  map (fun a => Z.of_N (N_of_ascii a)) (list_ascii_of_string s).

Fixpoint eqb (a b : jsstring) : bool :=
  match a, b with
  | [], [] => true
  | x :: a', y :: b' => (x =? y) && eqb a' b'
  | _, _ => false
  end.

(** [s.startsWith(p)] *)
Fixpoint startsWith (p s : jsstring) : bool :=
  match p, s with
  | [], _ => true
  | x :: p', y :: s' => (x =? y) && startsWith p' s'
  | _ :: _, [] => false
  end.

(** [s.substring(n)] for a non-negative integer [n]. *)
Definition substring (n : nat) (s : jsstring) : jsstring := skipn n s.

(** [s.split(sep)] for a separator of one code unit: the pieces between the
    occurrences of [sep]; the empty string gives one empty piece. *)
Fixpoint split (sep : Z) (s : jsstring) : list jsstring :=
  match s with
  | [] => [[]]
  | c :: s' =>
      if c =? sep then [] :: split sep s'
      else match split sep s' with
           | p :: ps => (c :: p) :: ps
           | [] => [[c]]
           end
  end.

Definition mem (c : Z) (s : jsstring) : bool := existsb (Z.eqb c) s.

(** [new TextEncoder().encode(s)]: the UTF-8 bytes of [s].  A surrogate
    pair is one code point; a lone surrogate is encoded as U+FFFD. *)
Definition utf8_of_code_point (c : Z) : list Z :=
  if c <? 128 then [c]
  else if c <? 2048 then [192 + c / 64; 128 + c mod 64]
  else if c <? 65536 then [224 + c / 4096; 128 + (c / 64) mod 64; 128 + c mod 64]
  else [240 + c / 262144; 128 + (c / 4096) mod 64; 128 + (c / 64) mod 64;
        128 + c mod 64].

Definition is_high_surrogate (c : Z) : bool := (55296 <=? c) && (c <? 56320).
Definition is_low_surrogate (c : Z) : bool := (56320 <=? c) && (c <? 57344).

Fixpoint utf8_encode (s : jsstring) : list Z :=
  match s with
  | [] => []
  | c :: s' =>
      if is_high_surrogate c then
        match s' with
        | d :: s'' =>
            if is_low_surrogate d
            then utf8_of_code_point (65536 + (c - 55296) * 1024 + (d - 56320))
                   ++ utf8_encode s''
            else utf8_of_code_point 65533 ++ utf8_encode s'
        | [] => utf8_of_code_point 65533
        end
      else if is_low_surrogate c then utf8_of_code_point 65533 ++ utf8_encode s'
      else utf8_of_code_point c ++ utf8_encode s'
  end.

End Str.
Import Str.

(** ** [atob]: the forgiving-base64 decoder of the HTML standard *)
Module Base64.

(** ASCII whitespace: TAB, LF, FF, CR, SPACE. *)
Definition is_ascii_whitespace (c : Z) : bool :=
  (c =? 9) || (c =? 10) || (c =? 12) || (c =? 13) || (c =? 32).

(** The value of a character of the standard alphabet [A-Za-z0-9+/]. *)
Definition value (c : Z) : option Z :=
  if (65 <=? c) && (c <=? 90) then Some (c - 65)
  else if (97 <=? c) && (c <=? 122) then Some (c - 97 + 26)
  else if (48 <=? c) && (c <=? 57) then Some (c - 48 + 52)
  else if c =? 43 then Some 62
  else if c =? 47 then Some 63
  else None.

Fixpoint values (s : jsstring) : option (list Z) :=
  match s with
  | [] => Some []
  | c :: s' =>
      match value c, values s' with
      | Some v, Some vs => Some (v :: vs)
      | _, _ => None
      end
  end.

(** Removes one or two trailing [=] (step 2 of the algorithm). *)
Definition strip_padding (s : jsstring) : jsstring :=
  match rev s with
  | 61 :: 61 :: r => rev r
  | 61 :: r => rev r
  | _ => s
  end.

(** Four sextets give three bytes; a final group of three gives two bytes
    and one of two gives one byte, the spare bits being discarded. *)
Fixpoint bytes_of_sextets (vs : list Z) : list Z :=
  match vs with
  | a :: b :: c :: d :: rest =>
      (a * 4 + b / 16) :: ((b mod 16) * 16 + c / 4) :: ((c mod 4) * 64 + d)
        :: bytes_of_sextets rest
  | [a; b; c] => [a * 4 + b / 16; (b mod 16) * 16 + c / 4]
  | [a; b] => [a * 4 + b / 16]
  | _ => []
  end.

(** Forgiving-base64 decode: [None] is the standard's "failure". *)
Definition forgiving_decode (data : jsstring) : option (list Z) :=
  let data := filter (fun c => negb (is_ascii_whitespace c)) data in
  let data :=
    if Z.of_nat (List.length data) mod 4 =? 0 then strip_padding data else data in
  if Z.of_nat (List.length data) mod 4 =? 1 then None
  else match values data with
       | Some vs => Some (bytes_of_sextets vs)
       | None => None
       end.

(** What a base64url decoder computes on the same input: [-] and [_] stand
    for the sextets 62 and 63.  (The worker never calls this; it states
    what the token format prescribes for the signature segment.) *)
Definition of_url (s : jsstring) : jsstring :=
  map (fun c => if c =? 45 then 43 else if c =? 95 then 47 else c) s.

Definition url_decode (data : jsstring) : option (list Z) :=
  if Str.mem 43 data || Str.mem 47 data then None
  else forgiving_decode (of_url data).

End Base64.

(** ** Numbers

    A JavaScript Number is an IEEE 754 binary64 value; the Standard
    Library's [spec_float] at precision 53 is that type, with its rounding
    written out. *)
Module Num.

Definition number := spec_float.
Definition prec : Z := 53.
Definition emax : Z := 1024.

Definition NaN : number := S754_nan.
Definition zero : number := S754_zero false.

(** The Number nearest to an integer (ties to even). *)
Definition of_Z (z : Z) : number := binary_normalize prec emax z 0 false.

(** [x * y], [x < y] and numeric equality ([NaN] is below, above and equal
    to nothing; [+0] and [-0] are equal). *)
Definition mul : number -> number -> number := SFmul prec emax.
Definition ltb : number -> number -> bool := SFltb.
Definition eqb : number -> number -> bool := SFeqb.

(** The Number nearest to [(-1)^neg * d * 10^e10] for [0 <= d].  Beyond
    [10^400] every non-zero value rounds to an infinity and below
    [10^-400] to a zero, which keeps the powers of ten small. *)
Definition of_decimal (neg : bool) (d e10 : Z) : number :=
  if d <=? 0 then S754_zero neg
  else if 400 <? e10 then S754_infinity neg
  else if e10 + (Z.log2 d + 1) / 3 + 1 <=? -400 then S754_zero neg
  else if 0 <=? e10 then
    binary_round prec emax neg (Z.to_pos (d * 10 ^ e10)) 0
  else
    let k := 10 ^ (- e10) in
    let s := Z.max 0 (65 + Z.log2 k - Z.log2 d) in
    let n := d * 2 ^ s in
    let r := n mod k in
    binary_round_aux prec emax neg (n / k) (- s)
      (if r =? 0 then loc_Exact else loc_Inexact (2 * r ?= k)).

(** *** Numeric literals *)

Definition is_digit (c : Z) : bool := (48 <=? c) && (c <=? 57).

Fixpoint span_digits (s : jsstring) : jsstring * jsstring :=
  match s with
  | c :: s' =>
      if is_digit c then let (ds, r) := span_digits s' in (c :: ds, r)
      else ([], s)
  | [] => ([], [])
  end.

Definition digits_value (ds : jsstring) : Z :=
  fold_left (fun a c => 10 * a + (c - 48)) ds 0.

(** The parts of a decimal literal: integer digits, whether a point is
    written, fraction digits, exponent. *)
Record decimal := {
  d_int : jsstring;
  d_dot : bool;
  d_frac : jsstring;
  d_exp : option Z
}.

(** An optional exponent part [e], [e+] or [e-] followed by digits, up to
    the end of the input; [None] when what is there is not one. *)
Definition scan_exponent (s : jsstring) : option (option Z) :=
  match s with
  | [] => Some None
  | c :: s1 =>
      if (c =? 101) || (c =? 69) then
        let '(neg, s2) :=
          match s1 with
          | 43 :: t => (false, t)
          | 45 :: t => (true, t)
          | _ => (false, s1)
          end in
        match span_digits s2 with
        | ((_ :: _) as ds, []) =>
            Some (Some (if neg then - digits_value ds else digits_value ds))
        | _ => None
        end
      else None
  end.

Definition scan_decimal (s : jsstring) : option decimal :=
  let (ip, s1) := span_digits s in
  let '(dot, fp, s2) :=
    match s1 with
    | 46 :: t => let (fp, r) := span_digits t in (true, fp, r)
    | _ => (false, [], s1)
    end in
  match scan_exponent s2 with
  | Some e => Some {| d_int := ip; d_dot := dot; d_frac := fp; d_exp := e |}
  | None => None
  end.

Definition decimal_value (neg : bool) (d : decimal) : number :=
  of_decimal neg (digits_value (d_int d ++ d_frac d))
    (match d_exp d with Some e => e | None => 0 end
     - Z.of_nat (List.length (d_frac d))).

(** A JSON number: an optional minus sign; an integer part that is [0] or
    starts with a digit other than [0]; an optional point followed by at
    least one digit; an optional exponent. *)
Definition of_json_literal (s : jsstring) : option number :=
  let '(neg, body) := match s with 45 :: t => (true, t) | _ => (false, s) end in
  match scan_decimal body with
  | Some d =>
      let int_ok :=
        match d_int d with
        | [] => false
        | [_] => true
        | c :: _ => negb (c =? 48)
        end in
      let frac_ok :=
        if d_dot d then match d_frac d with [] => false | _ => true end
        else true in
      if int_ok && frac_ok then Some (decimal_value neg d) else None
  | None => None
  end.

(** *** StringToNumber (ECMA-262, 7.1.4.1.1) *)

(** WhiteSpace and LineTerminator code units. *)
Definition is_str_whitespace (c : Z) : bool :=
  ((9 <=? c) && (c <=? 13)) || (c =? 32) || (c =? 160) || (c =? 5760)
  || ((8192 <=? c) && (c <=? 8202)) || (c =? 8232) || (c =? 8233)
  || (c =? 8239) || (c =? 8287) || (c =? 12288) || (c =? 65279).

Fixpoint drop_whitespace (s : jsstring) : jsstring :=
  match s with
  | c :: s' => if is_str_whitespace c then drop_whitespace s' else s
  | [] => []
  end.

Definition trim (s : jsstring) : jsstring :=
  rev (drop_whitespace (rev (drop_whitespace s))).

Definition radix_digit (radix c : Z) : option Z :=
  let v :=
    if is_digit c then c - 48
    else if (97 <=? c) && (c <=? 102) then c - 87
    else if (65 <=? c) && (c <=? 70) then c - 55
    else 99 in
  if v <? radix then Some v else None.

Fixpoint radix_value (radix acc : Z) (s : jsstring) : option Z :=
  match s with
  | [] => Some acc
  | c :: s' =>
      match radix_digit radix c with
      | Some v => radix_value radix (radix * acc + v) s'
      | None => None
      end
  end.

Definition of_radix_literal (radix : Z) (ds : jsstring) : number :=
  match ds with
  | [] => NaN
  | _ => match radix_value radix 0 ds with
         | Some v => of_Z v
         | None => NaN
         end
  end.

Definition of_decimal_literal (neg : bool) (s : jsstring) : number :=
  if Str.eqb s (js "Infinity") then S754_infinity neg
  else match scan_decimal s with
       | Some d =>
           match d_int d, d_frac d with
           | [], [] => NaN
           | _, _ => decimal_value neg d
           end
       | None => NaN
       end.

Definition of_string (s : jsstring) : number :=
  match trim s with
  | [] => zero
  | 48 :: 120 :: ds | 48 :: 88 :: ds => of_radix_literal 16 ds
  | 48 :: 111 :: ds | 48 :: 79 :: ds => of_radix_literal 8 ds
  | 48 :: 98 :: ds | 48 :: 66 :: ds => of_radix_literal 2 ds
  | 43 :: t => of_decimal_literal false t
  | 45 :: t => of_decimal_literal true t
  | t => of_decimal_literal false t
  end.

End Num.

(** ** Values, exceptions and the operators the worker applies to them *)
Module JS.

Import Num.

(** The exceptions that reach the worker: [new Error(message)] of its own
    [throw] statements and the host's [TypeError], [SyntaxError] and
    [DOMException] (named [InvalidCharacterError], [DataError], ...).
    The wording of a host message is the host's; one wording is fixed
    here, and it matters only where a statement quotes it. *)
Inductive JsExn : Type :=
| Error (message : jsstring)
| TypeError (message : jsstring)
| SyntaxError (message : jsstring)
| DOMException (name message : jsstring).

(** [err.message] *)
Definition message (e : JsExn) : jsstring :=
  match e with
  | Error m | TypeError m | SyntaxError m | DOMException _ m => m
  end.

(** A value or a thrown exception (for an [async] function: the promise
    is fulfilled or rejected). *)
Inductive Outcome (A : Type) : Type :=
| Return (a : A)
| Throw (e : JsExn).
Arguments Return {A} a.
Arguments Throw {A} e.

(** The values [JSON.parse] builds, [undefined], and [JFunction] for a
    built-in method read off a prototype.  An object keeps its members in
    the order of the text, a later member of the same name overriding an
    earlier one. *)
Inductive JSValue : Type :=
| JUndefined
| JNull
| JBool (b : bool)
| JNumber (n : number)
| JString (s : jsstring)
| JArray (elems : list JSValue)
| JObject (props : list (jsstring * JSValue))
| JFunction.

Definition own_property (name : jsstring) (props : list (jsstring * JSValue))
  : option JSValue :=
  fold_left (fun acc kv => if Str.eqb (fst kv) name then Some (snd kv) else acc)
    props None.

(** The property names the worker reads: [kid], [iss], [exp], [sub],
    [jwks_uri], [keys].  Of these a prototype supplies only
    [Array.prototype.keys] and [String.prototype.sub], both functions. *)
Definition array_prototype_has (name : jsstring) : bool := Str.eqb name (js "keys").
Definition string_prototype_has (name : jsstring) : bool := Str.eqb name (js "sub").

Definition cannot_read (v name : jsstring) : JsExn :=
  TypeError (js "Cannot read properties of " ++ v ++ js " (reading '" ++ name
             ++ js "')").

(** [v.name] for one of those names. *)
Definition Get (v : JSValue) (name : jsstring) : Outcome JSValue :=
  match v with
  | JUndefined => Throw (cannot_read (js "undefined") name)
  | JNull => Throw (cannot_read (js "null") name)
  | JObject props =>
      match own_property name props with
      | Some x => Return x
      | None => Return JUndefined
      end
  | JArray _ => Return (if array_prototype_has name then JFunction else JUndefined)
  | JString _ => Return (if string_prototype_has name then JFunction else JUndefined)
  | JBool _ | JNumber _ | JFunction => Return JUndefined
  end.

(** [!!v] *)
Definition ToBoolean (v : JSValue) : bool :=
  match v with
  | JUndefined | JNull => false
  | JBool b => b
  | JNumber (S754_zero _) | JNumber S754_nan => false
  | JNumber _ => true
  | JString [] => false
  | JString _ => true
  | JArray _ | JObject _ | JFunction => true
  end.

(** [a === b] between a value of one parsed document and a value of another
    document or a string literal: two objects or arrays are then never the
    same object. *)
Definition strict_eq (a b : JSValue) : bool :=
  match a, b with
  | JUndefined, JUndefined => true
  | JNull, JNull => true
  | JBool x, JBool y => Bool.eqb x y
  | JNumber x, JNumber y => Num.eqb x y
  | JString x, JString y => Str.eqb x y
  | _, _ => false
  end.

(** Converting an object to a primitive throws exactly when it has an own
    [toString] member (a JSON value, never callable): the inherited
    [valueOf] returns the object itself, the inherited [toString] a string.
    An array is converted through [join], which converts its elements. *)
Fixpoint ToPrimitive_throws (v : JSValue) : bool :=
  match v with
  | JObject props =>
      match own_property (js "toString") props with
      | Some _ => true
      | None => false
      end
  | JArray elems => existsb ToPrimitive_throws elems
  | _ => false
  end.

(** StringToNumber of what [join] writes for an array element.  [null] is
    written as the empty string, a number as the shortest literal that
    reads back as the same number ([-0] as [0]), an object as
    [[object Object]]; two or more elements give a comma, which no numeric
    literal contains. *)
Fixpoint number_of_joined (v : JSValue) : number :=
  match v with
  | JUndefined | JNull => zero
  | JBool _ => NaN
  | JNumber (S754_zero _) => zero
  | JNumber n => n
  | JString s => of_string s
  | JArray [] => zero
  | JArray [x] => number_of_joined x
  | JArray _ => NaN
  | JObject _ | JFunction => NaN
  end.

(** ToNumber, as the operand conversion of [*]. *)
Definition ToNumber (v : JSValue) : Outcome number :=
  if ToPrimitive_throws v
  then Throw (TypeError (js "Cannot convert object to primitive value"))
  else Return
         match v with
         | JUndefined => NaN
         | JNull => zero
         | JBool true => of_Z 1
         | JBool false => zero
         | JNumber n => n
         | JString s => of_string s
         | JArray _ => number_of_joined v
         | JObject _ | JFunction => NaN
         end.

End JS.

(** ** [JSON.parse]

    The JSON grammar (ECMA-404) read in two passes, each a machine that
    consumes its input one item at a time: code units to tokens, tokens to
    a value. *)
Module JSON.

Import Num JS.

Inductive token : Type :=
| TLBrace | TRBrace | TLBracket | TRBracket | TColon | TComma
| TString (s : jsstring)
| TNumber (n : number)
| TTrue | TFalse | TNull.

(** What the lexer is in the middle of; accumulated text is reversed. *)
Inductive lex_mode : Type :=
| LIdle
| LString (acc : jsstring)
| LEscape (acc : jsstring)
| LUnicode (acc : jsstring) (hex : list Z)
| LNumber (acc : jsstring)
| LWord (acc : jsstring).

(** JSON whitespace: TAB, LF, CR, SPACE. *)
Definition is_whitespace (c : Z) : bool :=
  (c =? 9) || (c =? 10) || (c =? 13) || (c =? 32).

Definition punctuation (c : Z) : option token :=
  if c =? 123 then Some TLBrace else if c =? 125 then Some TRBrace
  else if c =? 91 then Some TLBracket else if c =? 93 then Some TRBracket
  else if c =? 58 then Some TColon else if c =? 44 then Some TComma
  else None.

Definition is_lower (c : Z) : bool := (97 <=? c) && (c <=? 122).

Definition is_number_char (c : Z) : bool :=
  is_digit c || (c =? 43) || (c =? 45) || (c =? 46) || (c =? 101) || (c =? 69).

(** The character an escape letter stands for. *)
Definition escape (c : Z) : option Z :=
  if c =? 34 then Some 34 else if c =? 92 then Some 92
  else if c =? 47 then Some 47 else if c =? 98 then Some 8
  else if c =? 102 then Some 12 else if c =? 110 then Some 10
  else if c =? 114 then Some 13 else if c =? 116 then Some 9
  else None.

Definition lex_idle (toks : list token) (c : Z) : option (list token * lex_mode) :=
  if is_whitespace c then Some (toks, LIdle)
  else match punctuation c with
       | Some t => Some (t :: toks, LIdle)
       | None =>
           if c =? 34 then Some (toks, LString [])
           else if (c =? 45) || is_digit c then Some (toks, LNumber [c])
           else if is_lower c then Some (toks, LWord [c])
           else None
       end.

Definition close_number (toks : list token) (acc : jsstring) : option (list token) :=
  match of_json_literal (rev acc) with
  | Some n => Some (TNumber n :: toks)
  | None => None
  end.

Definition close_word (toks : list token) (acc : jsstring) : option (list token) :=
  let w := rev acc in
  if Str.eqb w (js "true") then Some (TTrue :: toks)
  else if Str.eqb w (js "false") then Some (TFalse :: toks)
  else if Str.eqb w (js "null") then Some (TNull :: toks)
  else None.

Definition lex_step (st : list token * lex_mode) (c : Z)
  : option (list token * lex_mode) :=
  let (toks, mode) := st in
  match mode with
  | LIdle => lex_idle toks c
  | LString acc =>
      if c =? 34 then Some (TString (rev acc) :: toks, LIdle)
      else if c =? 92 then Some (toks, LEscape acc)
      else if c <? 32 then None
      else Some (toks, LString (c :: acc))
  | LEscape acc =>
      match escape c with
      | Some d => Some (toks, LString (d :: acc))
      | None => if c =? 117 then Some (toks, LUnicode acc []) else None
      end
  | LUnicode acc hex =>
      match radix_digit 16 c with
      | Some v =>
          match hex with
          | [h1; h2; h3] =>
              Some (toks, LString ((((h1 * 16 + h2) * 16 + h3) * 16 + v) :: acc))
          | _ => Some (toks, LUnicode acc (hex ++ [v]))
          end
      | None => None
      end
  | LNumber acc =>
      if is_number_char c then Some (toks, LNumber (c :: acc))
      else match close_number toks acc with
           | Some toks' => lex_idle toks' c
           | None => None
           end
  | LWord acc =>
      if is_lower c then Some (toks, LWord (c :: acc))
      else match close_word toks acc with
           | Some toks' => lex_idle toks' c
           | None => None
           end
  end.

Fixpoint lex_run (st : list token * lex_mode) (s : jsstring)
  : option (list token * lex_mode) :=
  match s with
  | [] => Some st
  | c :: s' =>
      match lex_step st c with
      | Some st' => lex_run st' s'
      | None => None
      end
  end.

Definition lex (s : jsstring) : option (list token) :=
  match lex_run ([], LIdle) s with
  | Some (toks, LIdle) => Some (rev toks)
  | Some (toks, LNumber acc) => option_map (@rev token) (close_number toks acc)
  | Some (toks, LWord acc) => option_map (@rev token) (close_word toks acc)
  | _ => None
  end.

(** An enclosing array or object under construction: the elements or
    members read so far (reversed) and, in an object, the name whose value
    is being read. *)
Inductive frame : Type :=
| FArray (elems : list JSValue)
| FObject (props : list (jsstring * JSValue)) (key : jsstring).

Inductive parse_state : Type :=
| SValue (stack : list frame)
| SArrayOpen (stack : list frame)
| SArrayNext (stack : list frame) (elems : list JSValue)
| SObjectOpen (stack : list frame)
| SKey (stack : list frame) (props : list (jsstring * JSValue))
| SColon (stack : list frame) (props : list (jsstring * JSValue)) (key : jsstring)
| SObjectNext (stack : list frame) (props : list (jsstring * JSValue))
| SDone (v : JSValue).

(** A value is complete: it is the whole text, the next element of the
    enclosing array, or the value of the pending member. *)
Definition deliver (v : JSValue) (stack : list frame) : parse_state :=
  match stack with
  | [] => SDone v
  | FArray es :: stack' => SArrayNext stack' (v :: es)
  | FObject ps k :: stack' => SObjectNext stack' ((k, v) :: ps)
  end.

Definition value_step (stack : list frame) (t : token) : option parse_state :=
  match t with
  | TString s => Some (deliver (JString s) stack)
  | TNumber n => Some (deliver (JNumber n) stack)
  | TTrue => Some (deliver (JBool true) stack)
  | TFalse => Some (deliver (JBool false) stack)
  | TNull => Some (deliver JNull stack)
  | TLBracket => Some (SArrayOpen stack)
  | TLBrace => Some (SObjectOpen stack)
  | TRBrace | TRBracket | TColon | TComma => None
  end.

Definition parse_step (st : parse_state) (t : token) : option parse_state :=
  match st, t with
  | SValue stack, _ => value_step stack t
  | SArrayOpen stack, TRBracket => Some (deliver (JArray []) stack)
  | SArrayOpen stack, _ => value_step (FArray [] :: stack) t
  | SArrayNext stack es, TComma => Some (SValue (FArray es :: stack))
  | SArrayNext stack es, TRBracket => Some (deliver (JArray (rev es)) stack)
  | SObjectOpen stack, TRBrace => Some (deliver (JObject []) stack)
  | SObjectOpen stack, TString k => Some (SColon stack [] k)
  | SKey stack ps, TString k => Some (SColon stack ps k)
  | SColon stack ps k, TColon => Some (SValue (FObject ps k :: stack))
  | SObjectNext stack ps, TComma => Some (SKey stack ps)
  | SObjectNext stack ps, TRBrace => Some (deliver (JObject (rev ps)) stack)
  | _, _ => None
  end.

Fixpoint parse_run (st : parse_state) (ts : list token) : option parse_state :=
  match ts with
  | [] => Some st
  | t :: ts' =>
      match parse_step st t with
      | Some st' => parse_run st' ts'
      | None => None
      end
  end.

Definition parse_text (s : jsstring) : option JSValue :=
  match lex s with
  | Some ts =>
      match parse_run (SValue []) ts with
      | Some (SDone v) => Some v
      | _ => None
      end
  | None => None
  end.

(** [JSON.parse(text)] *)
Definition parse (text : jsstring) : Outcome JSValue :=
  match parse_text text with
  | Some v => Return v
  | None => Throw (SyntaxError (js "Unexpected token in JSON"))
  end.

End JSON.

(** [atob(data)]: the decoded bytes as a string of code units below 256,
    or an [InvalidCharacterError]. *)
Definition atob (data : jsstring) : JS.Outcome jsstring :=
  match Base64.forgiving_decode data with
  | Some bytes => JS.Return bytes
  | None =>
      JS.Throw (JS.DOMException (js "InvalidCharacterError")
                  (js "atob() called with invalid base64-encoded data."))
  end.

(** ** The host: network, clock and WebCrypto *)
Module Host.

Import JS.

(** An HTTP response, as far as the worker looks at it. *)
Record Response : Type := {
  status : Z;
  body : jsstring
}.

(** The promise [fetch] returns is rejected (network failure, invalid
    URL) or fulfilled with a response, whatever its status. *)
Inductive FetchResult : Type :=
| Rejected (e : JsExn)
| Fulfilled (r : Response).

(** The inbound request: [req.headers.get("Authorization")] ([None] for
    [null]), [req.url], [req.method], [req.body]. *)
Record Request : Type := {
  authorization : option jsstring;
  url : jsstring;
  method : jsstring;
  req_body : jsstring
}.

(** The algorithm dictionary [{ name, hash: { name } }]. *)
Record Algorithm : Type := {
  alg_name : jsstring;
  alg_hash : jsstring
}.

(** An imported RSA public key. *)
Record CryptoKey : Type := {
  key_algorithm : Algorithm;
  key_extractable : bool;
  key_usages : list jsstring;
  key_modulus : Z;
  key_exponent : Z
}.

(** The calls the worker makes to the host, with their arguments. *)
Inductive Event : Type :=
| EvFetch (input : JSValue) (init : option Request)
| EvImportKey (format : jsstring) (keyData : JSValue) (algorithm : Algorithm)
    (extractable : bool) (usages : list jsstring)
| EvVerify (algorithm : jsstring) (key : CryptoKey) (signature data : list Z).

(** The host's behaviour.  [clock n] is what the [n]-th call of
    [Date.now()] returns, an integer of milliseconds below [2^53], so that
    subtraction and comparison on it are exact.  The answer of the network
    may depend on the calls made before. *)
Record Host : Type := {
  clock : nat -> Z;
  network : list Event -> JSValue -> option Request -> FetchResult;
  importKey : jsstring -> JSValue -> Algorithm -> bool -> list jsstring
              -> Outcome CryptoKey;
  verify : jsstring -> CryptoKey -> list Z -> list Z -> Outcome bool;
  pathname : jsstring -> Outcome jsstring
}.

End Host.

(** ** The worker *)
Module Worker.

Import JS Host.

(** The module variables [jwksCache] and [jwksFetchedAt], the number of
    clock readings taken and the host calls made (latest first). *)
Record World : Type := {
  jwksCache : JSValue;
  jwksFetchedAt : Z;
  clock_reads : nat;
  trace : list Event
}.

(** [let jwksCache = null; let jwksFetchedAt = 0;] *)
Definition initial : World :=
  {| jwksCache := JNull; jwksFetchedAt := 0; clock_reads := 0; trace := [] |}.

(** A computation of the worker: it ends with a value or an exception and
    leaves a world. *)
Definition M (A : Type) : Type := World -> Outcome A * World.

Definition ret {A} (a : A) : M A := fun w => (Return a, w).
Definition throw {A} (e : JsExn) : M A := fun w => (Throw e, w).

Definition bind {A B} (m : M A) (k : A -> M B) : M B :=
  fun w =>
    match m w with
    | (Return a, w') => k a w'
    | (Throw e, w') => (Throw e, w')
    end.

(** A pure operation that may throw. *)
Definition lift {A} (o : Outcome A) : M A := fun w => (o, w).

(** [try { m } catch (err) { handler err }] *)
Definition try_catch {A} (m : M A) (handler : JsExn -> M A) : M A :=
  fun w =>
    match m w with
    | (Return a, w') => (Return a, w')
    | (Throw e, w') => handler e w'
    end.

Declare Scope worker_scope.
Delimit Scope worker_scope with worker.
Notation "x <- m ;; k" := (bind m (fun x => k))
  (at level 61, m at next level, right associativity) : worker_scope.
Notation "m ;;; k" := (bind m (fun _ => k))
  (at level 61, right associativity) : worker_scope.
Local Open Scope worker_scope.

Definition read_jwksCache : M JSValue := fun w => (Return (jwksCache w), w).
Definition read_jwksFetchedAt : M Z := fun w => (Return (jwksFetchedAt w), w).

Definition write_jwksCache (v : JSValue) : M unit :=
  fun w => (Return tt,
            {| jwksCache := v; jwksFetchedAt := jwksFetchedAt w;
               clock_reads := clock_reads w; trace := trace w |}).

Definition write_jwksFetchedAt (t : Z) : M unit :=
  fun w => (Return tt,
            {| jwksCache := jwksCache w; jwksFetchedAt := t;
               clock_reads := clock_reads w; trace := trace w |}).

Definition record (ev : Event) (w : World) : World :=
  {| jwksCache := jwksCache w; jwksFetchedAt := jwksFetchedAt w;
     clock_reads := clock_reads w; trace := ev :: trace w |}.

(** Lines 5 and 6 of the source. *)
Definition OIDC_ISSUER : jsstring :=
  js "https://integrator-2817162.okta.com/oauth2/default".
Definition API_BACKEND : jsstring := js "https://api.internal.example.com".

(** Line 19. *)
Definition oidcConfigUrl : jsstring :=
  OIDC_ISSUER ++ js "/.well-known/openid-configuration".

(** The algorithm the source passes to [importKey] (lines 46 to 49) and
    the name it passes to [verify] (line 57). *)
Definition RSASSA_PKCS1_v1_5 : jsstring := js "RSASSA-PKCS1-v1_5".
Definition import_algorithm : Algorithm :=
  {| alg_name := RSASSA_PKCS1_v1_5; alg_hash := js "SHA-256" |}.

(** [r.json()] *)
Definition json (r : Response) : Outcome JSValue := JSON.parse (body r).

(** [jwks.keys.find(k => k.kid === header.kid)] given the value of
    [jwks.keys]: the callback reads [k.kid], then [header.kid]. *)
Fixpoint find_kid (header : JSValue) (ks : list JSValue) : Outcome JSValue :=
  match ks with
  | [] => Return JUndefined
  | k :: ks' =>
      match Get k (js "kid") with
      | Throw e => Throw e
      | Return a =>
          match Get header (js "kid") with
          | Throw e => Throw e
          | Return b => if strict_eq a b then Return k else find_kid header ks'
          end
      end
  end.

Definition keys_find (keys header : JSValue) : Outcome JSValue :=
  match keys with
  | JArray ks => find_kid header ks
  | JUndefined =>
      Throw (cannot_read (js "undefined") (js "find"))
  | JNull => Throw (cannot_read (js "null") (js "find"))
  | _ => Throw (TypeError (js "jwks.keys.find is not a function"))
  end.

Section WithHost.

Variable host : Host.

(** [Date.now()] *)
Definition Date_now : M Z :=
  fun w => (Return (clock host (clock_reads w)),
            {| jwksCache := jwksCache w; jwksFetchedAt := jwksFetchedAt w;
               clock_reads := S (clock_reads w); trace := trace w |}).

(** [await fetch(input, init)] *)
Definition fetch_ (input : JSValue) (init : option Request) : M Response :=
  fun w =>
    let w' := record (EvFetch input init) w in
    match network host (trace w) input init with
    | Rejected e => (Throw e, w')
    | Fulfilled r => (Return r, w')
    end.

(** [await crypto.subtle.importKey(format, keyData, algorithm, extractable,
    usages)] *)
Definition subtle_importKey (format : jsstring) (keyData : JSValue)
    (algorithm : Algorithm) (extractable : bool) (usages : list jsstring)
  : M CryptoKey :=
  fun w => (importKey host format keyData algorithm extractable usages,
            record (EvImportKey format keyData algorithm extractable usages) w).

(** [await crypto.subtle.verify(algorithm, key, signature, data)] *)
Definition subtle_verify (algorithm : jsstring) (key : CryptoKey)
    (signature data : list Z) : M bool :=
  fun w => (verify host algorithm key signature data,
            record (EvVerify algorithm key signature data) w).

(** Lines 12 to 27. *)
Definition getJWKS : M JSValue :=
  now <- Date_now ;;
  cache <- read_jwksCache ;;
  fetchedAt <- read_jwksFetchedAt ;;
  if ToBoolean cache && (now - fetchedAt <? 10 * 60 * 1000) then ret cache
  else
    r <- fetch_ (JString oidcConfigUrl) None ;;
    cfg <- lift (json r) ;;
    jwksUri <- lift (Get cfg (js "jwks_uri")) ;;
    r' <- fetch_ jwksUri None ;;
    jwks <- lift (json r') ;;
    write_jwksCache jwks ;;;
    write_jwksFetchedAt now ;;;
    ret jwks.

(** Lines 34 to 65, once [parts] has three elements. *)
Definition validate_parts (headerB64 payloadB64 signatureB64 : jsstring)
  : M JSValue :=
  header_text <- lift (atob headerB64) ;;
  header <- lift (JSON.parse header_text) ;;
  payload_text <- lift (atob payloadB64) ;;
  payload <- lift (JSON.parse payload_text) ;;
  jwks <- getJWKS ;;
  keys <- lift (Get jwks (js "keys")) ;;
  jwk <- lift (keys_find keys header) ;;
  if negb (ToBoolean jwk) then throw (Error (js "No matching JWK"))
  else
    key <- subtle_importKey (js "jwk") jwk import_algorithm false [js "verify"] ;;
    let data := utf8_encode (headerB64 ++ js "." ++ payloadB64) in
    signature <- lift (atob signatureB64) ;;
    valid <- subtle_verify RSASSA_PKCS1_v1_5 key signature data ;;
    if negb valid then throw (Error (js "Invalid signature"))
    else
      iss <- lift (Get payload (js "iss")) ;;
      if negb (strict_eq iss (JString OIDC_ISSUER))
      then throw (Error (js "Invalid issuer"))
      else
        exp <- lift (Get payload (js "exp")) ;;
        exp_number <- lift (ToNumber exp) ;;
        now <- Date_now ;;
        if Num.ltb (Num.mul exp_number (Num.of_Z 1000)) (Num.of_Z now)
        then throw (Error (js "Token expired"))
        else ret payload.

(** The two halves of [validate_parts], for stating what a token has
    passed: lines 34 to 58 (decoding, key lookup, signature) give the
    payload of a token whose signature is valid; lines 60 to 64 check its
    claims. *)
Definition verified_payload (headerB64 payloadB64 signatureB64 : jsstring)
  : M JSValue :=
  header_text <- lift (atob headerB64) ;;
  header <- lift (JSON.parse header_text) ;;
  payload_text <- lift (atob payloadB64) ;;
  payload <- lift (JSON.parse payload_text) ;;
  jwks <- getJWKS ;;
  keys <- lift (Get jwks (js "keys")) ;;
  jwk <- lift (keys_find keys header) ;;
  if negb (ToBoolean jwk) then throw (Error (js "No matching JWK"))
  else
    key <- subtle_importKey (js "jwk") jwk import_algorithm false [js "verify"] ;;
    let data := utf8_encode (headerB64 ++ js "." ++ payloadB64) in
    signature <- lift (atob signatureB64) ;;
    valid <- subtle_verify RSASSA_PKCS1_v1_5 key signature data ;;
    if negb valid then throw (Error (js "Invalid signature"))
    else ret payload.

Definition standard_claims (payload : JSValue) : M JSValue :=
  iss <- lift (Get payload (js "iss")) ;;
  if negb (strict_eq iss (JString OIDC_ISSUER))
  then throw (Error (js "Invalid issuer"))
  else
    exp <- lift (Get payload (js "exp")) ;;
    exp_number <- lift (ToNumber exp) ;;
    now <- Date_now ;;
    if Num.ltb (Num.mul exp_number (Num.of_Z 1000)) (Num.of_Z now)
    then throw (Error (js "Token expired"))
    else ret payload.

(** Lines 29 to 65. *)
Definition validateJWT (token : jsstring) : M JSValue :=
  let parts := Str.split 46 token in
  match parts with
  | [headerB64; payloadB64; signatureB64] =>
      validate_parts headerB64 payloadB64 signatureB64
  | _ => throw (Error (js "Invalid JWT format"))
  end.

(** [new Response(text, { status })] *)
Definition text_response (text : jsstring) (code : Z) : Response :=
  {| status := code; body := text |}.

(** Lines 68 to 98: the handler [fetch(req)]. *)
Definition fetch (req : Request) : M Response :=
  try_catch
    (match authorization req with
     | None => ret (text_response (js "Missing Authorization header") 401)
     | Some auth =>
         if negb (ToBoolean (JString auth))
            || negb (Str.startsWith (js "Bearer ") auth)
         then ret (text_response (js "Missing Authorization header") 401)
         else
           let token := Str.substring 7 auth in
           claims <- validateJWT token ;;
           sub <- lift (Get claims (js "sub")) ;;
           if negb (ToBoolean sub)
           then ret (text_response (js "Forbidden: Invalid token claims") 403)
           else
             path <- lift (pathname host (url req)) ;;
             backendResp <- fetch_ (JString (API_BACKEND ++ path)) (Some req) ;;
             ret backendResp
     end)
    (fun err => ret (text_response (js "Unauthorized: " ++ message err) 401)).

(** *** [getJWKS] between its suspension points

    An [async] function runs uninterrupted up to an [await]; other calls
    run while it is suspended.  [getJWKS] suspends twice (lines 20 and
    23).  A suspended call keeps its local [now] and the settlement of the
    promise it awaits. *)
Inductive Task : Type :=
| Start
| AwaitConfig (now : Z) (pending : FetchResult)
| AwaitKeys (now : Z) (pending : FetchResult)
| Finished (o : Outcome JSValue).

(** [fetch(...).then(r => r.json())], once the fetch is settled. *)
Definition settle (pending : FetchResult) : Outcome JSValue :=
  match pending with
  | Rejected e => Throw e
  | Fulfilled r => json r
  end.

Definition store (jwks : JSValue) (now : Z) (w : World) : World :=
  {| jwksCache := jwks; jwksFetchedAt := now;
     clock_reads := clock_reads w; trace := trace w |}.

(** Runs a call up to its next suspension point, or to its end. *)
Definition resume (t : Task) (w : World) : Task * World :=
  match t with
  | Start =>
      match Date_now w with
      | (Return now, w1) =>
          if ToBoolean (jwksCache w1) && (now - jwksFetchedAt w1 <? 10 * 60 * 1000)
          then (Finished (Return (jwksCache w1)), w1)
          else
            (AwaitConfig now (network host (trace w1) (JString oidcConfigUrl) None),
             record (EvFetch (JString oidcConfigUrl) None) w1)
      | (Throw e, w1) => (Finished (Throw e), w1)
      end
  | AwaitConfig now pending =>
      match settle pending with
      | Throw e => (Finished (Throw e), w)
      | Return cfg =>
          match Get cfg (js "jwks_uri") with
          | Throw e => (Finished (Throw e), w)
          | Return jwksUri =>
              (AwaitKeys now (network host (trace w) jwksUri None),
               record (EvFetch jwksUri None) w)
          end
      end
  | AwaitKeys now pending =>
      match settle pending with
      | Throw e => (Finished (Throw e), w)
      | Return jwks => (Finished (Return jwks), store jwks now w)
      end
  | Finished _ => (t, w)
  end.

Fixpoint update (i : nat) (t : Task) (pool : list Task) : list Task :=
  match pool, i with
  | [], _ => []
  | _ :: pool', O => t :: pool'
  | t0 :: pool', S i' => t0 :: update i' t pool'
  end.

(** Concurrent calls: the scheduler resumes the calls of [pool] in the
    order [schedule] names them. *)
Fixpoint run (schedule : list nat) (pool : list Task) (w : World)
  : list Task * World :=
  match schedule with
  | [] => (pool, w)
  | i :: rest =>
      match nth_error pool i with
      | Some t => let (t', w') := resume t w in run rest (update i t' pool) w'
      | None => run rest pool w
      end
  end.

End WithHost.

(** The number of times the key source was invoked: the requests for the
    discovery document. *)
Definition is_discovery_fetch (ev : Event) : bool :=
  match ev with
  | EvFetch (JString u) None => Str.eqb u oidcConfigUrl
  | _ => false
  end.

Definition keysource_calls (w : World) : nat :=
  List.length (filter is_discovery_fetch (trace w)).

Definition is_verify (ev : Event) : bool :=
  match ev with
  | EvVerify _ _ _ _ => true
  | _ => false
  end.

(** The JSON value a segment of the token decodes to:
    [JSON.parse(atob(segment))]. *)
Definition decode (segment : jsstring) : Outcome JSValue :=
  match atob segment with
  | Return text => JSON.parse text
  | Throw e => Throw e
  end.

(** The host, with the status of every response rewritten by [f]. *)
Definition with_status (f : Response -> Z) (host : Host) : Host :=
  {| clock := clock host;
     network := fun tr input init =>
                  match network host tr input init with
                  | Rejected e => Rejected e
                  | Fulfilled r => Fulfilled {| status := f r; body := body r |}
                  end;
     importKey := importKey host;
     verify := verify host;
     pathname := pathname host |}.

End Worker.

(** ** A reference host

    The WebCrypto operations the worker calls, for the one algorithm it
    names: SHA-256 (FIPS 180-4), RSASSA-PKCS1-v1_5 verification (RFC 8017,
    8.2.2) and the import of an RSA public key in JWK form.  The general
    statements below hold for every [Host]; this one runs the worker on
    concrete tokens. *)
Module SHA256.

Definition modulus : Z := 4294967296.

Definition rotr (n x : Z) : Z :=
  Z.lor (Z.shiftr x n) (Z.shiftl x (32 - n) mod modulus).

Definition xor3 (x y z : Z) : Z := Z.lxor (Z.lxor x y) z.

Definition Ch (x y z : Z) : Z :=
  Z.lxor (Z.land x y) (Z.land (Z.lxor x (modulus - 1)) z).
Definition Maj (x y z : Z) : Z := xor3 (Z.land x y) (Z.land x z) (Z.land y z).
Definition Sigma0 (x : Z) : Z := xor3 (rotr 2 x) (rotr 13 x) (rotr 22 x).
Definition Sigma1 (x : Z) : Z := xor3 (rotr 6 x) (rotr 11 x) (rotr 25 x).
Definition sigma0 (x : Z) : Z := xor3 (rotr 7 x) (rotr 18 x) (Z.shiftr x 3).
Definition sigma1 (x : Z) : Z := xor3 (rotr 17 x) (rotr 19 x) (Z.shiftr x 10).

Definition K : list Z :=
  [1116352408; 1899447441; 3049323471; 3921009573; 961987163; 1508970993;
   2453635748; 2870763221; 3624381080; 310598401; 607225278; 1426881987;
   1925078388; 2162078206; 2614888103; 3248222580; 3835390401; 4022224774;
   264347078; 604807628; 770255983; 1249150122; 1555081692; 1996064986;
   2554220882; 2821834349; 2952996808; 3210313671; 3336571891; 3584528711;
   113926993; 338241895; 666307205; 773529912; 1294757372; 1396182291;
   1695183700; 1986661051; 2177026350; 2456956037; 2730485921; 2820302411;
   3259730800; 3345764771; 3516065817; 3600352804; 4094571909; 275423344;
   430227734; 506948616; 659060556; 883997877; 958139571; 1322822218;
   1537002063; 1747873779; 1955562222; 2024104815; 2227730452; 2361852424;
   2428436474; 2756734187; 3204031479; 3329325298].

Definition H0 : list Z :=
  [1779033703; 3144134277; 1013904242; 2773480762; 1359893119; 2600822924;
   528734635; 1541459225].

(** Big-endian bytes of [x], [n] of them. *)
Fixpoint be_bytes_onto (n : nat) (x : Z) (tail : list Z) : list Z :=
  match n with
  | O => tail
  | S n' => be_bytes_onto n' (Z.shiftr x 8) (Z.land x 255 :: tail)
  end.

Definition be_bytes (n : nat) (x : Z) : list Z := be_bytes_onto n x [].

Definition pad (msg : list Z) : list Z :=
  let len := Z.of_nat (List.length msg) in
  msg ++ [128] ++ repeat 0 (Z.to_nat ((55 - len) mod 64)) ++ be_bytes 8 (8 * len).

Fixpoint words (bs : list Z) : list Z :=
  match bs with
  | a :: b :: c :: d :: rest => (((a * 256 + b) * 256 + c) * 256 + d) :: words rest
  | _ => []
  end.

(** The message schedule, latest word first. *)
Fixpoint extend (n : nat) (w : list Z) : list Z :=
  match n with
  | O => w
  | S n' =>
      extend n'
        (((sigma1 (nth 1 w 0) + nth 6 w 0 + sigma0 (nth 14 w 0) + nth 15 w 0)
            mod modulus) :: w)
  end.

Definition round (s : list Z) (kw : Z * Z) : list Z :=
  match s with
  | [a; b; c; d; e; f; g; h] =>
      let t1 := h + Sigma1 e + Ch e f g + fst kw + snd kw in
      let t2 := Sigma0 a + Maj a b c in
      [(t1 + t2) mod modulus; a; b; c; (d + t1) mod modulus; e; f; g]
  | _ => s
  end.

Definition compress (h : list Z) (block : list Z) : list Z :=
  let w := rev (extend 48 (rev (words block))) in
  let s := fold_left round (combine K w) h in
  map (fun p => (fst p + snd p) mod modulus) (combine h s).

Fixpoint blocks (n : nat) (h : list Z) (bs : list Z) : list Z :=
  match n with
  | O => h
  | S n' => blocks n' (compress h (firstn 64 bs)) (skipn 64 bs)
  end.

Definition digest (msg : list Z) : list Z :=
  let p := pad msg in
  flat_map (be_bytes 4) (blocks (List.length p / 64) H0 p).

End SHA256.

Module RSA.

Definition os2ip (bs : list Z) : Z := fold_left (fun a b => a * 256 + b) bs 0.

(** [b ^ e mod n] by squaring, on numbers held in machine words. *)
Fixpoint pow_mod_big (b : bigN) (e : positive) (n : bigN) : bigN :=
  match e with
  | xH => BigN.modulo b n
  | xO e' => let r := pow_mod_big b e' n in BigN.modulo (BigN.mul r r) n
  | xI e' =>
      let r := pow_mod_big b e' n in
      BigN.modulo (BigN.mul (BigN.modulo (BigN.mul r r) n) b) n
  end.

Definition pow_mod (b : Z) (e : positive) (n : Z) : Z :=
  BigN.to_Z (pow_mod_big (BigN.of_N (Z.to_N b)) e (BigN.of_N (Z.to_N n))).

(** The DER prefix of a SHA-256 [DigestInfo]. *)
Definition digest_info_prefix : list Z :=
  [48; 49; 48; 13; 6; 9; 96; 134; 72; 1; 101; 3; 4; 2; 1; 5; 0; 4; 32].

(** EMSA-PKCS1-v1_5 encoding of a message to [k] bytes. *)
Definition emsa_encode (k : nat) (msg : list Z) : list Z :=
  let t := digest_info_prefix ++ SHA256.digest msg in
  [0; 1] ++ repeat 255 (k - 3 - List.length t) ++ [0] ++ t.

Definition list_eqb (a b : list Z) : bool := Str.eqb a b.

(** RSASSA-PKCS1-v1_5 verification under the public key [(n, e)]. *)
Definition verify (n e : Z) (signature msg : list Z) : bool :=
  let k := Z.to_nat (Z.log2 n / 8 + 1) in
  match e with
  | Zpos pe =>
      let s := os2ip signature in
      (List.length signature =? k)%nat && (s <? n)
      && (62 <=? k)%nat
      && list_eqb (SHA256.be_bytes k (pow_mod s pe n)) (emsa_encode k msg)
  | _ => false
  end.

End RSA.

Module Reference.

Import JS Host.

Definition data_error (m : string) : JsExn := DOMException (js "DataError") (js m).

Definition member (name : string) (props : list (jsstring * JSValue))
  : option JSValue := own_property (js name) props.

Definition member_is (name value : string) (props : list (jsstring * JSValue))
  : bool :=
  match member name props with
  | Some (JString s) => Str.eqb s (js value)
  | _ => false
  end.

Definition absent_or (name value : string) (props : list (jsstring * JSValue))
  : bool :=
  match member name props with
  | None => true
  | Some (JString s) => Str.eqb s (js value)
  | Some _ => false
  end.

Definition key_ops_allow (usage : jsstring) (props : list (jsstring * JSValue))
  : bool :=
  match member "key_ops" props with
  | None => true
  | Some (JArray ops) =>
      existsb (fun o => match o with JString s => Str.eqb s usage | _ => false end)
        ops
  | Some _ => false
  end.

Definition integer_member (name : string) (props : list (jsstring * JSValue))
  : option Z :=
  match member name props with
  | Some (JString s) => option_map RSA.os2ip (Base64.url_decode s)
  | _ => None
  end.

(** [importKey] of an RSA public key in JWK form for RSASSA-PKCS1-v1_5 with
    SHA-256 and usages within [verify]: the key type must be [RSA]; a
    [use] must be [sig]; [key_ops] must allow every usage; an [alg] must be
    [RS256], the name of this algorithm with this hash. *)
Definition importKey (format : jsstring) (keyData : JSValue)
    (algorithm : Algorithm) (extractable : bool) (usages : list jsstring)
  : Outcome CryptoKey :=
  if negb (Str.eqb format (js "jwk")
           && Str.eqb (alg_name algorithm) (js "RSASSA-PKCS1-v1_5")
           && Str.eqb (alg_hash algorithm) (js "SHA-256"))
  then Throw (DOMException (js "NotSupportedError") (js "Unsupported import"))
  else
    match keyData with
    | JObject props =>
        if match member "d" props with Some _ => true | None => false end
           || negb (forallb (fun u => Str.eqb u (js "verify")) usages)
        then Throw (DOMException (js "SyntaxError") (js "Invalid key usage"))
        else if negb (member_is "kty" "RSA" props)
        then Throw (data_error "Invalid key type")
        else if negb (absent_or "use" "sig" props)
        then Throw (data_error "Invalid use")
        else if negb (forallb (fun u => key_ops_allow u props) usages)
        then Throw (data_error "Invalid key_ops")
        else if extractable
                && match member "ext" props with
                   | Some (JBool false) => true
                   | _ => false
                   end
        then Throw (data_error "Key is not extractable")
        else if negb (absent_or "alg" "RS256" props)
        then Throw (data_error "Invalid alg")
        else
          match integer_member "n" props, integer_member "e" props with
          | Some n, Some e =>
              Return {| key_algorithm := algorithm;
                        key_extractable := extractable;
                        key_usages := usages;
                        key_modulus := n;
                        key_exponent := e |}
          | _, _ => Throw (data_error "Invalid key data")
          end
    | JArray _ | JFunction => Throw (data_error "Invalid key type")
    | _ => Throw (TypeError (js "Key data must be an object"))
    end.

(** [verify]: the algorithm must be the key's and the key must allow
    verification. *)
Definition verify (algorithm : jsstring) (key : CryptoKey)
    (signature data : list Z) : Outcome bool :=
  if negb (Str.eqb algorithm (alg_name (key_algorithm key))
           && existsb (Str.eqb (js "verify")) (key_usages key))
  then Throw (DOMException (js "InvalidAccessError") (js "Key mismatch"))
  else Return (RSA.verify (key_modulus key) (key_exponent key) signature data).

(** The path of an absolute URL of the form [scheme://host/path?query]. *)
Fixpoint after_scheme (s : jsstring) : option jsstring :=
  match s with
  | 58 :: 47 :: 47 :: rest => Some rest
  | _ :: s' => after_scheme s'
  | [] => None
  end.

Fixpoint up_to_query (s : jsstring) : jsstring :=
  match s with
  | c :: s' => if (c =? 63) || (c =? 35) then [] else c :: up_to_query s'
  | [] => []
  end.

Fixpoint from_slash (s : jsstring) : jsstring :=
  match s with
  | 47 :: _ => s
  | _ :: s' => from_slash s'
  | [] => js "/"
  end.

Definition pathname (u : jsstring) : Outcome jsstring :=
  match after_scheme u with
  | Some rest => Return (from_slash (up_to_query rest))
  | None => Throw (TypeError (js "Invalid URL"))
  end.

(** A JSON text written with ['] for the quotation mark. *)
Definition text (s : string) : jsstring :=
  map (fun c => if c =? 39 then 34 else c) (js s).

End Reference.

(** ** Tokens and hosts to run the worker on

    An RSA key of 2048 bits, tokens signed with it (RS256) and a host
    that serves its public half the way the issuer does. *)
Module Example.

Import JS Host Worker.

(** The modulus of the key, base64url. *)
Definition modulus : jsstring :=
  js "8UU_L7WGCmBynhHKNZVhDfljNUv_5dDHufaj4d50Mj7UlxBimxqKxJSQVIdN"
  ++ js "jH_z1XU5AUE6QAutQLqZJ3s5rS6M3ihQit-jfIxwU_mfgiAxyBsBVSfAgQgE"
  ++ js "rGiev8vhlLHmVzeTck8tmcfIGN36Y4x-pfttPKrOIdjEXEIH5zr5Ve5GA9HZ"
  ++ js "PVh2NAVZx76enYKw7uaTYClSxEC7OYB08emMGOuziFFFNB_-r-N0qEHcsV5d"
  ++ js "njYdNlTs0DHdsn-CbPSv6j4SIiuCvj1nuE_niZn-y_-go7EXpEhS-sh_h7mM"
  ++ js "bq0T3vbYJ5izCcvz3yNRR14g-O25emF83_YxBouYrQ".

Definition jwks_uri : jsstring :=
  js "https://integrator-2817162.okta.com/oauth2/default/v1/keys".

Definition discovery_document : jsstring :=
  Reference.text "{'issuer':'https://integrator-2817162.okta.com/oauth2/default',"
  ++ Reference.text "'jwks_uri':'https://integrator-2817162.okta.com/oauth2/default/v1/keys'}".

(** The key set of the issuer: one key, named [k1]. *)
Definition key_set : jsstring :=
  Reference.text "{'keys':[{'kty':'RSA','alg':'RS256','kid':'k1','use':'sig','e':'AQAB','n':'"
  ++ modulus ++ Reference.text "'}]}".

(** The same key published without a [kid], which a JWK need not have. *)
Definition key_set_unnamed : jsstring :=
  Reference.text "{'keys':[{'kty':'RSA','alg':'RS256','use':'sig','e':'AQAB','n':'"
  ++ modulus ++ Reference.text "'}]}".

(** The same key declaring [RS384], which is not the algorithm the worker
    imports keys for. *)
Definition key_set_RS384 : jsstring :=
  Reference.text "{'keys':[{'kty':'RSA','alg':'RS384','kid':'k1','use':'sig','e':'AQAB','n':'"
  ++ modulus ++ Reference.text "'}]}".

(** A network on which the discovery endpoint answers 200 and the JWKS
    endpoint answers [keys_status] with the body [keys]; the backend
    answers 200. *)
Definition issuer (keys_status : Z) (keys : jsstring)
    (_ : list Event) (input : JSValue) (_ : option Request) : FetchResult :=
  match input with
  | JString u =>
      if Str.eqb u oidcConfigUrl
      then Fulfilled {| status := 200; body := discovery_document |}
      else if Str.eqb u jwks_uri
      then Fulfilled {| status := keys_status; body := keys |}
      else if Str.startsWith API_BACKEND u
      then Fulfilled {| status := 200; body := js "backend" |}
      else Rejected (TypeError (js "fetch failed"))
  | _ => Rejected (TypeError (js "Invalid URL"))
  end.


(** A host whose clock stands at [now] milliseconds. *)
Definition host_with (now : Z)
    (net : list Event -> JSValue -> option Request -> FetchResult) : Host :=
  {| clock := fun _ => now;
     network := net;
     importKey := Reference.importKey;
     verify := Reference.verify;
     pathname := Reference.pathname |}.

(** The usual host: the time is 1 900 000 000 s, the issuer is up. *)
Definition host : Host := host_with 1900000000000 (issuer 200 key_set).

(** A token with [kid] [k1], the issuer of the worker, subject [u1] and
    [exp] 2 000 000 000, all three segments in the alphabet [atob] reads.
    Header [{'alg':'RS256','kid':'k1'}],
    payload [{'iss':'https://integrator-2817162.okta.com/oauth2/default','sub':'u1','exp':2000000000,'jti':'t34984'}]. *)
Definition token : jsstring :=
  js "eyJhbGciOiJSUzI1NiIsImtpZCI6ImsxIn0"
  ++ js "."
  ++ js "eyJpc3MiOiJodHRwczovL2ludGVncmF0b3ItMjgxNzE2Mi5va3RhLmNvbS9v"
  ++ js "YXV0aDIvZGVmYXVsdCIsInN1YiI6InUxIiwiZXhwIjoyMDAwMDAwMDAwLCJq"
  ++ js "dGkiOiJ0MzQ5ODQifQ"
  ++ js "."
  ++ js "YJl4FS4Y0aCp0zoO5WODZca2i5DUiyT1mNR7QwRZ6r3r1mCRw8Y8xPAtkpXu"
  ++ js "y3FgC3dQEFCRrQBUGpsy6C8RoNCv88WxZjNsIEcpTkJmgbcGvQ6WbNEKWhDE"
  ++ js "rBy4USB1etRLHb5OlHUt2lY54OG1R9Aj81SNrmJ38sb1rv1jyr0KMpSTxcFY"
  ++ js "fvExG9zaNGtjoEYhNn5EN62iTULh3jjsgx9NYhxHnlZEPczXHq3sj7xEDmO1"
  ++ js "W3cmz1sKeWHyl6s4AeTxIdzFxnaAUfbJy3lLFC6GdKTYD7CUtBy6H5RYwY7D"
  ++ js "vWFQtZ0cRj7xJI6bZdwDAK4ydBglx1FSLhMi5AsQLQ".

(** The same claims without [exp].
    Header [{'alg':'RS256','kid':'k1'}],
    payload [{'iss':'https://integrator-2817162.okta.com/oauth2/default','sub':'u1','jti':'t58395'}]. *)
Definition token_without_exp : jsstring :=
  js "eyJhbGciOiJSUzI1NiIsImtpZCI6ImsxIn0"
  ++ js "."
  ++ js "eyJpc3MiOiJodHRwczovL2ludGVncmF0b3ItMjgxNzE2Mi5va3RhLmNvbS9v"
  ++ js "YXV0aDIvZGVmYXVsdCIsInN1YiI6InUxIiwianRpIjoidDU4Mzk1In0"
  ++ js "."
  ++ js "7KodYD3Y8wHEJyOErZIAgM6Zlw6jPV7Zpc8GZakcalgVcEcNKM0fR5wQ4uTA"
  ++ js "YT5ONQCukGYLV8JideLAn6DwnWbw3Wzv7UaaJRp8INvZFe7xRW12xOKzB8Jz"
  ++ js "LaMAy5wnjlR8yO69nVZaF1l58e4zrnunPqXI8ivOkzq9gep9cIWF6hehaFiK"
  ++ js "qbpEIZqXJ5250LHirrsDpgV0xF41A6beSnbIik8ufccG3zELqOFzadVpK6sJ"
  ++ js "Oy5U6QrOt6ctTyrKNZakRZb7Jjbf1JFVQvCkvDJMZiw8DzgPMVSYL28qWKoy"
  ++ js "E1JPBojbEGr3Z5vvJ3CU5m5N1JuMjA2H1ADhYEat0A".

(** A token whose header declares [HS256], signed with the RSA key.
    Header [{'alg':'HS256','kid':'k1'}],
    payload [{'iss':'https://integrator-2817162.okta.com/oauth2/default','sub':'u1','exp':2000000000,'jti':'t103966'}]. *)
Definition token_declaring_HS256 : jsstring :=
  js "eyJhbGciOiJIUzI1NiIsImtpZCI6ImsxIn0"
  ++ js "."
  ++ js "eyJpc3MiOiJodHRwczovL2ludGVncmF0b3ItMjgxNzE2Mi5va3RhLmNvbS9v"
  ++ js "YXV0aDIvZGVmYXVsdCIsInN1YiI6InUxIiwiZXhwIjoyMDAwMDAwMDAwLCJq"
  ++ js "dGkiOiJ0MTAzOTY2In0"
  ++ js "."
  ++ js "eBpW7kqWkM9b4BT0AKPNKsHEsKWTezrU0ZP9XIrCS2fZMJpGoUMSuP80KjGn"
  ++ js "8NCF8BjDp2v6vqL95jQXP73j9ZVJjoJFGUKFruzXINQNuSB1o3iZaOMiIEdx"
  ++ js "45ciaE9e4DLBqsxvTzjvUJQHzt2d7PHt92vzirnXFAbEtfOUmPEr21WfZe5q"
  ++ js "rT28xnk52IYV7zX3FpDXrRrIW9OXS1OjFKXYDddh0g1N86m23rxDiCaVeGgg"
  ++ js "yr8sH80BvhvP1cEg33gTnPe9WMrrEnnaeif8OZ01tnTyQIm6dwwCJh94iYJS"
  ++ js "xyzgsUQf8rZipWwnHQLCr8X1W1mq5Mm6XWSQlsR0jQ".

(** A token whose header has no [kid].
    Header [{'alg':'RS256'}],
    payload [{'iss':'https://integrator-2817162.okta.com/oauth2/default','sub':'u1','exp':2000000000,'jti':'t9614'}]. *)
Definition token_without_kid : jsstring :=
  js "eyJhbGciOiJSUzI1NiJ9"
  ++ js "."
  ++ js "eyJpc3MiOiJodHRwczovL2ludGVncmF0b3ItMjgxNzE2Mi5va3RhLmNvbS9v"
  ++ js "YXV0aDIvZGVmYXVsdCIsInN1YiI6InUxIiwiZXhwIjoyMDAwMDAwMDAwLCJq"
  ++ js "dGkiOiJ0OTYxNCJ9"
  ++ js "."
  ++ js "QwoJxj9CYvhcFn9CmQyntfCz6yfZTAQDdSaB8NsvahuWBY9nu1e7RRkfvAwC"
  ++ js "90ekzatvaiIlNotguMZdfIQaF7049pR5FpZ4f5X5C39BIpI2hJZdIDHoUtXw"
  ++ js "4YmK1D6CEZZusP1ejqT9Q8cZGlKhA5XqBbtalEnBqVRl4HZx53wsWRt1pdZN"
  ++ js "XNq91aVegPRb3ISTaMvOocCbgUiEiv1yLjX8eerXqllHVq70lIQaGvWPvViP"
  ++ js "uF7bHKH6gsJfC252zeEaJvue8lpVpJbLTfXwHmLXXeXgNs6EJMjrz8ai5yr2"
  ++ js "dqhSBfDkWjwjgGkaZUdqWYYew8ZQX7ourUVtZVy5Dg".

(** A token without [sub].
    Header [{'alg':'RS256','kid':'k1'}],
    payload [{'iss':'https://integrator-2817162.okta.com/oauth2/default','exp':2000000000,'jti':'t30541'}]. *)
Definition token_without_sub : jsstring :=
  js "eyJhbGciOiJSUzI1NiIsImtpZCI6ImsxIn0"
  ++ js "."
  ++ js "eyJpc3MiOiJodHRwczovL2ludGVncmF0b3ItMjgxNzE2Mi5va3RhLmNvbS9v"
  ++ js "YXV0aDIvZGVmYXVsdCIsImV4cCI6MjAwMDAwMDAwMCwianRpIjoidDMwNTQx"
  ++ js "In0"
  ++ js "."
  ++ js "pEnIypoGxuhxU9CK5G2gN5HN5s4zxj4Hwq6ihhAO9JVmQDT3fFjVTt5VxKgu"
  ++ js "xjlnrnkKG3yCh86x6DwuJtDvO1YjcY5IkVrRAybWtLbjLZ6WHFkb6DatJHfY"
  ++ js "8OJI7bmdiD6A3P5dzprx1QLgmDxxULwbMPdDzFgQq0szDksqqhAvD50obKFu"
  ++ js "7jMhql7eOrlIl92oOMFKgfelRFETBAuDJpA8Qv4Vd67chNWSkRTPNDiMj2dS"
  ++ js "vqFqLIxpbnh5nl3OlZcRsSzGRVItwjKQl92ULQJXE3eCu5UzreDbA0cAGQiS"
  ++ js "DkVHTu5iVbtbQv5NDdBAgC3xoinTwUwYhfgZahPn8A".

(** A token whose [sub] is the empty string.
    Header [{'alg':'RS256','kid':'k1'}],
    payload [{'iss':'https://integrator-2817162.okta.com/oauth2/default','sub':'','exp':2000000000,'jti':'t95441'}]. *)
Definition token_with_empty_sub : jsstring :=
  js "eyJhbGciOiJSUzI1NiIsImtpZCI6ImsxIn0"
  ++ js "."
  ++ js "eyJpc3MiOiJodHRwczovL2ludGVncmF0b3ItMjgxNzE2Mi5va3RhLmNvbS9v"
  ++ js "YXV0aDIvZGVmYXVsdCIsInN1YiI6IiIsImV4cCI6MjAwMDAwMDAwMCwianRp"
  ++ js "IjoidDk1NDQxIn0"
  ++ js "."
  ++ js "kvuWs4e23404zIT55ELrz1vwNUSdIkrIMhrPZs900nYPcjPRI5ncZsMoncLp"
  ++ js "HYro6i0Ai11t9IQ5ujqOhWfyCMuGcmHVD2lXrjw82nDFc52KYstQYzElBRRC"
  ++ js "g55wd4HsZjKUetxIZASa01J80hFjYkzrwKfta8HXkfEd4eWgkdXCJKxxzwHD"
  ++ js "YcNhxjYNrGNYecw2rBlbp3GaxSYDXKQYtv82Mguz1VDfGNdRwL2YzRbCpFCx"
  ++ js "SnquxdpGavPVr6FMXRq4BJYjLN52dpTOp0CvllGeKLZRxhML6sMEUCmHqlMn"
  ++ js "0qm1HrSDdxWk33YqXBU2sHLnrWZq9tuCfib60rWNFQ".

(** A token signed with the key whose [iss] names another issuer.
    Header [{'alg':'RS256','kid':'k1'}],
    payload [{'iss':'https://login.example.org/oauth2/default','sub':'u1','exp':2000000000,'jti':'t153486'}]. *)
Definition token_of_another_issuer : jsstring :=
  js "eyJhbGciOiJSUzI1NiIsImtpZCI6ImsxIn0"
  ++ js "."
  ++ js "eyJpc3MiOiJodHRwczovL2xvZ2luLmV4YW1wbGUub3JnL29hdXRoMi9kZWZh"
  ++ js "dWx0Iiwic3ViIjoidTEiLCJleHAiOjIwMDAwMDAwMDAsImp0aSI6InQxNTM0"
  ++ js "ODYifQ"
  ++ js "."
  ++ js "3qFSrgsXe1QBkP2dp42cvqSHNT91ZmALHOpQYGZT9cdxUwW0s084mNVkVjWT"
  ++ js "3ZXH1KgE4HMsP68wjFLnOxAgEAB87QZsYmuh1vJjAZzwGt7uSaU0PeYYV5jU"
  ++ js "iqPZzeFFeWf5ll3iiGx5jIIOxmpygxFMrEMEmleraPQXdx0F9zYyafwCcv8f"
  ++ js "7uBIFnjTsPQMpnhLcJDTA1M7ZiImIyftrcVXGO2GjSLrYJZZsuEJqeLmMxYJ"
  ++ js "I7gxn3nBBZWNTEphUqLyYnlxtuDjcGLQoMm44aXDfD4CPBLgndkiLfsPrjWB"
  ++ js "qN2DXFiOagtgJ1t4DLqFCjNSsshCA903yVWjmksUOg".

(** A token whose [exp] is the string of digits, not a number.
    Header [{'alg':'RS256','kid':'k1'}],
    payload [{'iss':'https://integrator-2817162.okta.com/oauth2/default','sub':'u1','exp':'2000000000','jti':'t8522'}]. *)
Definition token_with_string_exp : jsstring :=
  js "eyJhbGciOiJSUzI1NiIsImtpZCI6ImsxIn0"
  ++ js "."
  ++ js "eyJpc3MiOiJodHRwczovL2ludGVncmF0b3ItMjgxNzE2Mi5va3RhLmNvbS9v"
  ++ js "YXV0aDIvZGVmYXVsdCIsInN1YiI6InUxIiwiZXhwIjoiMjAwMDAwMDAwMCIs"
  ++ js "Imp0aSI6InQ4NTIyIn0"
  ++ js "."
  ++ js "IOIOwtZNs4oHSMFf0RKQucq2pKNNkwHhfkCdvAdJRY0GQ7QDDVqWZI1fQt8Z"
  ++ js "J4cjhvueBjikxs1S24KztfNrIHXGWvb5A37LMRSgmjvQFRuyHnMe69sSDobn"
  ++ js "TDW1QQ8sSYa7bbNDH54q5ZdU8znf5yjoCHJk1Fxb8eExrhM9lAllAG1aRboM"
  ++ js "xarL6aEtAX4DTYO75SoL1veScktlCTbEvUZOrvtV8EfC7y3MtqwmMxB4cRZm"
  ++ js "UGIxJtZ01mVE7W9sfo1RmGLx3SCfyWNb2BPbRsTUkTXLj3QhBdTemjKoOA36"
  ++ js "XyowhJzOrSNMyazde4GRUkAVhxtcuTpoK7iFkXI0rg".

(** A token as an issuer sends it: its signature segment, in base64url,
    contains [-] and [_].
    Header [{'alg':'RS256','kid':'k1'}],
    payload [{'iss':'https://integrator-2817162.okta.com/oauth2/default','sub':'u1','exp':2000000000}]. *)
Definition token_base64url : jsstring :=
  js "eyJhbGciOiJSUzI1NiIsImtpZCI6ImsxIn0"
  ++ js "."
  ++ js "eyJpc3MiOiJodHRwczovL2ludGVncmF0b3ItMjgxNzE2Mi5va3RhLmNvbS9v"
  ++ js "YXV0aDIvZGVmYXVsdCIsInN1YiI6InUxIiwiZXhwIjoyMDAwMDAwMDAwfQ"
  ++ js "."
  ++ js "fQfofjJEinGIMaVAMujnWnOX2_ZwZtILxvd0UC1Wh-YB47z4CXeRq6GwL3Lc"
  ++ js "6KenKe0bBykliYFCpTTIF1q3QTSbsHx2ztynP1-0eipgKn4SAUNa_G506UXq"
  ++ js "AOuk48vK3hvNb5jkPEAVVfOrjI6dDUE6gJAZ2sIm5vMh2M0WxzJvbxrqG80w"
  ++ js "cxwnOc8Hs9xjdv4zHgLzmOoLzhqD4VcaEF2Fa_jHn6nzOFYbT0Xo79w9hkQD"
  ++ js "P3uuzp_kKCzY9RXKxhcrxRo4raBvCq3Jsr8fLZw2fzY_fQ-OZEUZKg9jXqZb"
  ++ js "J4DrjT_wgjmSAqe2LwozD5WauL2IpB_TJ7Qg9Rl9ug".

End Example.

(** ** Predicates of the statements below *)

Import JS Host Worker.
Local Open Scope worker_scope.

(** Every host call [m] makes satisfies [P]. *)
Definition logs (P : Event -> Prop) {A} (m : M A) : Prop :=
  forall w, exists new, trace (snd (m w)) = new ++ trace w /\ Forall P new.

(** [m] always throws, and every host call it makes satisfies [P]. *)
Definition fails (P : Event -> Prop) {A} (m : M A) : Prop :=
  forall w, exists e new,
    fst (m w) = Throw e /\ trace (snd (m w)) = new ++ trace w /\ Forall P new.

(** The world after one more reading of the clock. *)
Definition tick (w : World) : World :=
  {| jwksCache := jwksCache w; jwksFetchedAt := jwksFetchedAt w;
     clock_reads := S (clock_reads w); trace := trace w |}.

(** Whether a call that reads the time [now] is served from the cache
    (line 15). *)
Definition fresh (w : World) (now : Z) : bool :=
  ToBoolean (jwksCache w) && (now - jwksFetchedAt w <? 10 * 60 * 1000).

(** What the worker asks of WebCrypto: the import of a JWK for
    RSASSA-PKCS1-v1_5 with SHA-256, and verification under
    RSASSA-PKCS1-v1_5. *)
Definition fixed_algorithm (ev : Event) : Prop :=
  match ev with
  | EvFetch _ _ => True
  | EvImportKey format _ algorithm extractable usages =>
      format = js "jwk" /\ algorithm = import_algorithm
      /\ extractable = false /\ usages = [js "verify"]
  | EvVerify algorithm _ _ _ => algorithm = RSASSA_PKCS1_v1_5
  end.

Definition quiet (ev : Event) : Prop := fixed_algorithm ev /\ is_verify ev = false.

(** The host calls of [m] name the fixed algorithm, and if one of them is
    a verification the host answers [false], [m] throws
    [Error("Invalid signature")]. *)
Definition sound (host : Host) {A} (m : M A) : Prop :=
  forall w, exists new,
    trace (snd (m w)) = new ++ trace w
    /\ Forall fixed_algorithm new
    /\ forall algorithm key signature data,
         In (EvVerify algorithm key signature data) new ->
         verify host algorithm key signature data = Return false ->
         fst (m w) = Throw (Error (js "Invalid signature")).

(** The exceptions [validateJWT] raises with a [throw] of its own (lines
    31, 40, 58, 61 and 62). *)
Definition own_errors : list JsExn :=
  [Error (js "Invalid JWT format"); Error (js "No matching JWK");
   Error (js "Invalid signature"); Error (js "Invalid issuer");
   Error (js "Token expired")].

(** The bearer request carrying [token]. *)
Definition request (token : jsstring) : Request :=
  {| authorization := Some (js "Bearer " ++ token);
     url := js "https://gateway.example.com/v1/orders";
     method := js "GET";
     req_body := [] |}.

(** [JSON.parse] of a segment decoded as base64url, which is what the
    token format prescribes. *)
Definition decode_url (segment : jsstring) : Outcome JSValue :=
  match Base64.url_decode segment with
  | Some text => JSON.parse text
  | None => Throw (SyntaxError (js "not base64url"))
  end.


(** ** More predicates and inputs for the statements below *)

(** The number of dots of a token. *)
Definition dots (token : jsstring) : nat := count_occ Z.eq_dec token 46.

(** A byte. *)
Definition octet (b : Z) : Prop := 0 <= b < 256.

(** A request with [header] as its Authorization header, or none. *)
Definition request_with (header : option jsstring) : Request :=
  {| authorization := header;
     url := js "https://gateway.example.com/v1/orders?id=7";
     method := js "GET";
     req_body := [] |}.

(** The comparison [k.kid === header.kid] of line 39 has the result
    [r], neither property read throwing. *)
Definition kid_compares (header k : JSValue) (r : bool) : Prop :=
  exists a b,
    Get k (js "kid") = Return a /\ Get header (js "kid") = Return b
    /\ strict_eq a b = r.

(** Kinds of host calls. *)
Definition is_fetch (ev : Event) : bool :=
  match ev with
  | EvFetch _ _ => true
  | _ => false
  end.

Definition is_importKey (ev : Event) : bool :=
  match ev with
  | EvImportKey _ _ _ _ _ => true
  | _ => false
  end.

(** A request the worker sends without an [init] argument: those of
    [getJWKS]. *)
Definition without_init (ev : Event) : Prop :=
  match ev with
  | EvFetch _ (Some _) => False
  | _ => True
  end.

(** The number of calls of a kind among [events]. *)
Definition calls (kind : Event -> bool) (events : list Event) : nat :=
  List.length (filter kind events).

(** A host whose JWKS endpoint answers 200 with an error document
    instead of a key set. *)
Definition host_with_error_document : Host :=
  Example.host_with 1900000000000
    (Example.issuer 200 (Reference.text "{'error':'temporarily unavailable'}")).

(** [pending] is the settlement of a request made without [init]. *)
Definition requested (host : Host) (pending : FetchResult) : Prop :=
  exists tr input, pending = network host tr input None.

(** The time a suspended call holds was read from the clock at one of the
    readings [first], ..., [next - 1], and the settlement it awaits at
    line 23 is that of a request. *)
Definition task_since (host : Host) (first next : nat) (t : Task) : Prop :=
  match t with
  | Start | Finished _ => True
  | AwaitConfig now _ => exists i, (first <= i < next)%nat /\ now = clock host i
  | AwaitKeys now pending =>
      (exists i, (first <= i < next)%nat /\ now = clock host i)
      /\ requested host pending
  end.

(** The cache entry of [w] is that of [w0], or the parsed body of a
    response together with a time read from the clock since [w0]. *)
Definition entry_since (host : Host) (w0 w : World) : Prop :=
  (jwksCache w = jwksCache w0 /\ jwksFetchedAt w = jwksFetchedAt w0)
  \/ exists i pending,
       (clock_reads w0 <= i < clock_reads w)%nat
       /\ jwksFetchedAt w = clock host i
       /\ requested host pending
       /\ settle pending = Return (jwksCache w).

(** The requests a call of [getJWKS] may still make. *)
Definition requests_left (t : Task) : nat :=
  match t with
  | Start => 2
  | AwaitConfig _ _ => 1
  | AwaitKeys _ _ | Finished _ => 0
  end.

Definition requests_of (pool : list Task) : nat := list_sum (map requests_left pool).

(** A host on which the issuer is up and the backend is out of reach:
    requests with an [init], those of the handler, are rejected. *)
Definition host_without_backend : Host :=
  Example.host_with 1900000000000
    (fun tr input init =>
       match init with
       | Some _ => Rejected (TypeError (js "fetch failed"))
       | None => Example.issuer 200 Example.key_set tr input init
       end).

(** A host whose clock gives the times of [times] in turn; the issuer is
    up. *)
Definition host_with_times (times : list Z) : Host :=
  {| clock := fun n => nth n times 0;
     network := Example.issuer 200 Example.key_set;
     importKey := Reference.importKey;
     verify := Reference.verify;
     pathname := Reference.pathname |}.

(** A host whose JWKS endpoint serves a key set with the number 0 as its
    only element. *)
Definition host_with_number_as_key : Host :=
  Example.host_with 1900000000000
    (Example.issuer 200 (Reference.text "{'keys':[0]}")).

(** * Properties *)

(** ** The built-ins on small inputs *)

Example split_three : Str.split 46 (js "a.b.c") = [js "a"; js "b"; js "c"].
Proof. reflexivity. Qed.

Example split_empty_segments : Str.split 46 (js "a..") = [js "a"; []; []].
Proof. reflexivity. Qed.

Example split_no_separator : Str.split 46 (js "abc") = [js "abc"].
Proof. reflexivity. Qed.

Example atob_without_padding : atob (js "YWI") = Return (js "ab").
Proof. reflexivity. Qed.

Example atob_with_padding_and_spaces : atob (js " YWI= ") = Return (js "ab").
Proof. reflexivity. Qed.

Example atob_stray_padding : exists e, atob (js "YQ=") = Throw e.
Proof. eexists; reflexivity. Qed.

Example atob_one_character : exists e, atob (js "a") = Throw e.
Proof. eexists; reflexivity. Qed.

Example atob_url_alphabet : exists e, atob (js "ab-d") = Throw e.
Proof. eexists; reflexivity. Qed.

Example parse_object :
  JSON.parse (Reference.text "{'kid':'k1','n':[1,true,null],'kid':'k2'}")
  = Return (JObject [(js "kid", JString (js "k1"));
                     (js "n", JArray [JNumber (Num.of_Z 1); JBool true; JNull]);
                     (js "kid", JString (js "k2"))]).
Proof. reflexivity. Qed.

Example later_member_wins :
  Get (JObject [(js "kid", JString (js "k1")); (js "kid", JString (js "k2"))])
    (js "kid")
  = Return (JString (js "k2")).
Proof. reflexivity. Qed.

Example parse_escape :
  JSON.parse (Reference.text "'aA\n'") = Return (JString [97; 65; 10]).
Proof. reflexivity. Qed.

Example parse_rejects_trailing_comma :
  exists e, JSON.parse (js "[1,]") = Throw e.
Proof. eexists; reflexivity. Qed.

Example parse_rejects_leading_zero : exists e, JSON.parse (js "01") = Throw e.
Proof. eexists; reflexivity. Qed.

Example parse_rejects_two_values : exists e, JSON.parse (js "1 2") = Throw e.
Proof. eexists; reflexivity. Qed.

Example one_tenth :
  Num.of_string (js "0.1") = S754_finite false 7205759403792794 (-56).
Proof. vm_compute. reflexivity. Qed.

Example above_the_largest : Num.of_string (js "1.8e308") = S754_infinity false.
Proof. vm_compute. reflexivity. Qed.

Example smallest_subnormal :
  Num.of_string (js "5e-324") = S754_finite false 1 (-1074).
Proof. vm_compute. reflexivity. Qed.

Example integer_is_exact :
  Num.mul (Num.of_Z 2000000000) (Num.of_Z 1000) = Num.of_Z 2000000000000.
Proof. vm_compute. reflexivity. Qed.

Example ToNumber_undefined : ToNumber JUndefined = Return Num.NaN.
Proof. reflexivity. Qed.

Example ToNumber_null : ToNumber JNull = Return Num.zero.
Proof. reflexivity. Qed.

Example ToNumber_string :
  ToNumber (JString (js " 12 ")) = Return (Num.of_Z 12).
Proof. vm_compute. reflexivity. Qed.

Example ToNumber_singleton :
  ToNumber (JArray [JString (js "0x10")]) = Return (Num.of_Z 16).
Proof. vm_compute. reflexivity. Qed.

Example ToNumber_object : ToNumber (JObject []) = Return Num.NaN.
Proof. reflexivity. Qed.

Example ToNumber_own_toString :
  exists e, ToNumber (JObject [(js "toString", JNull)]) = Throw e.
Proof. eexists; reflexivity. Qed.

Example NaN_is_below_nothing (x : Num.number) : Num.ltb Num.NaN x = false.
Proof. reflexivity. Qed.

Example utf8_two_bytes : utf8_encode [233] = [195; 169].
Proof. reflexivity. Qed.

Example sha256_abc :
  SHA256.digest (js "abc")
  = [186; 120; 22; 191; 143; 1; 207; 234; 65; 65; 64; 222; 93; 174; 34; 35;
     176; 3; 97; 163; 150; 23; 122; 156; 180; 16; 255; 97; 242; 0; 21; 173].
Proof. vm_compute. reflexivity. Qed.

Example pow_mod_small : RSA.pow_mod 4 13 497 = 445.
Proof. vm_compute. reflexivity. Qed.

(** ** Strings and [atob] *)

Lemma Str_eqb_eq (a b : jsstring) : Str.eqb a b = true <-> a = b.
Proof.
  revert b; induction a as [|x a IH]; intros [|y b]; simpl;
    try (split; [discriminate | congruence]); try tauto.
  rewrite andb_true_iff, Z.eqb_eq, IH.
  split; [intros [-> ->]; reflexivity | intros [= -> ->]; auto].
Qed.

Lemma Str_eqb_refl (a : jsstring) : Str.eqb a a = true.
Proof. apply Str_eqb_eq; reflexivity. Qed.

Lemma mem_In (c : Z) (s : jsstring) : Str.mem c s = true -> In c s.
Proof.
  unfold Str.mem; rewrite existsb_exists.
  intros (x & Hx & E); apply Z.eqb_eq in E; subst; assumption.
Qed.

Lemma values_outside_alphabet (c : Z) (s : jsstring) :
  In c s -> Base64.value c = None -> Base64.values s = None.
Proof.
  induction s as [|d s IH]; simpl; [tauto|].
  intros [-> | Hin] Hc.
  - rewrite Hc; reflexivity.
  - rewrite (IH Hin Hc); destruct (Base64.value d); reflexivity.
Qed.

Lemma strip_padding_cases (s : jsstring) :
  Base64.strip_padding s = s
  \/ exists r, Base64.strip_padding s = rev r
                /\ (rev s = 61 :: r \/ rev s = 61 :: 61 :: r).
Proof.
  unfold Base64.strip_padding.
  destruct (rev s) as [|x r]; [left; reflexivity|].
  destruct x as [|q|q]; try (left; reflexivity).
  do 6 (destruct q as [q|q|]; try (left; reflexivity)).
  destruct r as [|y r']; [right; exists []; auto|].
  destruct y as [|q|q]; try (right; eexists; split; [reflexivity | auto]).
  do 6 (destruct q as [q|q|];
        try (right; eexists; split; [reflexivity | auto])).
Qed.

Lemma strip_padding_keeps (c : Z) (s : jsstring) :
  In c s -> c <> 61 -> In c (Base64.strip_padding s).
Proof.
  intros Hin Hc.
  destruct (strip_padding_cases s) as [-> | (r & -> & Hr)]; [exact Hin|].
  rewrite <- in_rev.
  assert (H : In c (rev s)) by (rewrite <- in_rev; exact Hin).
  destruct Hr as [Hr | Hr]; rewrite Hr in H; simpl in H; intuition congruence.
Qed.

Lemma forgiving_decode_outside_alphabet (c : Z) (data : jsstring) :
  In c data -> Base64.value c = None -> Base64.is_ascii_whitespace c = false ->
  c <> 61 -> Base64.forgiving_decode data = None.
Proof.
  intros Hin Hv Hw Hp. unfold Base64.forgiving_decode.
  set (d1 := filter _ data).
  assert (H1 : In c d1) by (apply filter_In; rewrite Hw; auto).
  match goal with
  | |- context [if ?b then Base64.strip_padding d1 else d1] =>
      set (d2 := if b then Base64.strip_padding d1 else d1)
  end.
  assert (H2 : In c d2).
  { unfold d2.
    destruct (Z.of_nat (List.length d1) mod 4 =? 0);
      [apply strip_padding_keeps|]; assumption. }
  rewrite (values_outside_alphabet c d2 H2 Hv).
  destruct (_ =? 1); reflexivity.
Qed.

(** [atob] rejects every string with a [-] or a [_]. *)
Lemma atob_rejects_url_alphabet (s : jsstring) :
  Str.mem 45 s = true \/ Str.mem 95 s = true ->
  exists e, atob s = Throw e.
Proof.
  intros H. unfold atob.
  assert (E : Base64.forgiving_decode s = None).
  { destruct H as [H | H]; apply mem_In in H.
    - apply (forgiving_decode_outside_alphabet 45); auto; discriminate.
    - apply (forgiving_decode_outside_alphabet 95); auto; discriminate. }
  rewrite E; eauto.
Qed.

(** ** The trace of a computation *)

Section Effects.

Variable P : Event -> Prop.

Lemma logs_ret {A} (a : A) : logs P (ret a).
Proof. intros w; exists []; simpl; auto. Qed.

Lemma logs_throw {A} (e : JsExn) : logs P (@throw A e).
Proof. intros w; exists []; simpl; auto. Qed.

Lemma logs_lift {A} (o : Outcome A) : logs P (lift o).
Proof. intros w; exists []; simpl; auto. Qed.

Lemma logs_bind {A B} (m : M A) (k : A -> M B) :
  logs P m -> (forall a, logs P (k a)) -> logs P (bind m k).
Proof.
  intros Hm Hk w. unfold bind.
  destruct (Hm w) as (n1 & E1 & F1).
  destruct (m w) as [[a | e] w1]; simpl in *.
  - destruct (Hk a w1) as (n2 & E2 & F2).
    exists (n2 ++ n1); rewrite E2, E1, app_assoc; split; auto.
    apply Forall_app; auto.
  - exists n1; auto.
Qed.

Lemma fails_throw {A} (e : JsExn) : fails P (@throw A e).
Proof. intros w; exists e, []; simpl; auto. Qed.

Lemma fails_lift {A} (e : JsExn) : fails P (@lift A (Throw e)).
Proof. intros w; exists e, []; simpl; auto. Qed.

Lemma fails_bind {A B} (m : M A) (k : A -> M B) :
  logs P m -> (forall a, fails P (k a)) -> fails P (bind m k).
Proof.
  intros Hm Hk w. unfold bind.
  destruct (Hm w) as (n1 & E1 & F1).
  destruct (m w) as [[a | e] w1]; simpl in *.
  - destruct (Hk a w1) as (e2 & n2 & T2 & E2 & F2).
    exists e2, (n2 ++ n1); rewrite E2, E1, app_assoc; repeat split; auto.
    apply Forall_app; auto.
  - exists e, n1; auto.
Qed.

Lemma fails_now {A B} (m : M A) (k : A -> M B) : fails P m -> fails P (bind m k).
Proof.
  intros Hm w. unfold bind.
  destruct (Hm w) as (e & n1 & T1 & E1 & F1).
  destruct (m w) as [[a | e'] w1]; simpl in *; [discriminate|].
  exists e', n1; auto.
Qed.

Variable host : Host.

Lemma logs_Date_now : logs P (Date_now host).
Proof. intros w; exists []; simpl; auto. Qed.

Lemma logs_read_jwksCache : logs P read_jwksCache.
Proof. intros w; exists []; simpl; auto. Qed.

Lemma logs_read_jwksFetchedAt : logs P read_jwksFetchedAt.
Proof. intros w; exists []; simpl; auto. Qed.

Lemma logs_write_jwksCache (v : JSValue) : logs P (write_jwksCache v).
Proof. intros w; exists []; simpl; auto. Qed.

Lemma logs_write_jwksFetchedAt (t : Z) : logs P (write_jwksFetchedAt t).
Proof. intros w; exists []; simpl; auto. Qed.

Lemma logs_fetch (input : JSValue) (init : option Request) :
  P (EvFetch input init) -> logs P (fetch_ host input init).
Proof.
  intros H w; exists [EvFetch input init]; unfold fetch_.
  destruct (network host (trace w) input init); simpl; auto.
Qed.

Lemma logs_importKey format keyData algorithm extractable usages :
  P (EvImportKey format keyData algorithm extractable usages) ->
  logs P (subtle_importKey host format keyData algorithm extractable usages).
Proof. intros H w; eexists [_]; simpl; auto. Qed.

Lemma logs_verify algorithm key signature data :
  P (EvVerify algorithm key signature data) ->
  logs P (subtle_verify host algorithm key signature data).
Proof. intros H w; eexists [_]; simpl; auto. Qed.

Hypothesis P_fetch : forall input init, P (EvFetch input init).

Lemma logs_getJWKS : logs P (getJWKS host).
Proof.
  unfold getJWKS.
  apply logs_bind; [apply logs_Date_now | intros now].
  apply logs_bind; [apply logs_read_jwksCache | intros cache].
  apply logs_bind; [apply logs_read_jwksFetchedAt | intros fetchedAt].
  destruct (_ && _); [apply logs_ret|].
  apply logs_bind; [apply logs_fetch, P_fetch | intros r].
  apply logs_bind; [apply logs_lift | intros cfg].
  apply logs_bind; [apply logs_lift | intros jwksUri].
  apply logs_bind; [apply logs_fetch, P_fetch | intros r'].
  apply logs_bind; [apply logs_lift | intros jwks].
  apply logs_bind; [apply logs_write_jwksCache | intros _].
  apply logs_bind; [apply logs_write_jwksFetchedAt | intros _].
  apply logs_ret.
Qed.

End Effects.

(** ** The cache *)

#[local] Arguments oidcConfigUrl : simpl never.
#[local] Arguments Z.mul : simpl never.

(** Case analysis on a scrutinee that contains no other case analysis. *)
Ltac case_innermost :=
  match goal with
  | |- context [match ?x with _ => _ end] =>
      lazymatch x with
      | context [match _ with _ => _ end] => fail
      | _ => destruct x eqn:?
      end
  end.

Ltac run_getJWKS :=
  unfold getJWKS, bind, Date_now, read_jwksCache, read_jwksFetchedAt, fetch_,
    lift, write_jwksCache, write_jwksFetchedAt, ret, record; simpl.

Lemma getJWKS_fresh (host : Host) (w : World) :
  fresh w (clock host (clock_reads w)) = true ->
  getJWKS host w = (Return (jwksCache w), tick w).
Proof.
  unfold fresh; intros H. run_getJWKS. rewrite H. reflexivity.
Qed.

Lemma getJWKS_stale (host : Host) (w : World) :
  fresh w (clock host (clock_reads w)) = false ->
  exists more,
    trace (snd (getJWKS host w))
    = more ++ EvFetch (JString oidcConfigUrl) None :: trace w.
Proof.
  unfold fresh; intros H. run_getJWKS. rewrite H. simpl.
  destruct (network host (trace w) (JString oidcConfigUrl) None) as [e | r];
    [exists []; reflexivity|].
  destruct (json r) as [cfg | e]; [|exists []; reflexivity].
  destruct (Get cfg (js "jwks_uri")) as [jwksUri | e]; [|exists []; reflexivity].
  match goal with
  | |- context [network host ?t ?i None] =>
      destruct (network host t i None) as [e | r']
  end; [exists [EvFetch jwksUri None]; reflexivity|].
  destruct (json r') as [jwks | e]; exists [EvFetch jwksUri None]; reflexivity.
Qed.


(** ** [validateJWT] stage by stage *)

Lemma bind_Return {A B} (m : M A) (k : A -> M B) (w w' : World) (a : A) :
  m w = (Return a, w') -> bind m k w = k a w'.
Proof. intros H; unfold bind; rewrite H; reflexivity. Qed.

Lemma bind_Throw {A B} (m : M A) (k : A -> M B) (w w' : World) (e : JsExn) :
  m w = (Throw e, w') -> bind m k w = (Throw e, w').
Proof. intros H; unfold bind; rewrite H; reflexivity. Qed.

Lemma bind_lift_Return {A B} (o : Outcome A) (k : A -> M B) (w : World) (a : A) :
  o = Return a -> bind (lift o) k w = k a w.
Proof. intros ->; reflexivity. Qed.

Lemma bind_assoc {A B C} (m : M A) (k : A -> M B) (k' : B -> M C) (w : World) :
  bind (bind m k) k' w = bind m (fun a => bind (k a) k') w.
Proof. unfold bind; destruct (m w) as [[a | e] w1]; reflexivity. Qed.

Lemma bind_ext {A B} (m : M A) (k k' : A -> M B) (w : World) :
  (forall a w1, k a w1 = k' a w1) -> bind m k w = bind m k' w.
Proof. intros H; unfold bind; destruct (m w) as [[a | e] w1]; auto. Qed.

Lemma validate_parts_stages (host : Host) (h p s : jsstring) (w : World) :
  validate_parts host h p s w
  = bind (verified_payload host h p s) (standard_claims host) w.
Proof.
  unfold validate_parts, verified_payload.
  repeat (rewrite bind_assoc; apply bind_ext; intros ? ?).
  match goal with |- context [negb (ToBoolean ?j)] => destruct (negb (ToBoolean j)) end;
    [reflexivity|].
  repeat (rewrite bind_assoc; apply bind_ext; intros ? ?).
  match goal with |- context [negb ?v] => destruct (negb v) end; reflexivity.
Qed.

(** ** The key cache: C9 and C7 *)

(** A call running alone goes through its three segments and is
    [getJWKS]. *)
Lemma getJWKS_resume (host : Host) (w : World) :
  let (t1, w1) := resume host Start w in
  let (t2, w2) := resume host t1 w1 in
  let (t3, w3) := resume host t2 w2 in
  (t3, w3) = (Finished (fst (getJWKS host w)), snd (getJWKS host w)).
Proof.
  unfold resume, settle, store. run_getJWKS.
  destruct (_ && _); simpl; [reflexivity|].
  repeat (case_innermost; simpl; try reflexivity).
Qed.


(** Running the first segment of [n] calls on an empty cache. *)
Lemma run_starts (host : Host) (n : nat) (done : list Task) (w : World) :
  ToBoolean (jwksCache w) = false ->
  exists pool w',
    run host (seq (List.length done) n) (done ++ repeat Start n) w = (pool, w')
    /\ trace w' = repeat (EvFetch (JString oidcConfigUrl) None) n ++ trace w
    /\ jwksCache w' = jwksCache w.
Proof.
  revert done w; induction n as [|n IH]; intros done w Hc.
  - simpl; eauto.
  - simpl seq; simpl repeat; simpl run.
    assert (E : nth_error (done ++ Start :: repeat Start n) (List.length done)
                = Some Start).
    { rewrite nth_error_app2, Nat.sub_diag by lia; reflexivity. }
    rewrite E. unfold resume, Date_now; simpl. rewrite Hc; simpl.
    set (t := AwaitConfig _ _). set (w1 := record _ _).
    assert (U : update (List.length done) t (done ++ Start :: repeat Start n)
                = (done ++ [t]) ++ repeat Start n).
    { clear. induction done as [|d done IHd]; simpl; [reflexivity|].
      rewrite IHd; reflexivity. }
    rewrite U.
    replace (S (List.length done)) with (List.length (done ++ [t]))
      by (rewrite length_app; simpl; lia).
    destruct (IH (done ++ [t]) w1 Hc) as (pool & w' & R & T & C).
    exists pool, w'; split; [exact R|]. split; [|exact C].
    rewrite T. unfold w1; simpl.
    change (EvFetch (JString oidcConfigUrl) None :: trace w)
      with ([EvFetch (JString oidcConfigUrl) None] ++ trace w).
    rewrite app_assoc. f_equal.
    clear. induction n; simpl; [reflexivity|]. f_equal; assumption.
Qed.

Lemma getJWKS_refreshed (host : Host) (w w1 : World) (jwks : JSValue) :
  getJWKS host w = (Return jwks, w1) ->
  fresh w (clock host (clock_reads w)) = false ->
  jwksCache w1 = jwks
  /\ jwksFetchedAt w1 = clock host (clock_reads w)
  /\ clock_reads w1 = S (clock_reads w).
Proof.
  unfold fresh. intros H Hs. revert H. run_getJWKS. rewrite Hs. simpl.
  repeat case_innermost; intros [= <- <-]; cbn; auto.
Qed.

(** A call that misses the cache requests the discovery document and
    then the key set, and stores what the second response parses to with
    the time read at its start; it stops at the first request that is
    rejected or whose body does not parse. *)
Lemma getJWKS_miss (host : Host) (w : World) :
  fresh w (clock host (clock_reads w)) = false ->
  getJWKS host w
  = let w1 := record (EvFetch (JString oidcConfigUrl) None) (tick w) in
    match settle (network host (trace w) (JString oidcConfigUrl) None) with
    | Throw e => (Throw e, w1)
    | Return cfg =>
        match Get cfg (js "jwks_uri") with
        | Throw e => (Throw e, w1)
        | Return jwksUri =>
            let w2 := record (EvFetch jwksUri None) w1 in
            match settle (network host (trace w1) jwksUri None) with
            | Throw e => (Throw e, w2)
            | Return jwks => (Return jwks, store jwks (clock host (clock_reads w)) w2)
            end
        end
    end.
Proof.
  unfold fresh, settle, json; intros Hs. run_getJWKS. rewrite Hs; simpl.
  unfold json.
  destruct (network host (trace w) (JString oidcConfigUrl) None) as [e | r];
    simpl; [reflexivity|].
  destruct (JSON.parse (body r)) as [cfg | e]; simpl; [|reflexivity].
  destruct (Get cfg (js "jwks_uri")) as [jwksUri | e]; simpl; [|reflexivity].
  destruct (network host (EvFetch (JString oidcConfigUrl) None :: trace w)
              jwksUri None) as [e | r']; simpl; [reflexivity|].
  destruct (JSON.parse (body r')) as [jwks | e]; reflexivity.
Qed.

(** C7, as the code has it.  A call that finds a truthy entry whose time
    is less than ten minutes before the time it reads returns the entry
    and makes no request.  A call that finds no such entry requests the
    discovery document and then the key set, and stores the key set with
    the time it read at its start.  While the entry a refresh has stored
    is the entry of the cache, a call that reads a time less than ten
    minutes after the start of that refresh is served from it.  Refreshes
    that overlap are not ordered: the one that stores last leaves its
    key set and the time of its own start, whichever started first, and a
    call that reads a time ten minutes or more after that start requests
    the discovery document again, however recently the other refresh
    started.  And [n] calls that start on an empty cache before any of
    them has stored its result make [n] requests for the discovery
    document. *)
Theorem cache_hits_and_uncoalesced_misses (host : Host) :
  (forall w, fresh w (clock host (clock_reads w)) = true ->
     getJWKS host w = (Return (jwksCache w), tick w))
  /\ (forall w, fresh w (clock host (clock_reads w)) = false ->
        getJWKS host w
        = let w1 := record (EvFetch (JString oidcConfigUrl) None) (tick w) in
          match settle (network host (trace w) (JString oidcConfigUrl) None) with
          | Throw e => (Throw e, w1)
          | Return cfg =>
              match Get cfg (js "jwks_uri") with
              | Throw e => (Throw e, w1)
              | Return jwksUri =>
                  let w2 := record (EvFetch jwksUri None) w1 in
                  match settle (network host (trace w1) jwksUri None) with
                  | Throw e => (Throw e, w2)
                  | Return jwks =>
                      (Return jwks, store jwks (clock host (clock_reads w)) w2)
                  end
              end
          end)
  /\ (forall w w1 w2 jwks,
        fresh w (clock host (clock_reads w)) = false ->
        getJWKS host w = (Return jwks, w1) ->
        ToBoolean jwks = true ->
        jwksCache w2 = jwksCache w1 ->
        jwksFetchedAt w2 = jwksFetchedAt w1 ->
        clock host (clock_reads w2) - clock host (clock_reads w) < 10 * 60 * 1000 ->
        getJWKS host w2 = (Return jwks, tick w2))
  /\ (forall now0 now1 pending0 pending1 jwks0 jwks1 w,
        settle pending0 = Return jwks0 ->
        settle pending1 = Return jwks1 ->
        let w' := snd (run host [1; 0]%nat
                         [AwaitKeys now0 pending0; AwaitKeys now1 pending1] w) in
        jwksCache w' = jwks0
        /\ jwksFetchedAt w' = now0
        /\ clock_reads w' = clock_reads w
        /\ (10 * 60 * 1000 <= clock host (clock_reads w') - now0 ->
            exists more,
              trace (snd (getJWKS host w'))
              = more ++ EvFetch (JString oidcConfigUrl) None :: trace w'))
  /\ (forall n w, ToBoolean (jwksCache w) = false ->
        exists pool w',
          run host (seq 0 n) (repeat Start n) w = (pool, w')
          /\ trace w' = repeat (EvFetch (JString oidcConfigUrl) None) n ++ trace w).
Proof.
  split; [|split; [|split; [|split]]].
  - apply getJWKS_fresh.
  - apply getJWKS_miss.
  - intros w w1 w2 jwks Hs H Ht Hc2 Hf2 Hclock.
    destruct (getJWKS_refreshed host w w1 jwks H Hs) as (Hc & Hf & _).
    rewrite <- Hc, <- Hc2. apply getJWKS_fresh.
    unfold fresh. rewrite Hc2, Hf2, Hc, Hf, Ht. apply Z.ltb_lt. exact Hclock.
  - intros now0 now1 pending0 pending1 jwks0 jwks1 w H0 H1.
    cbn [run nth_error resume update]. rewrite H1. cbn [run nth_error resume update].
    rewrite H0. cbn [run snd store jwksCache jwksFetchedAt].
    split; [reflexivity|]. split; [reflexivity|]. split; [reflexivity|].
    intros Hold. apply getJWKS_stale. unfold fresh.
    cbn [jwksCache jwksFetchedAt clock_reads].
    replace (_ <? _) with false; [apply andb_false_r|].
    symmetry. apply Z.ltb_ge. cbn [clock_reads] in Hold. exact Hold.
  - intros n w Hc.
    destruct (run_starts host n [] w Hc) as (pool & w' & R & T & _).
    exists pool, w'; auto.
Qed.

(** ** The signature: C10 and C2 *)

Lemma fails_validate_parts (P : Event -> Prop) (host : Host) (h p s : jsstring)
    (e : JsExn) :
  (forall input init, P (EvFetch input init)) ->
  (forall jwk, P (EvImportKey (js "jwk") jwk import_algorithm false [js "verify"])) ->
  atob s = Throw e ->
  fails P (validate_parts host h p s).
Proof.
  intros Pf Pi Hs. unfold validate_parts.
  do 4 (apply fails_bind; [apply logs_lift | intros ?]).
  apply fails_bind; [apply logs_getJWKS, Pf | intros jwks].
  do 2 (apply fails_bind; [apply logs_lift | intros ?]).
  destruct (negb (ToBoolean _)); [apply fails_throw|].
  apply fails_bind; [apply logs_importKey, Pi | intros key].
  rewrite Hs. apply fails_now, fails_lift.
Qed.

(** A header or payload segment in the base64url alphabet stops
    [validateJWT] at once, before the key set is asked for. *)
Lemma url_alphabet_segment_rejected (host : Host) (token h p s : jsstring)
    (w : World) :
  Str.split 46 token = [h; p; s] ->
  Str.mem 45 h = true \/ Str.mem 95 h = true
  \/ Str.mem 45 p = true \/ Str.mem 95 p = true ->
  exists e, validateJWT host token w = (Throw e, w).
Proof.
  intros Hsplit H. unfold validateJWT. rewrite Hsplit. unfold validate_parts.
  assert (Hh : (exists e, atob h = Throw e) \/ (exists e, atob p = Throw e)).
  { destruct H as [H | [H | [H | H]]];
      [left | left | right | right]; apply atob_rejects_url_alphabet; auto. }
  unfold bind, lift.
  destruct Hh as [(e & ->) | (e & Hp)]; [eauto|].
  destruct (atob h) as [ht | e']; [|eauto].
  destruct (JSON.parse ht) as [header | e']; [|eauto].
  rewrite Hp; eauto.
Qed.

(** C10: a token whose signature segment contains [-] or [_] makes
    [validateJWT] throw, and among the host calls made on the way there is
    no [crypto.subtle.verify]. *)
Theorem url_alphabet_signature_rejected (host : Host) (token h p s : jsstring)
    (w : World) :
  Str.split 46 token = [h; p; s] ->
  Str.mem 45 s = true \/ Str.mem 95 s = true ->
  exists e new,
    fst (validateJWT host token w) = Throw e
    /\ trace (snd (validateJWT host token w)) = new ++ trace w
    /\ Forall (fun ev => is_verify ev = false) new.
Proof.
  intros Hsplit Hs. unfold validateJWT. rewrite Hsplit.
  destruct (atob_rejects_url_alphabet s Hs) as (e & He).
  apply (fails_validate_parts _ host h p s e); auto.
Qed.

Section FixedAlgorithm.

Variable host : Host.

Lemma quiet_not_verify (new : list Event) algorithm key signature data :
  Forall quiet new -> ~ In (EvVerify algorithm key signature data) new.
Proof.
  intros F Hin. rewrite Forall_forall in F.
  destruct (F _ Hin) as [_ H]; discriminate.
Qed.

Lemma sound_of_logs {A} (m : M A) : logs quiet m -> sound host m.
Proof.
  intros Hm w. destruct (Hm w) as (new & E & F).
  exists new; split; [exact E|]. split.
  - eapply Forall_impl; [|exact F]. intros ev [H _]; exact H.
  - intros a k sg d Hin. destruct (quiet_not_verify _ _ _ _ _ F Hin).
Qed.

Lemma sound_bind {A B} (m : M A) (k : A -> M B) :
  logs quiet m -> (forall a, sound host (k a)) -> sound host (bind m k).
Proof.
  intros Hm Hk w. unfold bind.
  destruct (Hm w) as (n1 & E1 & F1).
  destruct (m w) as [[a | e] w1]; simpl in *.
  - destruct (Hk a w1) as (n2 & E2 & F2 & V2).
    exists (n2 ++ n1); rewrite E2, E1, app_assoc. split; [reflexivity|]. split.
    + apply Forall_app; split; [exact F2|].
      eapply Forall_impl; [|exact F1]. intros ev [H _]; exact H.
    + intros al key sg d Hin Hv. apply in_app_or in Hin.
      destruct Hin as [Hin | Hin]; [eapply V2; eauto|].
      destruct (quiet_not_verify _ _ _ _ _ F1 Hin).
  - exists n1. split; [exact E1|]. split.
    + eapply Forall_impl; [|exact F1]. intros ev [H _]; exact H.
    + intros al key sg d Hin. destruct (quiet_not_verify _ _ _ _ _ F1 Hin).
Qed.

Lemma logs_standard_claims (P : Event -> Prop) (payload : JSValue) :
  logs P (standard_claims host payload).
Proof.
  unfold standard_claims.
  apply logs_bind; [apply logs_lift | intros iss].
  destruct (negb _); [apply logs_throw|].
  do 2 (apply logs_bind; [apply logs_lift | intros ?]).
  apply logs_bind; [apply logs_Date_now | intros now].
  destruct (Num.ltb _ _); [apply logs_throw | apply logs_ret].
Qed.

Lemma sound_verification (key : CryptoKey) (signature data : list Z)
    (payload : JSValue) :
  sound host (valid <- subtle_verify host RSASSA_PKCS1_v1_5 key signature data ;;
         if negb valid then throw (Error (js "Invalid signature"))
         else standard_claims host payload).
Proof.
  intros w. unfold bind, subtle_verify.
  set (ev := EvVerify RSASSA_PKCS1_v1_5 key signature data).
  destruct (verify host RSASSA_PKCS1_v1_5 key signature data) as [[|] | e] eqn:Hv;
    simpl.
  - destruct (logs_standard_claims quiet payload (record ev w))
      as (new & E & F).
    exists (new ++ [ev]). rewrite E; simpl. rewrite <- app_assoc.
    split; [reflexivity|]. split.
    + apply Forall_app; split; [|repeat constructor].
      eapply Forall_impl; [|exact F]. intros x [H _]; exact H.
    + intros al k sg d Hin Hf. apply in_app_or in Hin.
      destruct Hin as [Hin | [Hin | []]];
        [destruct (quiet_not_verify _ _ _ _ _ F Hin)|].
      injection Hin as <- <- <- <-. congruence.
  - exists [ev]; repeat split; auto. repeat constructor.
  - exists [ev]; repeat split; auto; [repeat constructor|].
    intros al k sg d [Hin | []] Hf. injection Hin as <- <- <- <-. congruence.
Qed.

Lemma sound_validate_parts (h p s : jsstring) : sound host (validate_parts host h p s).
Proof.
  assert (Qf : forall input init, quiet (EvFetch input init))
    by (intros; split; simpl; auto).
  unfold validate_parts.
  do 4 (apply sound_bind; [apply logs_lift | intros ?]).
  apply sound_bind; [apply logs_getJWKS, Qf | intros jwks].
  do 2 (apply sound_bind; [apply logs_lift | intros ?]).
  destruct (negb (ToBoolean _)); [apply sound_of_logs, logs_throw|].
  apply sound_bind; [apply logs_importKey; split; simpl; auto | intros key].
  apply sound_bind; [apply logs_lift | intros signature].
  apply sound_verification.
Qed.

End FixedAlgorithm.

(** The key lookup reads the header's [kid] and nothing else of it. *)
Lemma find_kid_reads_kid (header header' : JSValue) (ks : list JSValue) :
  Get header (js "kid") = Get header' (js "kid") ->
  find_kid header ks = find_kid header' ks.
Proof.
  intros H; induction ks as [|k ks IH]; simpl; [reflexivity|].
  rewrite H, IH; reflexivity.
Qed.

(** Lines 40 to 64, once the lookup of line 39 has returned. *)
Lemma validateJWT_after_lookup (host : Host) (token h p s : jsstring)
    (header payload jwks keys jwk : JSValue) (w w1 : World) :
  Str.split 46 token = [h; p; s] ->
  decode h = Return header -> decode p = Return payload ->
  getJWKS host w = (Return jwks, w1) ->
  Get jwks (js "keys") = Return keys ->
  keys_find keys header = Return jwk ->
  validateJWT host token w
  = (if negb (ToBoolean jwk) then throw (Error (js "No matching JWK"))
     else
       key <- subtle_importKey host (js "jwk") jwk import_algorithm false
                [js "verify"] ;;
       signature <- lift (atob s) ;;
       valid <- subtle_verify host RSASSA_PKCS1_v1_5 key signature
                  (utf8_encode (h ++ js "." ++ p)) ;;
       if negb valid then throw (Error (js "Invalid signature"))
       else standard_claims host payload) w1.
Proof.
  unfold decode; intros Hsplit Hh Hp Hg Hk Hf.
  unfold validateJWT; rewrite Hsplit. unfold validate_parts.
  destruct (atob h) as [ht | ?]; [|discriminate].
  destruct (atob p) as [pt | ?]; [|discriminate].
  unfold bind at 1, lift at 1. unfold bind at 1, lift at 1. rewrite Hh.
  unfold bind at 1, lift at 1. unfold bind at 1, lift at 1. rewrite Hp.
  rewrite (bind_Return _ _ _ _ _ Hg).
  unfold bind at 1, lift at 1. rewrite Hk.
  unfold bind at 1, lift at 1. rewrite Hf.
  reflexivity.
Qed.

(** C2, as the code has it.  Whatever algorithm the header or the key
    names, every import [validateJWT] asks for is for RSASSA-PKCS1-v1_5
    with SHA-256 and every verification is under RSASSA-PKCS1-v1_5, and
    when the host finds the signature invalid under it [validateJWT]
    throws [Error("Invalid signature")].  Once the lookup has selected a
    truthy key for a token whose header and payload decode, the key is
    imported for that algorithm; if the import succeeds and [atob] reads
    the third segment, the signature is verified under that algorithm
    with the imported key over the first two segments; [false] gives
    [Error("Invalid signature")], [true] leads to the checks of the
    claims, and nothing of the header is consulted on the way.  Of the
    header the key lookup reads [kid] only. *)
Theorem signature_verified_under_fixed_algorithm (host : Host)
    (token : jsstring) (w : World) :
  (exists new,
     trace (snd (validateJWT host token w)) = new ++ trace w
     /\ Forall fixed_algorithm new
     /\ forall algorithm key signature data,
          In (EvVerify algorithm key signature data) new ->
          verify host algorithm key signature data = Return false ->
          fst (validateJWT host token w) = Throw (Error (js "Invalid signature")))
  /\ (forall h p s header payload jwks keys jwk w1,
        Str.split 46 token = [h; p; s] ->
        decode h = Return header -> decode p = Return payload ->
        getJWKS host w = (Return jwks, w1) ->
        Get jwks (js "keys") = Return keys ->
        keys_find keys header = Return jwk ->
        ToBoolean jwk = true ->
        let imported :=
          record (EvImportKey (js "jwk") jwk import_algorithm false [js "verify"])
            w1 in
        validateJWT host token w
        = match importKey host (js "jwk") jwk import_algorithm false
                  [js "verify"] with
          | Throw e => (Throw e, imported)
          | Return key =>
              match atob s with
              | Throw e => (Throw e, imported)
              | Return signature =>
                  let data := utf8_encode (h ++ js "." ++ p) in
                  let verified :=
                    record (EvVerify RSASSA_PKCS1_v1_5 key signature data)
                      imported in
                  match verify host RSASSA_PKCS1_v1_5 key signature data with
                  | Throw e => (Throw e, verified)
                  | Return false =>
                      (Throw (Error (js "Invalid signature")), verified)
                  | Return true => standard_claims host payload verified
                  end
              end
          end)
  /\ forall keys header header',
       Get header (js "kid") = Get header' (js "kid") ->
       keys_find keys header = keys_find keys header'.
Proof.
  split; [|split].
  - unfold validateJWT.
    destruct (Str.split 46 token) as [|h [|p [|s [|x l]]]];
      try (apply (sound_of_logs host), logs_throw).
    apply sound_validate_parts.
  - intros h p s header payload jwks keys jwk w1 Hsplit Hh Hp Hg Hk Hf Hj.
    rewrite (validateJWT_after_lookup host token h p s header payload jwks keys
               jwk w w1 Hsplit Hh Hp Hg Hk Hf), Hj.
    cbn [negb]. unfold bind, lift, subtle_importKey, subtle_verify, throw.
    destruct (importKey host _ _ _ _ _) as [key | e]; [|reflexivity].
    destruct (atob s) as [signature | e]; [|reflexivity].
    destruct (verify host _ _ _ _) as [[|] | e]; reflexivity.
  - intros keys header header' H. destruct keys; try reflexivity.
    apply find_kid_reads_kid, H.
Qed.

(** ** The key source: C4 *)

Lemma getJWKS_with_status (f : Response -> Z) (host : Host) (w : World) :
  getJWKS (with_status f host) w = getJWKS host w.
Proof.
  run_getJWKS. destruct (_ && _); simpl; [reflexivity|].
  unfold json; simpl.
  destruct (network host (trace w) (JString oidcConfigUrl) None) as [e | r];
    simpl; [reflexivity|].
  destruct (JSON.parse (body r)) as [cfg | e]; simpl; [|reflexivity].
  destruct (Get cfg (js "jwks_uri")) as [uri | e]; simpl; [|reflexivity].
  destruct (network host (EvFetch (JString oidcConfigUrl) None :: trace w) uri None)
    as [e | r']; simpl; reflexivity.
Qed.

Lemma bind_cong {A B} (m m' : M A) (k k' : A -> M B) (w : World) :
  m w = m' w -> (forall a w1, k a w1 = k' a w1) -> bind m k w = bind m' k' w.
Proof. intros Hm Hk; unfold bind; rewrite Hm; destruct (m' w) as [[a | e] w1]; auto. Qed.

Lemma validateJWT_with_status (f : Response -> Z) (host : Host)
    (token : jsstring) (w : World) :
  validateJWT (with_status f host) token w = validateJWT host token w.
Proof.
  unfold validateJWT.
  destruct (Str.split 46 token) as [|h [|p [|s [|x l]]]]; try reflexivity.
  unfold validate_parts.
  do 4 (apply bind_ext; intros ? ?).
  apply bind_cong; [apply getJWKS_with_status | reflexivity].
Qed.

Lemma getJWKS_config_fails (host : Host) (w : World) (e : JsExn) :
  fresh w (clock host (clock_reads w)) = false ->
  settle (network host (trace w) (JString oidcConfigUrl) None) = Throw e ->
  getJWKS host w = (Throw e, record (EvFetch (JString oidcConfigUrl) None) (tick w)).
Proof.
  unfold fresh, settle, json; intros Hs H. run_getJWKS. rewrite Hs; simpl.
  unfold json.
  destruct (network host (trace w) (JString oidcConfigUrl) None) as [e' | r];
    simpl; [congruence|].
  rewrite H; reflexivity.
Qed.

Lemma getJWKS_keys_fail (host : Host) (w : World) (cfg uri : JSValue)
    (e : JsExn) :
  fresh w (clock host (clock_reads w)) = false ->
  settle (network host (trace w) (JString oidcConfigUrl) None) = Return cfg ->
  Get cfg (js "jwks_uri") = Return uri ->
  settle (network host (EvFetch (JString oidcConfigUrl) None :: trace w) uri None)
  = Throw e ->
  getJWKS host w
  = (Throw e, record (EvFetch uri None)
                (record (EvFetch (JString oidcConfigUrl) None) (tick w))).
Proof.
  unfold fresh, settle, json; intros Hs Hc Hu Hk. run_getJWKS. rewrite Hs; simpl.
  unfold json.
  destruct (network host (trace w) (JString oidcConfigUrl) None) as [e' | r];
    simpl; [discriminate|].
  rewrite Hc; simpl. rewrite Hu; simpl.
  destruct (network host (EvFetch (JString oidcConfigUrl) None :: trace w) uri None)
    as [e' | r']; simpl; [congruence|].
  rewrite Hk; reflexivity.
Qed.

Lemma validateJWT_getJWKS_throws (host : Host) (token h p s : jsstring)
    (header payload : JSValue) (w w' : World) (e : JsExn) :
  Str.split 46 token = [h; p; s] ->
  decode h = Return header -> decode p = Return payload ->
  getJWKS host w = (Throw e, w') ->
  validateJWT host token w = (Throw e, w').
Proof.
  unfold decode; intros Hsplit Hh Hp Hg.
  unfold validateJWT; rewrite Hsplit. unfold validate_parts.
  destruct (atob h) as [ht | ?]; [|discriminate].
  destruct (atob p) as [pt | ?]; [|discriminate].
  unfold bind at 1, lift at 1. unfold bind at 1, lift at 1. rewrite Hh.
  unfold bind at 1, lift at 1. unfold bind at 1, lift at 1. rewrite Hp.
  apply bind_Throw, Hg.
Qed.

(** C4, as the code has it: the status of a response is never read, so
    [validateJWT] gives the same result whatever status the discovery and
    JWKS responses carry; when [fetch] is rejected or a body is not JSON,
    for the discovery document or for the key set, a token whose header
    and payload decode is rejected with that same exception and the cache
    is left as it was. *)
Theorem status_ignored_and_unreadable_source_rejected (host : Host) :
  (forall f token w,
     validateJWT (with_status f host) token w = validateJWT host token w)
  /\ forall token h p s header payload w e,
       Str.split 46 token = [h; p; s] ->
       decode h = Return header -> decode p = Return payload ->
       fresh w (clock host (clock_reads w)) = false ->
       (settle (network host (trace w) (JString oidcConfigUrl) None) = Throw e
        \/ exists cfg uri,
             settle (network host (trace w) (JString oidcConfigUrl) None)
             = Return cfg
             /\ Get cfg (js "jwks_uri") = Return uri
             /\ settle (network host
                          (EvFetch (JString oidcConfigUrl) None :: trace w) uri None)
                = Throw e) ->
       fst (validateJWT host token w) = Throw e
       /\ jwksCache (snd (validateJWT host token w)) = jwksCache w
       /\ jwksFetchedAt (snd (validateJWT host token w)) = jwksFetchedAt w.
Proof.
  split; [intros; apply validateJWT_with_status|].
  intros token h p s header payload w e Hsplit Hh Hp Hs [H | (cfg & uri & Hc & Hu & Hk)].
  - rewrite (validateJWT_getJWKS_throws host token h p s header payload w _ e
               Hsplit Hh Hp (getJWKS_config_fails host w e Hs H)).
    simpl; auto.
  - rewrite (validateJWT_getJWKS_throws host token h p s header payload w _ e
               Hsplit Hh Hp (getJWKS_keys_fail host w cfg uri e Hs Hc Hu Hk)).
    simpl; auto.
Qed.

(** ** The header: C5 *)

Lemma find_kid_none (header : JSValue) (ks : list JSValue) :
  Forall (fun k => kid_compares header k false) ks ->
  find_kid header ks = Return JUndefined.
Proof.
  induction 1 as [|k ks (a & b & Ha & Hb & Hab) _ IH]; simpl; [reflexivity|].
  rewrite Ha, Hb, Hab; exact IH.
Qed.

Lemma find_kid_first (header k : JSValue) (pre post : list JSValue) :
  Forall (fun k => kid_compares header k false) pre ->
  kid_compares header k true ->
  find_kid header (pre ++ k :: post) = Return k.
Proof.
  intros Hpre (a & b & Ha & Hb & Hab).
  induction Hpre as [|k0 pre (a0 & b0 & Ha0 & Hb0 & Hab0) _ IH]; simpl.
  - rewrite Ha, Hb, Hab; reflexivity.
  - rewrite Ha0, Hb0, Hab0; exact IH.
Qed.

(** C5, as the code has it.  The header's [kid] is not required to be a
    string, nor to be there: a token whose header decodes is not refused
    at parsing.  The key set is fetched and [header.kid], [undefined] when
    the header has none, is compared by [===] with the [kid] of each
    element of [jwks.keys] in turn.  When no element compares equal,
    [validateJWT] throws [Error("No matching JWK")].  Otherwise the first
    element that compares equal is selected: if it is falsy,
    [validateJWT] throws [Error("No matching JWK")] all the same; if not,
    it is imported as the key and lines 43 to 64 run with it.  For a
    header without [kid] the elements that compare equal are those whose
    own [kid] reads [undefined]. *)
Theorem header_without_kid_is_looked_up (host : Host) (token h p s : jsstring)
    (header payload jwks : JSValue) (ks : list JSValue) (w w1 : World) :
  Str.split 46 token = [h; p; s] ->
  decode h = Return header ->
  decode p = Return payload ->
  getJWKS host w = (Return jwks, w1) ->
  Get jwks (js "keys") = Return (JArray ks) ->
  (Forall (fun k => kid_compares header k false) ks ->
   validateJWT host token w = (Throw (Error (js "No matching JWK")), w1))
  /\ (forall pre k post,
        ks = pre ++ k :: post ->
        Forall (fun k => kid_compares header k false) pre ->
        kid_compares header k true ->
        validateJWT host token w
        = (if negb (ToBoolean k) then throw (Error (js "No matching JWK"))
           else
             key <- subtle_importKey host (js "jwk") k import_algorithm false
                      [js "verify"] ;;
             signature <- lift (atob s) ;;
             valid <- subtle_verify host RSASSA_PKCS1_v1_5 key signature
                        (utf8_encode (h ++ js "." ++ p)) ;;
             if negb valid then throw (Error (js "Invalid signature"))
             else standard_claims host payload) w1)
  /\ (Get header (js "kid") = Return JUndefined ->
      forall k r,
        kid_compares header k r
        <-> exists a, Get k (js "kid") = Return a /\ strict_eq a JUndefined = r).
Proof.
  intros Hsplit Hh Hp Hg Hk.
  split; [|split].
  - intros Hall.
    rewrite (validateJWT_after_lookup host token h p s header payload jwks
               (JArray ks) JUndefined w w1 Hsplit Hh Hp Hg Hk); [reflexivity|].
    simpl. apply find_kid_none, Hall.
  - intros pre k post -> Hpre Hm.
    apply (validateJWT_after_lookup host token h p s header payload jwks
             (JArray (pre ++ k :: post)) k w w1 Hsplit Hh Hp Hg Hk).
    simpl. apply find_kid_first; assumption.
  - intros Hu k r. unfold kid_compares. rewrite Hu. split.
    + intros (a & b & Ha & [= <-] & Hab). exists a; auto.
    + intros (a & Ha & Hab). exists a, JUndefined; auto.
Qed.

(** ** The handler: C6 and C8 *)

Lemma starts_with_Bearer_truthy (auth : jsstring) :
  Str.startsWith (js "Bearer ") auth = true -> ToBoolean (JString auth) = true.
Proof. destruct auth; [discriminate | reflexivity]. Qed.

(** C6, as the code has it: the check of [sub] is the handler's, not
    [validateJWT]'s.  When the token of the request passes [validateJWT]
    and the claims it returns have no [sub], or an empty one, the handler
    answers 403 and calls nothing more: the request is not forwarded and
    the claims go nowhere. *)
Theorem missing_subject_is_forbidden (host : Host) (req : Request)
    (auth : jsstring) (claims : JSValue) (w w1 : World) :
  authorization req = Some auth ->
  Str.startsWith (js "Bearer ") auth = true ->
  validateJWT host (Str.substring 7 auth) w = (Return claims, w1) ->
  Get claims (js "sub") = Return JUndefined
  \/ Get claims (js "sub") = Return (JString []) ->
  fetch host req w
  = (Return (text_response (js "Forbidden: Invalid token claims") 403), w1).
Proof.
  intros Ha Hb Hv Hsub. unfold fetch, try_catch. rewrite Ha, Hb.
  rewrite (starts_with_Bearer_truthy auth Hb). cbn [negb orb].
  rewrite (bind_Return _ _ _ _ _ Hv).
  destruct Hsub as [Hs | Hs]; unfold bind, lift; rewrite Hs; reflexivity.
Qed.

(** C8, as the code has it: once the host calls it awaits have settled,
    the handler ends with a response and throws nothing; every exception
    [validateJWT] throws, its own or the host's, becomes the response 401
    with the text [Unauthorized: ] and the message. *)
Theorem handler_answers_every_exception (host : Host) (req : Request) (w : World) :
  (exists resp w', fetch host req w = (Return resp, w'))
  /\ forall auth e w1,
       authorization req = Some auth ->
       Str.startsWith (js "Bearer ") auth = true ->
       validateJWT host (Str.substring 7 auth) w = (Throw e, w1) ->
       fetch host req w
       = (Return (text_response (js "Unauthorized: " ++ message e) 401), w1).
Proof.
  split.
  - unfold fetch, try_catch.
    destruct (authorization req) as [auth|]; [|eexists _, _; reflexivity].
    destruct (_ || _); [eexists _, _; reflexivity|].
    unfold bind, lift, fetch_, ret.
    destruct (validateJWT host (Str.substring 7 auth) w) as [[claims | e] w1];
      [|eexists _, _; reflexivity].
    destruct (Get claims (js "sub")) as [sub | e]; [|eexists _, _; reflexivity].
    destruct (negb (ToBoolean sub)); [eexists _, _; reflexivity|].
    destruct (pathname host (url req)) as [path | e]; [|eexists _, _; reflexivity].
    destruct (network host _ _ _); eexists _, _; reflexivity.
  - intros auth e w1 Ha Hb Hv. unfold fetch, try_catch. rewrite Ha, Hb.
    rewrite (starts_with_Bearer_truthy auth Hb). cbn [negb orb].
    rewrite (bind_Throw _ _ _ _ _ Hv). reflexivity.
Qed.

(** ** The claims: what the checks of lines 61 and 62 let through *)

Lemma standard_claims_checked (host : Host) (payload exp : JSValue)
    (n : Num.number) (w : World) :
  Get payload (js "iss") = Return (JString OIDC_ISSUER) ->
  Get payload (js "exp") = Return exp ->
  ToNumber exp = Return n ->
  standard_claims host payload w
  = (if Num.ltb (Num.mul n (Num.of_Z 1000)) (Num.of_Z (clock host (clock_reads w)))
     then Throw (Error (js "Token expired"))
     else Return payload, tick w).
Proof.
  intros Hi He Hn. unfold standard_claims, bind, lift, Date_now.
  rewrite Hi. cbn [strict_eq]. rewrite Str_eqb_refl. cbn [negb].
  rewrite He, Hn.
  destruct (Num.ltb _ _); reflexivity.
Qed.

(** A payload without [exp] passes the expiry check at every time:
    [undefined * 1000] is [NaN], and [NaN < Date.now()] is false. *)
Lemma standard_claims_without_exp (host : Host) (payload : JSValue) (w : World) :
  Get payload (js "iss") = Return (JString OIDC_ISSUER) ->
  Get payload (js "exp") = Return JUndefined ->
  standard_claims host payload w = (Return payload, tick w).
Proof.
  intros Hi He.
  rewrite (standard_claims_checked host payload JUndefined Num.NaN w Hi He eq_refl).
  reflexivity.
Qed.

Lemma ltb_irrefl (x : Num.number) : Num.ltb x x = false.
Proof.
  unfold Num.ltb, SFltb.
  destruct x as [s | s | | s m e]; simpl; try reflexivity.
  - destruct s; reflexivity.
  - rewrite Z.compare_refl, Pos.compare_cont_refl. destruct s; reflexivity.
Qed.

(** A payload whose [exp * 1000] is the time read passes the expiry
    check: the comparison of line 62 is strict. *)
Lemma standard_claims_at_expiry (host : Host) (payload exp : JSValue)
    (n : Num.number) (w : World) :
  Get payload (js "iss") = Return (JString OIDC_ISSUER) ->
  Get payload (js "exp") = Return exp ->
  ToNumber exp = Return n ->
  Num.mul n (Num.of_Z 1000) = Num.of_Z (clock host (clock_reads w)) ->
  standard_claims host payload w = (Return payload, tick w).
Proof.
  intros Hi He Hn Heq.
  rewrite (standard_claims_checked host payload exp n w Hi He Hn), Heq, ltb_irrefl.
  reflexivity.
Qed.

(** A token whose signature was found valid and whose claims pass is
    returned as it was parsed. *)
Lemma verified_token_accepted (host : Host) (token h p s : jsstring)
    (payload exp : JSValue) (n : Num.number) (w w1 : World) :
  Str.split 46 token = [h; p; s] ->
  verified_payload host h p s w = (Return payload, w1) ->
  Get payload (js "iss") = Return (JString OIDC_ISSUER) ->
  Get payload (js "exp") = Return exp ->
  ToNumber exp = Return n ->
  Num.ltb (Num.mul n (Num.of_Z 1000)) (Num.of_Z (clock host (clock_reads w1)))
  = false ->
  validateJWT host token w = (Return payload, tick w1).
Proof.
  intros Hsplit Hv Hi He Hn Hlt.
  unfold validateJWT; rewrite Hsplit, validate_parts_stages.
  rewrite (bind_Return _ _ _ _ _ Hv).
  rewrite (standard_claims_checked host payload exp n w1 Hi He Hn), Hlt.
  reflexivity.
Qed.

(** ** The worker run on tokens *)

(** Proves [lhs = rhs] by evaluating [lhs], filling in what [rhs] leaves
    open. *)
Ltac by_computation :=
  match goal with
  | |- ?lhs = ?rhs =>
      let v := eval vm_compute in lhs in
      unify rhs v; vm_cast_no_check (@eq_refl _ v)
  end.

(** The token of the specification's scenario is accepted. *)
Example token_accepted :
  exists payload w,
    validateJWT Example.host Example.token initial = (Return payload, w)
    /\ Get payload (js "sub") = Return (JString (js "u1"))
    /\ decode (nth 1 (Str.split 46 Example.token) []) = Return payload.
Proof.
  eexists _, _. split; [by_computation|]. split; vm_compute; reflexivity.
Qed.

(** One millisecond after [exp] the same token is refused. *)
Example token_expired :
  fst (validateJWT (Example.host_with 2000000000001 (Example.issuer 200 Example.key_set))
         Example.token initial)
  = Throw (Error (js "Token expired")).
Proof. vm_compute. reflexivity. Qed.

(** C1: the code departs from the claim.  A token with a valid signature
    and no [exp] in its payload is returned as valid, and so is a token at
    the very millisecond its [exp] names: [validateJWT] throws
    [Error("Token expired")] in neither case. *)
Theorem token_without_exp_is_accepted :
  (exists payload w,
     validateJWT Example.host Example.token_without_exp initial
     = (Return payload, w)
     /\ Get payload (js "exp") = Return JUndefined
     /\ (Return payload : Outcome JSValue) <> Throw (Error (js "Token expired")))
  /\ exists payload w,
       validateJWT
         (Example.host_with 2000000000000 (Example.issuer 200 Example.key_set))
         Example.token initial
       = (Return payload, w)
       /\ Get payload (js "exp") = Return (JNumber (Num.of_Z 2000000000))
       /\ (Return payload : Outcome JSValue) <> Throw (Error (js "Token expired")).
Proof.
  split; eexists _, _;
    (split; [by_computation | split; [vm_compute; reflexivity | discriminate]]).
Qed.

(** C2 fails as stated: a token whose header declares [HS256], an
    algorithm other than the one the signature is verified under, is
    accepted; [validateJWT] does not throw [Error("Invalid signature")]. *)
Lemma token_declaring_HS256_is_accepted :
  exists h p s header payload w,
    Str.split 46 Example.token_declaring_HS256 = [h; p; s]
    /\ decode h = Return header
    /\ Get header (js "alg") = Return (JString (js "HS256"))
    /\ validateJWT Example.host Example.token_declaring_HS256 initial
       = (Return payload, w)
    /\ (Return payload : Outcome JSValue) <> Throw (Error (js "Invalid signature")).
Proof.
  eexists _, _, _, _, _, _.
  split; [by_computation|]. split; [by_computation|].
  split; [vm_compute; reflexivity|]. split; [by_computation | discriminate].
Qed.

(** A key that declares another algorithm is not imported: the exception
    is the host's [DataError], not [Error("Invalid signature")]. *)
Example key_declaring_RS384_is_refused :
  fst (validateJWT
         (Example.host_with 1900000000000 (Example.issuer 200 Example.key_set_RS384))
         Example.token initial)
  = Throw (DOMException (js "DataError") (js "Invalid alg")).
Proof. vm_compute. reflexivity. Qed.

(** The statement of C2 on the token that declares [HS256]: every host
    call names the fixed algorithm, the key [k1] is imported for it, the
    signature is verified under it, and the token is accepted. *)
Lemma fixed_algorithm_witness :
  (exists new,
     trace (snd (validateJWT Example.host Example.token_declaring_HS256 initial))
     = new ++ trace initial
     /\ Forall fixed_algorithm new)
  /\ exists h p s jwk key signature payload w',
       Str.split 46 Example.token_declaring_HS256 = [h; p; s]
       /\ validateJWT Example.host Example.token_declaring_HS256 initial
          = (Return payload, w')
       /\ trace w'
          = [EvVerify RSASSA_PKCS1_v1_5 key signature (utf8_encode (h ++ js "." ++ p));
             EvImportKey (js "jwk") jwk import_algorithm false [js "verify"];
             EvFetch (JString Example.jwks_uri) None;
             EvFetch (JString oidcConfigUrl) None].
Proof.
  destruct (signature_verified_under_fixed_algorithm Example.host
              Example.token_declaring_HS256 initial) as ((new & E & F & _) & Run & _).
  split; [exists new; split; assumption|].
  assert (H : exists h p s header payload jwks keys jwk w1 key signature w',
             Str.split 46 Example.token_declaring_HS256 = [h; p; s]
             /\ decode h = Return header
             /\ decode p = Return payload
             /\ getJWKS Example.host initial = (Return jwks, w1)
             /\ Get jwks (js "keys") = Return keys
             /\ keys_find keys header = Return jwk
             /\ ToBoolean jwk = true
             /\ importKey Example.host (js "jwk") jwk import_algorithm false
                  [js "verify"] = Return key
             /\ atob s = Return signature
             /\ verify Example.host RSASSA_PKCS1_v1_5 key signature
                  (utf8_encode (h ++ js "." ++ p)) = Return true
             /\ standard_claims Example.host payload
                  (record (EvVerify RSASSA_PKCS1_v1_5 key signature
                             (utf8_encode (h ++ js "." ++ p)))
                     (record (EvImportKey (js "jwk") jwk import_algorithm false
                                [js "verify"]) w1))
                = (Return payload, w')
             /\ trace w'
                = [EvVerify RSASSA_PKCS1_v1_5 key signature
                     (utf8_encode (h ++ js "." ++ p));
                   EvImportKey (js "jwk") jwk import_algorithm false [js "verify"];
                   EvFetch (JString Example.jwks_uri) None;
                   EvFetch (JString oidcConfigUrl) None]).
  { eexists _, _, _, _, _, _, _, _, _, _, _, _.
    do 6 (split; [by_computation|]). split; [vm_compute; reflexivity|].
    do 4 (split; [by_computation|]). vm_compute; reflexivity. }
  destruct H as (h & p & s & header & payload & jwks & keys & jwk & w1 & key
                 & signature & w' & Hsplit & Hh & Hp & Hg & Hk & Hf & Hj & Hi & Hs
                 & Hv & Hc & Ht).
  exists h, p, s, jwk, key, signature, payload, w'.
  split; [exact Hsplit|].
  pose proof (Run h p s header payload jwks keys jwk w1 Hsplit Hh Hp Hg Hk Hf Hj)
    as R.
  cbv zeta in R. rewrite Hi, Hs, Hv in R.
  split; [rewrite R; exact Hc | exact Ht].
Defined.

(** C3: the code departs from the claim.  A token that is well formed,
    carries the issuer, an unexpired [exp] and a subject, and whose
    signature verifies under the key [k1] of the key set, is refused:
    [atob] does not read the base64url alphabet of its signature. *)
Theorem wellformed_token_rejected_by_atob :
  exists h p s header payload key signature,
    Str.split 46 Example.token_base64url = [h; p; s]
    /\ decode_url h = Return header
    /\ Get header (js "kid") = Return (JString (js "k1"))
    /\ decode_url p = Return payload
    /\ Get payload (js "iss") = Return (JString OIDC_ISSUER)
    /\ Get payload (js "sub") = Return (JString (js "u1"))
    /\ Get payload (js "exp") = Return (JNumber (Num.of_Z 2000000000))
    /\ (exists jwk,
          JSON.parse Example.key_set = Return (JObject [(js "keys", JArray [jwk])])
          /\ Reference.importKey (js "jwk") jwk import_algorithm false [js "verify"]
             = Return key)
    /\ Base64.url_decode s = Some signature
    /\ Reference.verify RSASSA_PKCS1_v1_5 key signature
         (utf8_encode (h ++ js "." ++ p)) = Return true
    /\ fst (validateJWT Example.host Example.token_base64url initial)
       = Throw (DOMException (js "InvalidCharacterError")
                  (js "atob() called with invalid base64-encoded data.")).
Proof.
  eexists _, _, _, _, _, _, _.
  split; [by_computation|].
  split; [by_computation|].
  split; [vm_compute; reflexivity|].
  split; [by_computation|].
  split; [vm_compute; reflexivity|].
  split; [vm_compute; reflexivity|].
  split; [vm_compute; reflexivity|].
  split; [eexists; split; by_computation|].
  split; [by_computation|].
  split; vm_compute; reflexivity.
Qed.

(** C4 fails as stated: when the JWKS endpoint answers 500 with a key set
    in the body, the token is accepted; [validateJWT] throws nothing. *)
Lemma keys_served_with_status_500_are_used :
  Example.issuer 500 Example.key_set [] (JString Example.jwks_uri) None
  = Fulfilled {| status := 500; body := Example.key_set |}
  /\ exists payload w,
       validateJWT (Example.host_with 1900000000000 (Example.issuer 500 Example.key_set))
         Example.token initial
       = (Return payload, w)
       /\ forall e, (Return payload : Outcome JSValue) <> Throw e.
Proof.
  split; [reflexivity|]. eexists _, _. split; [by_computation | discriminate].
Qed.

(** The statement of C4 on a JWKS endpoint that answers 500 with a text
    that is not JSON. *)
Lemma unreadable_key_set_witness :
  fst (validateJWT
         (Example.host_with 1900000000000
            (Example.issuer 500 (js "Internal Server Error")))
         Example.token initial)
  = Throw (SyntaxError (js "Unexpected token in JSON")).
Proof.
  destruct (status_ignored_and_unreadable_source_rejected
              (Example.host_with 1900000000000
                 (Example.issuer 500 (js "Internal Server Error"))))
    as [_ H].
  eapply H.
  - by_computation.
  - by_computation.
  - by_computation.
  - vm_compute; reflexivity.
  - right. eexists _, _.
    split; [by_computation|].
    split; [by_computation | vm_compute; reflexivity].
Defined.

(** C5 fails as stated: a token whose header is a JSON object without
    [kid] is accepted when the key of the set has none either;
    [validateJWT] throws nothing. *)
Lemma token_without_kid_is_accepted :
  exists h p s props payload w,
    Str.split 46 Example.token_without_kid = [h; p; s]
    /\ decode h = Return (JObject props)
    /\ own_property (js "kid") props = None
    /\ validateJWT
         (Example.host_with 1900000000000 (Example.issuer 200 Example.key_set_unnamed))
         Example.token_without_kid initial
       = (Return payload, w)
    /\ forall e, (Return payload : Outcome JSValue) <> Throw e.
Proof.
  eexists _, _, _, _, _, _.
  split; [by_computation|]. split; [by_computation|].
  split; [vm_compute; reflexivity|]. split; [by_computation | discriminate].
Qed.

(** The statement of C5 on the key set whose key is named [k1], where
    no key compares equal, and on a key set whose only element is the
    number 0, which compares equal and is falsy. *)
Lemma token_without_kid_witness :
  fst (validateJWT Example.host Example.token_without_kid initial)
  = Throw (Error (js "No matching JWK"))
  /\ fst (validateJWT host_with_number_as_key Example.token_without_kid initial)
     = Throw (Error (js "No matching JWK")).
Proof.
  assert (H : forall host,
             host = Example.host \/ host = host_with_number_as_key ->
             exists h p s header payload jwks k w1,
               Str.split 46 Example.token_without_kid = [h; p; s]
               /\ decode h = Return header
               /\ decode p = Return payload
               /\ getJWKS host initial = (Return jwks, w1)
               /\ Get jwks (js "keys") = Return (JArray [k])
               /\ Get header (js "kid") = Return JUndefined
               /\ exists a,
                    Get k (js "kid") = Return a
                    /\ strict_eq a JUndefined = (if ToBoolean k then false else true)).
  { intros host [-> | ->]; eexists _, _, _, _, _, _, _, _;
      (do 5 (split; [by_computation|])); (split; [vm_compute; reflexivity|]);
      eexists; (split; [by_computation | vm_compute; reflexivity]). }
  split.
  - destruct (H Example.host (or_introl eq_refl))
      as (h & p & s & header & payload & jwks & k & w1
          & Hsplit & Hh & Hp & Hg & Hk & Hu & Hcmp).
    destruct (header_without_kid_is_looked_up Example.host
                Example.token_without_kid h p s header payload jwks [k] initial w1
                Hsplit Hh Hp Hg Hk) as (None_equal & First_equal & Undefined).
    destruct (ToBoolean k) eqn:Ht.
    + rewrite None_equal; [reflexivity|].
      constructor; [|constructor]. apply (Undefined Hu). exact Hcmp.
    + rewrite (First_equal [] k [] eq_refl (Forall_nil _)), Ht; [reflexivity|].
      apply (Undefined Hu). exact Hcmp.
  - destruct (H host_with_number_as_key (or_intror eq_refl))
      as (h & p & s & header & payload & jwks & k & w1
          & Hsplit & Hh & Hp & Hg & Hk & Hu & Hcmp).
    destruct (header_without_kid_is_looked_up host_with_number_as_key
                Example.token_without_kid h p s header payload jwks [k] initial w1
                Hsplit Hh Hp Hg Hk) as (None_equal & First_equal & Undefined).
    destruct (ToBoolean k) eqn:Ht.
    + rewrite None_equal; [reflexivity|].
      constructor; [|constructor]. apply (Undefined Hu). exact Hcmp.
    + rewrite (First_equal [] k [] eq_refl (Forall_nil _)), Ht; [reflexivity|].
      apply (Undefined Hu). exact Hcmp.
Defined.

(** C6 fails as stated: [validateJWT] has no check of [sub].  A token
    that passes the signature, issuer and expiry checks is returned to
    the caller as valid claims when its payload has no [sub], and when its
    [sub] is empty; validation fails with no error. *)
Lemma token_without_sub_is_returned :
  (exists payload w,
     validateJWT Example.host Example.token_without_sub initial
     = (Return payload, w)
     /\ Get payload (js "sub") = Return JUndefined)
  /\ exists payload w,
       validateJWT Example.host Example.token_with_empty_sub initial
       = (Return payload, w)
       /\ Get payload (js "sub") = Return (JString []).
Proof.
  split; eexists _, _; (split; [by_computation | vm_compute; reflexivity]).
Qed.

(** The statement of C6 on a token without [sub] and on one whose
    [sub] is empty. *)
Lemma missing_subject_witness :
  exists w1,
    fetch Example.host (request Example.token_without_sub) initial
    = (Return (text_response (js "Forbidden: Invalid token claims") 403), w1)
    /\ exists w2,
         fetch Example.host (request Example.token_with_empty_sub) initial
         = (Return (text_response (js "Forbidden: Invalid token claims") 403), w2).
Proof.
  eexists; split; [|eexists].
  - eapply (missing_subject_is_forbidden Example.host
              (request Example.token_without_sub)).
    + reflexivity.
    + reflexivity.
    + by_computation.
    + left; vm_compute; reflexivity.
  - eapply (missing_subject_is_forbidden Example.host
              (request Example.token_with_empty_sub)).
    + reflexivity.
    + reflexivity.
    + by_computation.
    + right; vm_compute; reflexivity.
Defined.

(** C7 fails as stated: two calls that both start on the empty cache
    before either has stored its result each fetch the key set, and the
    key source is invoked twice. *)
Lemma two_concurrent_calls_fetch_twice :
  exists jwks w,
    run Example.host [0; 1; 0; 1; 0; 1]%nat [Start; Start] initial
    = ([Finished (Return jwks); Finished (Return jwks)], w)
    /\ keysource_calls w = 2%nat
    /\ keysource_calls w <> 1%nat.
Proof.
  eexists _, _. split; [by_computation|].
  split; [vm_compute; reflexivity | vm_compute; discriminate].
Qed.

(** The statement of C7 on the empty cache, on the cache one call has
    filled, on two refreshes that overlap and on three concurrent calls.
    Of the two refreshes the first reads the time 1 000 000 and the second
    1 300 000; the second stores first.  The entry left carries
    1 000 000, and a call that reads 1 650 000, less than six minutes
    after the second refresh started, requests the discovery document
    again. *)
Lemma cache_witness :
  (exists jwks w1,
     getJWKS Example.host initial = (Return jwks, w1)
     /\ trace w1 = [EvFetch (JString Example.jwks_uri) None;
                    EvFetch (JString oidcConfigUrl) None]
     /\ getJWKS Example.host w1 = (Return jwks, tick w1))
  /\ (let racing := host_with_times [1000000; 1300000; 1650000] in
      exists pool w,
        run racing [0; 1; 0; 1]%nat [Start; Start] initial = (pool, w)
        /\ let w' := snd (run racing [1; 0]%nat pool w) in
           jwksFetchedAt w' = 1000000
           /\ clock racing (clock_reads w') - 1300000 < 10 * 60 * 1000
           /\ exists more,
                trace (snd (getJWKS racing w'))
                = more ++ EvFetch (JString oidcConfigUrl) None :: trace w')
  /\ exists pool w',
       run Example.host (seq 0 3) (repeat Start 3) initial = (pool, w')
       /\ trace w' = repeat (EvFetch (JString oidcConfigUrl) None) 3 ++ trace initial.
Proof.
  split; [|split].
  - destruct (cache_hits_and_uncoalesced_misses Example.host)
      as (Hit & Miss & Again & _).
    assert (E : exists jwks w1,
               getJWKS Example.host initial = (Return jwks, w1)
               /\ ToBoolean jwks = true
               /\ trace w1 = [EvFetch (JString Example.jwks_uri) None;
                              EvFetch (JString oidcConfigUrl) None]).
    { eexists _, _. split; [rewrite (Miss initial eq_refl); by_computation|].
      split; vm_compute; reflexivity. }
    destruct E as (jwks & w1 & E & Ht & Htrace).
    exists jwks, w1. split; [exact E|]. split; [exact Htrace|].
    apply (Again initial w1 w1 jwks eq_refl E Ht eq_refl eq_refl).
    destruct (getJWKS_refreshed Example.host initial w1 jwks E eq_refl)
      as (_ & _ & ->).
    vm_compute; reflexivity.
  - intros racing.
    destruct (cache_hits_and_uncoalesced_misses racing) as (_ & _ & _ & Overlap & _).
    assert (E : exists pending0 pending1 jwks0 jwks1 w,
               run racing [0; 1; 0; 1]%nat [Start; Start] initial
               = ([AwaitKeys 1000000 pending0; AwaitKeys 1300000 pending1], w)
               /\ settle pending0 = Return jwks0
               /\ settle pending1 = Return jwks1
               /\ clock_reads w = 2%nat).
    { eexists _, _, _, _, _. split; [by_computation|].
      split; [by_computation|]. split; [by_computation | vm_compute; reflexivity]. }
    destruct E as (pending0 & pending1 & jwks0 & jwks1 & w & R & H0 & H1 & Hr).
    exists [AwaitKeys 1000000 pending0; AwaitKeys 1300000 pending1], w.
    split; [exact R|].
    destruct (Overlap 1000000 1300000 pending0 pending1 jwks0 jwks1 w H0 H1)
      as (_ & Hf & Hreads & Refetch).
    cbv zeta. split; [exact Hf|].
    rewrite Hreads, Hr in *.
    split; [vm_compute; reflexivity|].
    apply Refetch. vm_compute. discriminate.
  - destruct (cache_hits_and_uncoalesced_misses Example.host) as (_ & _ & _ & _ & Many).
    apply Many; reflexivity.
Defined.

(** C8 fails as stated: on the token [a.b.c] [validateJWT] throws the
    [InvalidCharacterError] of [atob], which is none of its own errors,
    and the key source has not been called. *)
Lemma host_exception_escapes_validateJWT :
  exists e w,
    validateJWT Example.host (js "a.b.c") initial = (Throw e, w)
    /\ ~ In e own_errors
    /\ trace w = [].
Proof.
  eexists _, _. split; [by_computation|]. split; [|reflexivity].
  simpl. intros [H | [H | [H | [H | [H | []]]]]]; discriminate.
Qed.

(** The statement of C8 on the request that carries [a.b.c]. *)
Lemma handler_witness :
  exists w1,
    fetch Example.host (request (js "a.b.c")) initial
    = (Return (text_response
                 (js "Unauthorized: atob() called with invalid base64-encoded data.")
                 401), w1).
Proof.
  destruct (handler_answers_every_exception Example.host (request (js "a.b.c"))
              initial) as [_ H].
  eexists.
  eapply (H (js "Bearer a.b.c")
            (DOMException (js "InvalidCharacterError")
               (js "atob() called with invalid base64-encoded data."))).
  - reflexivity.
  - reflexivity.
  - by_computation.
Defined.


(** The statement of C10 on the token in base64url. *)
Lemma url_alphabet_witness :
  exists e new,
    fst (validateJWT Example.host Example.token_base64url initial) = Throw e
    /\ trace (snd (validateJWT Example.host Example.token_base64url initial))
       = new ++ trace initial
    /\ Forall (fun ev => is_verify ev = false) new.
Proof.
  eapply url_alphabet_signature_rejected.
  - by_computation.
  - left; vm_compute; reflexivity.
Defined.

(** * Further properties of the worker *)

(** ** The token and its segments (lines 30 to 33 and 55 to 56) *)

Lemma split_length (sep : Z) (s : jsstring) :
  List.length (Str.split sep s) = S (count_occ Z.eq_dec s sep).
Proof.
  induction s as [|c s IH]; simpl; [reflexivity|].
  destruct (Z.eqb_spec c sep) as [-> | Hne].
  - destruct (Z.eq_dec sep sep); [simpl; rewrite IH; reflexivity | contradiction].
  - destruct (Z.eq_dec c sep); [contradiction|].
    destruct (Str.split sep s) as [|p ps]; [discriminate | exact IH].
Qed.

(** X1: a token that does not have exactly two dots is refused with
    [Error("Invalid JWT format")] before anything else is done: no clock
    reading, no host call, no change of the cache.  A token with exactly
    two dots passes this check, whatever its segments are. *)
Theorem wrong_segment_count_rejected (host : Host) (token : jsstring) (w : World) :
  (dots token <> 2%nat ->
   validateJWT host token w = (Throw (Error (js "Invalid JWT format")), w))
  /\ (dots token = 2%nat ->
      exists h p s,
        Str.split 46 token = [h; p; s]
        /\ validateJWT host token w = validate_parts host h p s w).
Proof.
  unfold dots, validateJWT. pose proof (split_length 46 token) as L.
  split; intros H.
  - destruct (Str.split 46 token) as [|h [|p [|s [|x l]]]]; try reflexivity.
    simpl in L. congruence.
  - rewrite H in L.
    destruct (Str.split 46 token) as [|h [|p [|s [|x l]]]]; try discriminate.
    exists h, p, s; auto.
Qed.

Lemma split_cons (sep : Z) (s : jsstring) :
  exists p ps, Str.split sep s = p :: ps.
Proof.
  pose proof (split_length sep s) as L.
  destruct (Str.split sep s) as [|p ps]; [discriminate | eauto].
Qed.

Lemma split_three_segments (sep : Z) (token h p s : jsstring) :
  Str.split sep token = [h; p; s] ->
  token = h ++ sep :: p ++ sep :: s
  /\ ~ In sep h /\ ~ In sep p /\ ~ In sep s.
Proof.
  assert (One : forall t x, Str.split sep t = [x] -> t = x /\ ~ In sep x).
  { induction t as [|c t IH]; simpl; intros x H.
    - injection H as <-; auto.
    - destruct (Z.eqb_spec c sep) as [-> | Hne].
      + destruct (split_cons sep t) as (q & qs & E); rewrite E in H; discriminate.
      + destruct (split_cons sep t) as (q & qs & E); rewrite E in H.
        injection H as <- ->. destruct (IH q E) as [-> Hq].
        split; [reflexivity|]. simpl; intros [F | F]; [congruence | auto]. }
  assert (Two : forall t x y, Str.split sep t = [x; y] ->
                t = x ++ sep :: y /\ ~ In sep x /\ ~ In sep y).
  { induction t as [|c t IH]; simpl; intros x y H; [discriminate|].
    destruct (Z.eqb_spec c sep) as [-> | Hne].
    - injection H as <- H. destruct (One t y H) as [-> Hy]. auto.
    - destruct (split_cons sep t) as (q & qs & E); rewrite E in H.
      injection H as <- ->. destruct (IH q y E) as (-> & Hq & Hy).
      repeat split; auto. simpl; intros [F | F]; [congruence | auto]. }
  revert h p s. induction token as [|c t IH]; simpl; intros h p s H; [discriminate|].
  destruct (Z.eqb_spec c sep) as [-> | Hne].
  - injection H as <- H. destruct (Two t p s H) as (-> & Hp & Hs). auto.
  - destruct (split_cons sep t) as (q & qs & E); rewrite E in H.
    injection H as <- ->. destruct (IH q p s E) as (-> & Hq & Hp & Hs).
    repeat split; auto. simpl; intros [F | F]; [congruence | auto].
Qed.

Lemma values_alphabet (s : jsstring) (vs : list Z) :
  Base64.values s = Some vs ->
  Forall (fun c => 0 <= c < 128) s /\ Forall (fun v => 0 <= v < 64) vs.
Proof.
  revert vs; induction s as [|c s IH]; simpl; intros vs H.
  - injection H as <-; auto.
  - destruct (Base64.value c) as [v|] eqn:Hv; [|discriminate].
    destruct (Base64.values s) as [vs'|]; [|discriminate].
    injection H as <-. destruct (IH vs' eq_refl) as [Hs Hvs].
    assert (0 <= c < 128 /\ 0 <= v < 64).
    { unfold Base64.value in Hv.
      repeat match type of Hv with
             | (if ?b then _ else _) = _ => destruct b eqn:?
             end; try discriminate; injection Hv as <-; lia. }
    split; constructor; tauto.
Qed.

(** What [atob] accepts is ASCII. *)
Lemma atob_reads_ascii (data text : jsstring) :
  atob data = Return text -> Forall (fun c => 0 <= c < 128) data.
Proof.
  unfold atob, Base64.forgiving_decode.
  set (d1 := filter _ data).
  match goal with
  | |- context [if ?b then Base64.strip_padding d1 else d1] =>
      set (d2 := if b then Base64.strip_padding d1 else d1)
  end.
  destruct (_ =? 1); [discriminate|].
  destruct (Base64.values d2) as [vs|] eqn:Hv; [|discriminate]. intros _.
  destruct (values_alphabet d2 vs Hv) as [H2 _]. rewrite Forall_forall in H2.
  assert (H1 : forall c, In c d1 -> 0 <= c < 128).
  { intros c Hc. unfold d2 in H2.
    destruct (Z.of_nat (List.length d1) mod 4 =? 0); [|auto].
    destruct (strip_padding_cases d1) as [E | (r & E & Hr)];
      rewrite E in H2; [auto|].
    rewrite in_rev in Hc.
    destruct Hr as [Hr | Hr]; rewrite Hr in Hc; simpl in Hc;
      repeat (destruct Hc as [<- | Hc]; [lia|]); apply H2; rewrite <- in_rev; exact Hc. }
  apply Forall_forall. intros c Hc.
  destruct (Base64.is_ascii_whitespace c) eqn:Hw.
  - unfold Base64.is_ascii_whitespace in Hw. lia.
  - apply H1, filter_In. rewrite Hw; auto.
Qed.

Lemma utf8_encode_ascii (s : jsstring) :
  Forall (fun c => 0 <= c < 128) s -> utf8_encode s = s.
Proof.
  induction 1 as [|c s Hc _ IH]; [reflexivity|].
  cbn [utf8_encode].
  assert (E1 : is_high_surrogate c = false)
    by (unfold is_high_surrogate; apply andb_false_iff; left; lia).
  assert (E2 : is_low_surrogate c = false)
    by (unfold is_low_surrogate; apply andb_false_iff; left; lia).
  assert (E3 : utf8_of_code_point c = [c]).
  { unfold utf8_of_code_point. replace (c <? 128) with true by lia. reflexivity. }
  rewrite E1, E2, E3, IH. reflexivity.
Qed.

(** The first two segments of a token that [atob] reads, joined by a
    dot, are the token up to its last dot, and the text encoder leaves
    them as they are. *)
Lemma signing_input_prefix (token h p s ht pt : jsstring) :
  Str.split 46 token = [h; p; s] ->
  atob h = Return ht ->
  atob p = Return pt ->
  token = utf8_encode (h ++ js "." ++ p) ++ js "." ++ s
  /\ ~ In 46 s.
Proof.
  intros Hsplit Hh Hp.
  destruct (split_three_segments 46 token h p s Hsplit) as (E & _ & _ & Hs).
  split; [|exact Hs].
  rewrite utf8_encode_ascii.
  - rewrite E, <- app_assoc. reflexivity.
  - apply Forall_app; split.
    + exact (atob_reads_ascii h ht Hh).
    + constructor; [simpl; lia | exact (atob_reads_ascii p pt Hp)].
Qed.

(** Settles a statement on the verifications among the host calls of a
    run, given what holds of the one [validate_parts] makes. *)
Ltac verification_logged Hdata :=
  let Hin := fresh "Hin" in
  intros ? ? ? ? Hin; cbn [In] in Hin;
  repeat (destruct Hin as [Hin | Hin];
          [try discriminate Hin; injection Hin as <- <- <- <-;
           eapply Hdata; first [eassumption | reflexivity]|]);
  destruct Hin.

(** X2: whenever [validateJWT] calls [crypto.subtle.verify], the [data]
    it passes are the code units of the token itself up to its last dot,
    and the [signature] it passes is [atob] of what follows that dot. *)
Theorem signing_input_is_token_prefix (host : Host) (token : jsstring)
    (w : World) :
  exists new,
    trace (snd (validateJWT host token w)) = new ++ trace w
    /\ forall algorithm key signature data,
         In (EvVerify algorithm key signature data) new ->
         exists s,
           token = data ++ js "." ++ s
           /\ ~ In 46 s
           /\ atob s = Return signature.
Proof.
  unfold validateJWT.
  destruct (Str.split 46 token) as [|h [|p [|s [|x l]]]] eqn:Hsplit;
    try (exists []; split; [reflexivity | intros ? ? ? ? []]).
  assert (Hdata : forall ht pt signature,
             atob h = Return ht -> atob p = Return pt ->
             atob s = Return signature ->
             exists s0,
               token = utf8_encode (h ++ js "." ++ p) ++ js "." ++ s0
               /\ ~ In 46 s0 /\ atob s0 = Return signature).
  { intros ht pt signature Hh Hp Hs. exists s.
    destruct (signing_input_prefix token h p s ht pt Hsplit Hh Hp) as [E Hdot].
    auto. }
  unfold validate_parts, getJWKS, bind, lift, throw, ret, Date_now,
    read_jwksCache, read_jwksFetchedAt, fetch_, subtle_importKey, subtle_verify,
    write_jwksCache, write_jwksFetchedAt, record.
  cbn [fst snd trace clock_reads jwksCache jwksFetchedAt].
  repeat (case_innermost;
          cbn [negb fst snd trace clock_reads jwksCache jwksFetchedAt]);
    first
      [ exists []; split; [reflexivity | solve [verification_logged Hdata]]
      | eexists [_]; split; [reflexivity | solve [verification_logged Hdata]]
      | eexists [_; _]; split; [reflexivity | solve [verification_logged Hdata]]
      | eexists [_; _; _]; split; [reflexivity | solve [verification_logged Hdata]]
      | eexists [_; _; _; _]; split;
        [reflexivity | solve [verification_logged Hdata]] ].
Qed.

(** The statement of X2 on the token of the scenario, which is
    verified: the [data] of the verification logged are the token up to
    its last dot. *)
Lemma signing_input_witness :
  exists key signature data s,
    hd_error (trace (snd (validateJWT Example.host Example.token initial)))
    = Some (EvVerify RSASSA_PKCS1_v1_5 key signature data)
    /\ Example.token = data ++ js "." ++ s
    /\ atob s = Return signature.
Proof.
  destruct (signing_input_is_token_prefix Example.host Example.token initial)
    as (new & E & H).
  assert (T : exists key signature data rest,
             trace (snd (validateJWT Example.host Example.token initial))
             = EvVerify RSASSA_PKCS1_v1_5 key signature data :: rest).
  { eexists _, _, _, _. by_computation. }
  destruct T as (key & signature & data & rest & T).
  rewrite T in E. cbn [trace initial] in E. rewrite app_nil_r in E.
  destruct (H RSASSA_PKCS1_v1_5 key signature data) as (s & Htoken & _ & Hs).
  { rewrite <- E. left; reflexivity. }
  exists key, signature, data, s. rewrite T. auto.
Defined.

Lemma bytes_of_sextets_octets (vs : list Z) :
  Forall (fun v => 0 <= v < 64) vs ->
  Forall octet (Base64.bytes_of_sextets vs).
Proof.
  assert (G : forall n vs, (List.length vs <= n)%nat ->
              Forall (fun v => 0 <= v < 64) vs ->
              Forall octet (Base64.bytes_of_sextets vs)).
  { induction n as [|n IH]; intros l Hl Hall.
    - destruct l; [constructor | simpl in Hl; lia].
    - destruct l as [|a [|b [|c [|d rest]]]]; simpl.
      + constructor.
      + constructor.
      + rewrite !Forall_cons_iff in Hall. destruct Hall as (Ha & Hb & _).
        unfold octet.
        pose proof (Z.div_pos b 16). pose proof (Z.div_lt_upper_bound b 16 4).
        repeat constructor; lia.
      + rewrite !Forall_cons_iff in Hall. destruct Hall as (Ha & Hb & Hc & _).
        unfold octet.
        pose proof (Z.div_pos b 16). pose proof (Z.div_lt_upper_bound b 16 4).
        pose proof (Z.mod_pos_bound b 16).
        pose proof (Z.div_pos c 4). pose proof (Z.div_lt_upper_bound c 4 16).
        repeat constructor; lia.
      + rewrite !Forall_cons_iff in Hall.
        destruct Hall as (Ha & Hb & Hc & Hd & Hrest).
        unfold octet.
        pose proof (Z.div_pos b 16). pose proof (Z.div_lt_upper_bound b 16 4).
        pose proof (Z.mod_pos_bound b 16).
        pose proof (Z.div_pos c 4). pose proof (Z.div_lt_upper_bound c 4 16).
        pose proof (Z.mod_pos_bound c 4).
        repeat (constructor; [lia|]).
        apply IH; [simpl in Hl; lia | exact Hrest]. }
  intros H; apply (G (List.length vs)); auto.
Qed.

(** X3: every code unit of a string [atob] returns is a byte, so that the
    [charCodeAt] values of line 56 fill the signature array without
    truncation. *)
Theorem atob_returns_octets (data text : jsstring) :
  atob data = Return text -> Forall octet text.
Proof.
  unfold atob, Base64.forgiving_decode.
  destruct (_ =? 1); [discriminate|].
  match goal with
  | |- context [Base64.values ?d] => destruct (Base64.values d) as [vs|] eqn:Hv
  end; [|discriminate].
  intros [= <-]. apply bytes_of_sextets_octets.
  exact (proj2 (values_alphabet _ vs Hv)).
Qed.

Lemma atob_octets_witness :
  exists signature,
    atob (nth 2 (Str.split 46 Example.token) []) = Return signature
    /\ List.length signature = 256%nat
    /\ Forall octet signature.
Proof.
  eexists. split; [by_computation|]. split; [vm_compute; reflexivity|].
  apply (atob_returns_octets (nth 2 (Str.split 46 Example.token) [])).
  by_computation.
Defined.

(** The statement of X1 on tokens with one dot and with two. *)
Lemma segment_count_witness :
  validateJWT Example.host (js "e30.e30") initial
  = (Throw (Error (js "Invalid JWT format")), initial)
  /\ exists h p s, Str.split 46 (js "..") = [h; p; s].
Proof.
  destruct (wrong_segment_count_rejected Example.host (js "e30.e30") initial)
    as [H _].
  split; [apply H; vm_compute; discriminate|].
  destruct (wrong_segment_count_rejected Example.host (js "..") initial)
    as [_ H2].
  destruct (H2 eq_refl) as (h & p & s & E & _). exists h, p, s; exact E.
Defined.

(** ** What an accepted token has passed (lines 29 to 65) *)

Lemma strict_eq_string (v : JSValue) (x : jsstring) :
  strict_eq v (JString x) = true <-> v = JString x.
Proof.
  destruct v; simpl; try (split; [discriminate | congruence]).
  rewrite Str_eqb_eq. split; [intros ->; reflexivity | intros [= ->]; reflexivity].
Qed.

Lemma standard_claims_returns (host : Host) (payload r : JSValue) (w w' : World) :
  standard_claims host payload w = (Return r, w') ->
  r = payload /\ w' = tick w
  /\ Get payload (js "iss") = Return (JString OIDC_ISSUER)
  /\ exists exp n,
       Get payload (js "exp") = Return exp
       /\ ToNumber exp = Return n
       /\ Num.ltb (Num.mul n (Num.of_Z 1000))
            (Num.of_Z (clock host (clock_reads w))) = false.
Proof.
  unfold standard_claims, bind, lift, Date_now, throw, ret.
  destruct (Get payload (js "iss")) as [iss | e]; [|discriminate].
  destruct (strict_eq iss (JString OIDC_ISSUER)) eqn:Hi; cbn [negb]; [|discriminate].
  apply strict_eq_string in Hi; subst iss.
  destruct (Get payload (js "exp")) as [exp | e]; [|discriminate].
  destruct (ToNumber exp) as [n | e] eqn:Hn; [|discriminate].
  destruct (Num.ltb _ _) eqn:Hlt; [discriminate|].
  intros [= <- <-]. repeat split; eauto.
Qed.

Lemma verified_payload_returns (host : Host) (h p s : jsstring)
    (payload : JSValue) (w wv : World) :
  verified_payload host h p s w = (Return payload, wv) ->
  exists header jwks w1 keys jwk key signature,
    decode h = Return header
    /\ decode p = Return payload
    /\ getJWKS host w = (Return jwks, w1)
    /\ Get jwks (js "keys") = Return keys
    /\ keys_find keys header = Return jwk
    /\ ToBoolean jwk = true
    /\ importKey host (js "jwk") jwk import_algorithm false [js "verify"]
       = Return key
    /\ atob s = Return signature
    /\ verify host RSASSA_PKCS1_v1_5 key signature
         (utf8_encode (h ++ js "." ++ p)) = Return true
    /\ wv = record (EvVerify RSASSA_PKCS1_v1_5 key signature
                      (utf8_encode (h ++ js "." ++ p)))
              (record (EvImportKey (js "jwk") jwk import_algorithm false
                         [js "verify"]) w1).
Proof.
  unfold verified_payload, decode, bind, lift, throw, ret,
    subtle_importKey, subtle_verify.
  destruct (atob h) as [ht | e]; [|discriminate].
  destruct (JSON.parse ht) as [header | e] eqn:Hh; [|discriminate].
  destruct (atob p) as [pt | e]; [|discriminate].
  destruct (JSON.parse pt) as [payload' | e] eqn:Hp; [|discriminate].
  destruct (getJWKS host w) as [[jwks | e] w1] eqn:Hg; [|discriminate].
  destruct (Get jwks (js "keys")) as [keys | e] eqn:Hk; [|discriminate].
  destruct (keys_find keys header) as [jwk | e] eqn:Hf; [|discriminate].
  destruct (ToBoolean jwk) eqn:Hj; cbn [negb]; [|discriminate].
  destruct (importKey host (js "jwk") jwk import_algorithm false [js "verify"])
    as [key | e] eqn:Hi; [|discriminate].
  destruct (atob s) as [signature | e] eqn:Hs; [|discriminate].
  destruct (verify host RSASSA_PKCS1_v1_5 key signature
              (utf8_encode (h ++ js "." ++ p))) as [[|] | e] eqn:Hver;
    cbn [negb]; try discriminate.
  intros [= <- <-].
  exists header, jwks, w1, keys, jwk, key, signature. repeat split; auto.
Qed.

(** X4: [validateJWT] returns a payload only if the token has three
    segments that [atob] and [JSON.parse] read, the key set holds a key
    the lookup selects, that key was imported, and
    [crypto.subtle.verify] answered [true] for the signature segment and
    the first two segments of this very token; the payload returned is the
    parsed second segment, its [iss] is the issuer, and [exp * 1000] was
    not below the time read. *)
Theorem accepted_token_was_verified (host : Host) (token : jsstring)
    (payload : JSValue) (w w' : World) :
  validateJWT host token w = (Return payload, w') ->
  exists h p s header jwks w1 keys jwk key signature exp n,
    Str.split 46 token = [h; p; s]
    /\ decode h = Return header
    /\ decode p = Return payload
    /\ getJWKS host w = (Return jwks, w1)
    /\ Get jwks (js "keys") = Return keys
    /\ keys_find keys header = Return jwk
    /\ ToBoolean jwk = true
    /\ importKey host (js "jwk") jwk import_algorithm false [js "verify"]
       = Return key
    /\ atob s = Return signature
    /\ verify host RSASSA_PKCS1_v1_5 key signature
         (utf8_encode (h ++ js "." ++ p)) = Return true
    /\ Get payload (js "iss") = Return (JString OIDC_ISSUER)
    /\ Get payload (js "exp") = Return exp
    /\ ToNumber exp = Return n
    /\ Num.ltb (Num.mul n (Num.of_Z 1000))
         (Num.of_Z (clock host (clock_reads w1))) = false
    /\ trace w'
       = EvVerify RSASSA_PKCS1_v1_5 key signature (utf8_encode (h ++ js "." ++ p))
         :: EvImportKey (js "jwk") jwk import_algorithm false [js "verify"]
         :: trace w1.
Proof.
  intros H. unfold validateJWT in H.
  destruct (Str.split 46 token) as [|h [|p [|s [|x l]]]]; try discriminate.
  rewrite validate_parts_stages in H. unfold bind in H.
  destruct (verified_payload host h p s w) as [[pl | e] wv] eqn:Hv;
    [|discriminate].
  destruct (standard_claims_returns host pl payload wv w' H)
    as (-> & -> & Hiss & exp & n & He & Hn & Hlt).
  destruct (verified_payload_returns host h p s pl w wv Hv)
    as (header & jwks & w1 & keys & jwk & key & signature
        & Hh & Hp & Hg & Hk & Hf & Hj & Hi & Hs & Hver & ->).
  exists h, p, s, header, jwks, w1, keys, jwk, key, signature, exp, n.
  repeat split; auto.
Qed.

Lemma accepted_token_witness :
  exists h p s key signature,
    Str.split 46 Example.token = [h; p; s]
    /\ atob s = Return signature
    /\ verify Example.host RSASSA_PKCS1_v1_5 key signature
         (utf8_encode (h ++ js "." ++ p)) = Return true.
Proof.
  assert (E : exists payload w',
             validateJWT Example.host Example.token initial = (Return payload, w')).
  { eexists _, _. by_computation. }
  destruct E as (payload & w' & E).
  destruct (accepted_token_was_verified Example.host Example.token payload
              initial w' E)
    as (h & p & s & header & jwks & w1 & keys & jwk & key & signature & exp & n
        & Hsplit & _ & _ & _ & _ & _ & _ & _ & Hs & Hver & _).
  exists h, p, s, key, signature. auto.
Defined.

(** X5: what [validateJWT] returns is always an object with the issuer
    as its own [iss]; so [claims.sub] in the handler never throws. *)
Theorem returned_claims_are_an_object (host : Host) (token : jsstring)
    (payload : JSValue) (w w' : World) :
  validateJWT host token w = (Return payload, w') ->
  (exists props,
     payload = JObject props
     /\ own_property (js "iss") props = Some (JString OIDC_ISSUER))
  /\ exists sub, Get payload (js "sub") = Return sub.
Proof.
  intros H. unfold validateJWT in H.
  destruct (Str.split 46 token) as [|h [|p [|s [|x l]]]]; try discriminate.
  rewrite validate_parts_stages in H. unfold bind in H.
  destruct (verified_payload host h p s w) as [[pl | e] wv]; [|discriminate].
  destruct (standard_claims_returns host pl payload wv w' H)
    as (-> & _ & Hiss & _).
  destruct pl as [| | b | x | x | elems | props |];
    try (exfalso; revert Hiss; vm_compute; discriminate).
  split.
  - exists props; split; [reflexivity|].
    simpl in Hiss. destruct (own_property (js "iss") props); congruence.
  - simpl. destruct (own_property (js "sub") props); eauto.
Qed.

Lemma returned_claims_witness :
  exists props,
    fst (validateJWT Example.host Example.token initial) = Return (JObject props)
    /\ own_property (js "iss") props = Some (JString OIDC_ISSUER).
Proof.
  assert (E : exists payload w',
             validateJWT Example.host Example.token initial = (Return payload, w')).
  { eexists _, _. by_computation. }
  destruct E as (payload & w' & E).
  destruct (returned_claims_are_an_object Example.host Example.token payload
              initial w' E) as [(props & -> & Hp) _].
  exists props. rewrite E. auto.
Defined.

(** ** The key lookup (line 39) *)

Lemma find_kid_returns (header jwk : JSValue) (ks : list JSValue) :
  find_kid header ks = Return jwk ->
  (jwk = JUndefined /\ Forall (fun k => kid_compares header k false) ks)
  \/ exists pre post,
       ks = pre ++ jwk :: post
       /\ kid_compares header jwk true
       /\ Forall (fun k => kid_compares header k false) pre.
Proof.
  induction ks as [|k ks IH]; simpl.
  - intros [= <-]. left; split; [reflexivity | constructor].
  - destruct (Get k (js "kid")) as [a | e] eqn:Ha; [|discriminate].
    destruct (Get header (js "kid")) as [b | e] eqn:Hb; [|discriminate].
    destruct (strict_eq a b) eqn:Hab.
    + intros [= <-]. right. exists [], ks.
      split; [reflexivity|]. split; [exists a, b; auto | constructor].
    + intros H. assert (Hk : kid_compares header k false) by (exists a, b; auto).
      destruct (IH H) as [[-> Hall] | (pre & post & -> & Hm & Hall)].
      * left; split; [reflexivity | constructor; assumption].
      * right. exists (k :: pre), post.
        split; [reflexivity|]. split; [assumption | constructor; assumption].
Qed.

(** X6: when [jwks.keys.find(...)] returns, [jwks.keys] is an array, and
    what is returned is its first element whose [kid] is strictly equal to
    the header's, every element before it having been compared and found
    different; it is [undefined] only if every element was compared and
    found different. *)
Theorem key_lookup_returns_first_match (keys header jwk : JSValue) :
  keys_find keys header = Return jwk ->
  exists ks,
    keys = JArray ks
    /\ ((jwk = JUndefined /\ Forall (fun k => kid_compares header k false) ks)
        \/ exists pre post,
             ks = pre ++ jwk :: post
             /\ kid_compares header jwk true
             /\ Forall (fun k => kid_compares header k false) pre).
Proof.
  destruct keys; simpl; try discriminate.
  intros H. eexists; split; [reflexivity|]. apply find_kid_returns, H.
Qed.

(** The statement of X6 on a key set with the wanted [kid] twice: the
    first of the two is returned. *)
Lemma key_lookup_witness :
  let header := JObject [(js "kid", JString (js "b"))] in
  let first := JObject [(js "kid", JString (js "b")); (js "use", JString (js "sig"))] in
  let keys := JArray [JObject [(js "kid", JString (js "a"))]; first;
                      JObject [(js "kid", JString (js "b"))]] in
  keys_find keys header = Return first
  /\ exists ks pre post,
       keys = JArray ks /\ ks = pre ++ first :: post
       /\ Forall (fun k => kid_compares header k false) pre.
Proof.
  intros header first keys.
  assert (E : keys_find keys header = Return first) by reflexivity.
  split; [exact E|].
  destruct (key_lookup_returns_first_match keys header first E)
    as (ks & Hks & [[Hu _] | (pre & post & Hsplit & _ & Hall)]);
    [discriminate Hu|].
  exists ks, pre, post. auto.
Defined.

(** ** The claims of a verified token (lines 60 to 64) *)

(** X7: a token whose signature was found valid and whose payload has an
    [iss] other than the issuer's string is refused with
    [Error("Invalid issuer")], before [exp] or the clock is read. *)
Theorem other_issuer_rejected (host : Host) (token h p s : jsstring)
    (payload iss : JSValue) (w wv : World) :
  Str.split 46 token = [h; p; s] ->
  verified_payload host h p s w = (Return payload, wv) ->
  Get payload (js "iss") = Return iss ->
  iss <> JString OIDC_ISSUER ->
  validateJWT host token w = (Throw (Error (js "Invalid issuer")), wv).
Proof.
  intros Hsplit Hv Hiss Hne. unfold validateJWT. rewrite Hsplit.
  rewrite validate_parts_stages, (bind_Return _ _ _ _ _ Hv).
  unfold standard_claims, bind, lift. rewrite Hiss.
  destruct (strict_eq iss (JString OIDC_ISSUER)) eqn:E; [|reflexivity].
  apply strict_eq_string in E. contradiction.
Qed.

(** X8: for a token whose signature was found valid and whose [iss] is
    the issuer, the comparison [exp * 1000 < Date.now()] on the numbers
    decides: the token is refused with [Error("Token expired")] if it
    holds, and its payload is returned if not; the clock is read once. *)
Theorem expiry_decides_verified_token (host : Host) (token h p s : jsstring)
    (payload exp : JSValue) (n : Num.number) (w wv : World) :
  Str.split 46 token = [h; p; s] ->
  verified_payload host h p s w = (Return payload, wv) ->
  Get payload (js "iss") = Return (JString OIDC_ISSUER) ->
  Get payload (js "exp") = Return exp ->
  ToNumber exp = Return n ->
  validateJWT host token w
  = (if Num.ltb (Num.mul n (Num.of_Z 1000))
          (Num.of_Z (clock host (clock_reads wv)))
     then Throw (Error (js "Token expired"))
     else Return payload, tick wv).
Proof.
  intros Hsplit Hv Hiss He Hn. unfold validateJWT. rewrite Hsplit.
  rewrite validate_parts_stages, (bind_Return _ _ _ _ _ Hv).
  exact (standard_claims_checked host payload exp n wv Hiss He Hn).
Qed.

(** The statement of X7 on a token the key signed for another issuer:
    it is refused after one reading of the clock, that of [getJWKS]. *)
Lemma other_issuer_witness :
  exists wv,
    validateJWT Example.host Example.token_of_another_issuer initial
    = (Throw (Error (js "Invalid issuer")), wv)
    /\ clock_reads wv = 1%nat.
Proof.
  assert (E : exists h p s payload wv,
             Str.split 46 Example.token_of_another_issuer = [h; p; s]
             /\ verified_payload Example.host h p s initial = (Return payload, wv)
             /\ Get payload (js "iss")
                = Return (JString (js "https://login.example.org/oauth2/default"))
             /\ clock_reads wv = 1%nat).
  { eexists _, _, _, _, _. split; [by_computation|]. split; [by_computation|].
    split; vm_compute; reflexivity. }
  destruct E as (h & p & s & payload & wv & Hsplit & Hv & Hiss & Hc).
  exists wv. split; [|exact Hc].
  apply (other_issuer_rejected Example.host _ h p s payload _ initial wv Hsplit Hv Hiss).
  intros H. vm_compute in H. discriminate H.
Defined.

(** The statement of X8 on a token whose [exp] is a string of digits,
    one millisecond after the time it names: the string is converted and
    the token is refused. *)
Lemma expiry_witness :
  let late := Example.host_with 2000000000001 (Example.issuer 200 Example.key_set) in
  fst (validateJWT late Example.token_with_string_exp initial)
  = Throw (Error (js "Token expired"))
  /\ exists payload,
       fst (validateJWT Example.host Example.token_with_string_exp initial)
       = Return payload
       /\ Get payload (js "exp") = Return (JString (js "2000000000")).
Proof.
  intros late.
  assert (E : forall host,
             host = late \/ host = Example.host ->
             exists h p s payload wv n,
               Str.split 46 Example.token_with_string_exp = [h; p; s]
               /\ verified_payload host h p s initial = (Return payload, wv)
               /\ Get payload (js "iss") = Return (JString OIDC_ISSUER)
               /\ Get payload (js "exp") = Return (JString (js "2000000000"))
               /\ ToNumber (JString (js "2000000000")) = Return n
               /\ n = Num.of_Z 2000000000
               /\ clock_reads wv = 1%nat).
  { intros host [-> | ->]; eexists _, _, _, _, _, _;
      (split; [by_computation|]); (split; [by_computation|]);
      (split; [vm_compute; reflexivity|]); (split; [vm_compute; reflexivity|]);
      (split; [by_computation|]); split; vm_compute; reflexivity. }
  split.
  - destruct (E late (or_introl eq_refl))
      as (h & p & s & payload & wv & n & Hsplit & Hv & Hiss & He & Hn & -> & Hc).
    rewrite (expiry_decides_verified_token late _ h p s payload _ _ initial wv
               Hsplit Hv Hiss He Hn).
    rewrite Hc. reflexivity.
  - destruct (E Example.host (or_intror eq_refl))
      as (h & p & s & payload & wv & n & Hsplit & Hv & Hiss & He & Hn & -> & Hc).
    exists payload.
    rewrite (expiry_decides_verified_token Example.host _ h p s payload _ _ initial wv
               Hsplit Hv Hiss He Hn).
    rewrite Hc. split; [reflexivity | exact He].
Defined.

(** ** What the cache holds (lines 12 to 27) *)

(** A refresh stores the parsed body of the second response, whatever it
    is, with the time read at the start of the call. *)
Lemma getJWKS_stores (host : Host) (w : World) (cfg uri jwks : JSValue) :
  fresh w (clock host (clock_reads w)) = false ->
  settle (network host (trace w) (JString oidcConfigUrl) None) = Return cfg ->
  Get cfg (js "jwks_uri") = Return uri ->
  settle (network host (EvFetch (JString oidcConfigUrl) None :: trace w) uri None)
  = Return jwks ->
  getJWKS host w
  = (Return jwks,
     store jwks (clock host (clock_reads w))
       (record (EvFetch uri None)
          (record (EvFetch (JString oidcConfigUrl) None) (tick w)))).
Proof.
  unfold fresh, settle, json; intros Hs Hc Hu Hk. run_getJWKS. rewrite Hs; simpl.
  unfold json.
  destruct (network host (trace w) (JString oidcConfigUrl) None) as [e' | r];
    simpl; [discriminate|].
  rewrite Hc; simpl. rewrite Hu; simpl.
  destruct (network host (EvFetch (JString oidcConfigUrl) None :: trace w) uri None)
    as [e' | r']; simpl; [discriminate|].
  rewrite Hk; reflexivity.
Qed.

(** What [getJWKS] returns is what the cache holds when it returns. *)
Lemma getJWKS_returns_cache (host : Host) (w w1 : World) (jwks : JSValue) :
  getJWKS host w = (Return jwks, w1) -> jwksCache w1 = jwks.
Proof.
  run_getJWKS. destruct (_ && _); simpl; [intros [= <- <-]; reflexivity|].
  repeat case_innermost; intros [= <- <-]; reflexivity.
Qed.

Lemma validateJWT_lookup_throws (host : Host) (token h p s : jsstring)
    (header payload jwks keys : JSValue) (w w1 : World) (e : JsExn) :
  Str.split 46 token = [h; p; s] ->
  decode h = Return header -> decode p = Return payload ->
  getJWKS host w = (Return jwks, w1) ->
  Get jwks (js "keys") = Return keys ->
  keys_find keys header = Throw e ->
  validateJWT host token w = (Throw e, w1).
Proof.
  unfold decode; intros Hsplit Hh Hp Hg Hk Hf.
  unfold validateJWT; rewrite Hsplit. unfold validate_parts.
  destruct (atob h) as [ht | ?]; [|discriminate].
  destruct (atob p) as [pt | ?]; [|discriminate].
  unfold bind at 1, lift at 1. unfold bind at 1, lift at 1. rewrite Hh.
  unfold bind at 1, lift at 1. unfold bind at 1, lift at 1. rewrite Hp.
  rewrite (bind_Return _ _ _ _ _ Hg).
  unfold bind at 1, lift at 1. rewrite Hk.
  unfold bind at 1, lift at 1. rewrite Hf. reflexivity.
Qed.

(** X9: the body of the JWKS response is cached unexamined.  If it
    parses to a truthy value on which the lookup of line 39 throws (an
    object without [keys], an array, a key set with a [null] element),
    the token is refused with that exception, the value is stored, and
    while the entry is less than ten minutes old every call for such a
    token is refused with the same exception and makes no request. *)
Theorem unusable_key_set_is_cached (host : Host) (token h p s : jsstring)
    (header payload cfg uri jwks keys : JSValue) (w : World) (e : JsExn) :
  Str.split 46 token = [h; p; s] ->
  decode h = Return header -> decode p = Return payload ->
  fresh w (clock host (clock_reads w)) = false ->
  settle (network host (trace w) (JString oidcConfigUrl) None) = Return cfg ->
  Get cfg (js "jwks_uri") = Return uri ->
  settle (network host (EvFetch (JString oidcConfigUrl) None :: trace w) uri None)
  = Return jwks ->
  ToBoolean jwks = true ->
  Get jwks (js "keys") = Return keys ->
  keys_find keys header = Throw e ->
  validateJWT host token w
  = (Throw e,
     store jwks (clock host (clock_reads w))
       (record (EvFetch uri None)
          (record (EvFetch (JString oidcConfigUrl) None) (tick w))))
  /\ forall w2,
       jwksCache w2 = jwks ->
       jwksFetchedAt w2 = clock host (clock_reads w) ->
       clock host (clock_reads w2) - clock host (clock_reads w) < 10 * 60 * 1000 ->
       validateJWT host token w2 = (Throw e, tick w2).
Proof.
  intros Hsplit Hh Hp Hs Hc Hu Hj Ht Hk Hf. split.
  - apply (validateJWT_lookup_throws host token h p s header payload jwks keys
             _ _ e Hsplit Hh Hp (getJWKS_stores host w cfg uri jwks Hs Hc Hu Hj)
             Hk Hf).
  - intros w2 Hc2 Hf2 Hclock.
    apply (validateJWT_lookup_throws host token h p s header payload jwks keys
             _ _ e Hsplit Hh Hp); auto.
    rewrite <- Hc2. apply getJWKS_fresh.
    unfold fresh. rewrite Hc2, Hf2, Ht. apply Z.ltb_lt. exact Hclock.
Qed.

(** ** A second validation *)

Lemma verified_payload_intro (host : Host) (h p s signature : jsstring)
    (header payload jwks keys jwk : JSValue) (key : CryptoKey) (w w1 : World) :
  decode h = Return header -> decode p = Return payload ->
  getJWKS host w = (Return jwks, w1) ->
  Get jwks (js "keys") = Return keys ->
  keys_find keys header = Return jwk ->
  ToBoolean jwk = true ->
  importKey host (js "jwk") jwk import_algorithm false [js "verify"] = Return key ->
  atob s = Return signature ->
  verify host RSASSA_PKCS1_v1_5 key signature (utf8_encode (h ++ js "." ++ p))
  = Return true ->
  verified_payload host h p s w
  = (Return payload,
     record (EvVerify RSASSA_PKCS1_v1_5 key signature
               (utf8_encode (h ++ js "." ++ p)))
       (record (EvImportKey (js "jwk") jwk import_algorithm false [js "verify"])
          w1)).
Proof.
  unfold decode; intros Hh Hp Hg Hk Hf Hj Hi Hs Hv.
  unfold verified_payload.
  destruct (atob h) as [ht | ?]; [|discriminate].
  destruct (atob p) as [pt | ?]; [|discriminate].
  unfold bind at 1, lift at 1. unfold bind at 1, lift at 1. rewrite Hh.
  unfold bind at 1, lift at 1. unfold bind at 1, lift at 1. rewrite Hp.
  rewrite (bind_Return _ _ _ _ _ Hg).
  unfold bind at 1, lift at 1. rewrite Hk.
  unfold bind at 1, lift at 1. rewrite Hf, Hj. cbn [negb].
  unfold bind, lift, subtle_importKey, subtle_verify, ret.
  rewrite Hi, Hs, Hv. reflexivity.
Qed.

(** X10: [validateJWT] keeps nothing of the tokens it has seen.  A token
    that was accepted is accepted again, with the same payload and
    without a request, by any later call that finds the cache entry of
    the first still fresh and reads a time at which the token has not
    expired. *)
Theorem accepted_token_is_accepted_again (host : Host) (token : jsstring)
    (payload : JSValue) (w w' w2 : World) :
  validateJWT host token w = (Return payload, w') ->
  jwksCache w2 = jwksCache w' ->
  fresh w2 (clock host (clock_reads w2)) = true ->
  (forall exp n,
     Get payload (js "exp") = Return exp -> ToNumber exp = Return n ->
     Num.ltb (Num.mul n (Num.of_Z 1000))
       (Num.of_Z (clock host (S (clock_reads w2)))) = false) ->
  exists w3,
    validateJWT host token w2 = (Return payload, w3)
    /\ calls is_fetch (trace w3) = calls is_fetch (trace w2).
Proof.
  intros H Hc Hfresh Hexp.
  unfold validateJWT in H.
  destruct (Str.split 46 token) as [|h [|p [|s [|x l]]]] eqn:Hsplit;
    try discriminate.
  rewrite validate_parts_stages in H. unfold bind in H.
  destruct (verified_payload host h p s w) as [[pl | e] wv] eqn:Hv;
    [|discriminate].
  destruct (standard_claims_returns host pl payload wv w' H)
    as (-> & -> & Hiss & exp & n & He & Hn & _).
  destruct (verified_payload_returns host h p s pl w wv Hv)
    as (header & jwks & w1 & keys & jwk & key & signature
        & Hh & Hp & Hg & Hk & Hf & Hj & Hi & Hs & Hver & ->).
  apply getJWKS_returns_cache in Hg. cbn in Hc. rewrite Hg in Hc.
  pose proof (getJWKS_fresh host w2 Hfresh) as Hg2. rewrite Hc in Hg2.
  eexists. split.
  - unfold validateJWT. rewrite Hsplit, validate_parts_stages.
    rewrite (bind_Return _ _ _ _ _
               (verified_payload_intro host h p s signature header pl jwks keys
                  jwk key w2 (tick w2) Hh Hp Hg2 Hk Hf Hj Hi Hs Hver)).
    rewrite (standard_claims_checked host pl exp n _ Hiss He Hn).
    cbn [clock_reads record tick]. rewrite (Hexp exp n He Hn). reflexivity.
  - reflexivity.
Qed.

(** The statement of X9 on an issuer that answers the JWKS request with
    an error document: it is cached, and the next call is refused from
    the cache. *)
Lemma unusable_key_set_witness :
  let e := cannot_read (js "undefined") (js "find") in
  exists w1,
    validateJWT host_with_error_document Example.token initial = (Throw e, w1)
    /\ ToBoolean (jwksCache w1) = true
    /\ validateJWT host_with_error_document Example.token w1 = (Throw e, tick w1).
Proof.
  intros e.
  assert (E : exists h p s header payload cfg uri jwks keys,
             Str.split 46 Example.token = [h; p; s]
             /\ decode h = Return header /\ decode p = Return payload
             /\ settle (network host_with_error_document (trace initial)
                          (JString oidcConfigUrl) None) = Return cfg
             /\ Get cfg (js "jwks_uri") = Return uri
             /\ settle (network host_with_error_document
                          (EvFetch (JString oidcConfigUrl) None :: trace initial)
                          uri None) = Return jwks
             /\ ToBoolean jwks = true
             /\ Get jwks (js "keys") = Return keys
             /\ keys_find keys header = Throw e).
  { eexists _, _, _, _, _, _, _, _, _.
    do 6 (split; [by_computation|]). split; [|split]; by_computation. }
  destruct E as (h & p & s & header & payload & cfg & uri & jwks & keys
                 & Hsplit & Hh & Hp & Hc & Hu & Hj & Ht & Hk & Hf).
  destruct (unusable_key_set_is_cached host_with_error_document Example.token
              h p s header payload cfg uri jwks keys initial e
              Hsplit Hh Hp eq_refl Hc Hu Hj Ht Hk Hf) as [H1 H2].
  eexists. split; [exact H1|]. split; [exact Ht|].
  apply H2; [reflexivity | reflexivity | vm_compute; reflexivity].
Defined.

(** The statement of X10 on the token of the scenario, validated twice
    in a row. *)
Lemma accepted_again_witness :
  exists payload w' w3,
    validateJWT Example.host Example.token initial = (Return payload, w')
    /\ validateJWT Example.host Example.token w' = (Return payload, w3)
    /\ calls is_fetch (trace w3) = 2%nat.
Proof.
  assert (E : exists payload w',
             validateJWT Example.host Example.token initial = (Return payload, w')
             /\ fresh w' (clock Example.host (clock_reads w')) = true
             /\ Get payload (js "exp") = Return (JNumber (Num.of_Z 2000000000))
             /\ calls is_fetch (trace w') = 2%nat).
  { eexists _, _. split; [by_computation|].
    split; [|split]; vm_compute; reflexivity. }
  destruct E as (payload & w' & H & Hfresh & Hexp & Hcalls).
  destruct (accepted_token_is_accepted_again Example.host Example.token payload
              initial w' w' H eq_refl Hfresh) as (w3 & H3 & Hc3).
  - intros exp n He Hn. rewrite Hexp in He. injection He as <-.
    injection Hn as <-. vm_compute. reflexivity.
  - exists payload, w', w3. split; [exact H|]. split; [exact H3|].
    rewrite Hc3. exact Hcalls.
Defined.

(** ** The host calls of one validation *)

(** Finds the requests, the import and the verification a run has
    logged. *)
Ltac name_calls :=
  let imported :=
    (let Hin := fresh "Hin" in
     intros ? ? ? ? Hin; cbn [In] in Hin;
     repeat (destruct Hin as [Hin | Hin];
             [injection Hin as <- <- <- <-;
              eexists; split; [reflexivity | eassumption]|]);
     destruct Hin) in
  let finish :=
    (split; [reflexivity|]);
    cbn [List.length is_fetch is_importKey is_verify without_init];
    (do 6 (split; [solve [repeat constructor; auto]|]));
    (split; [solve [imported] | solve [reflexivity | discriminate]]) in
  first
    [ exists [], [], []; finish
    | eexists [_], [], []; finish
    | eexists [_; _], [], []; finish
    | eexists [], [_], []; finish
    | eexists [_], [_], []; finish
    | eexists [_; _], [_], []; finish
    | eexists [], [_], [_]; finish
    | eexists [_], [_], [_]; finish
    | eexists [_; _], [_], [_]; finish ].

(** X11: in one call [validateJWT] makes at most two requests, both
    without [init], then at most one key import, then at most one
    verification; the key it verifies with is the one the host returned
    for the import of this call; it makes no request when it finds the
    cache entry fresh. *)
Theorem validateJWT_host_calls (host : Host) (token : jsstring) (w : World) :
  exists fetches imports verifies,
    trace (snd (validateJWT host token w))
    = verifies ++ imports ++ fetches ++ trace w
    /\ (List.length fetches <= 2)%nat
    /\ (List.length imports <= 1)%nat
    /\ (List.length verifies <= 1)%nat
    /\ Forall (fun ev => is_fetch ev = true /\ without_init ev) fetches
    /\ Forall (fun ev => is_importKey ev = true) imports
    /\ Forall (fun ev => is_verify ev = true) verifies
    /\ (forall algorithm key signature data,
          In (EvVerify algorithm key signature data) verifies ->
          exists jwk,
            imports = [EvImportKey (js "jwk") jwk import_algorithm false
                         [js "verify"]]
            /\ importKey host (js "jwk") jwk import_algorithm false [js "verify"]
               = Return key)
    /\ (fresh w (clock host (clock_reads w)) = true -> fetches = []).
Proof.
  unfold validateJWT, fresh.
  destruct (Str.split 46 token) as [|h [|p [|s [|x l]]]]; try name_calls.
  unfold validate_parts, getJWKS, bind, lift, throw, ret, Date_now,
    read_jwksCache, read_jwksFetchedAt, fetch_, subtle_importKey, subtle_verify,
    write_jwksCache, write_jwksFetchedAt, record.
  cbn [fst snd trace clock_reads jwksCache jwksFetchedAt].
  repeat (case_innermost;
          cbn [negb fst snd trace clock_reads jwksCache jwksFetchedAt]);
    name_calls.
Qed.

(** ** Concurrent calls of [getJWKS], in any interleaving *)

Lemma update_Forall (P : Task -> Prop) (i : nat) (t : Task) (pool : list Task) :
  Forall P pool -> P t -> Forall P (update i t pool).
Proof.
  intros H Ht; revert i; induction H as [|t0 pool H0 H IH]; intros i.
  - destruct i; constructor.
  - destruct i; simpl; constructor; auto.
Qed.

Lemma task_since_later (host : Host) (first next next' : nat) (t : Task) :
  (next <= next')%nat -> task_since host first next t -> task_since host first next' t.
Proof.
  intros Hle. destruct t as [|now pending|now pending|o]; simpl; auto.
  - intros (i & Hi & E); exists i; split; [lia | exact E].
  - intros [(i & Hi & E) R]; split; [exists i; split; [lia | exact E] | exact R].
Qed.

Lemma resume_entry (host : Host) (w0 w w' : World) (t t' : Task) :
  resume host t w = (t', w') ->
  (clock_reads w0 <= clock_reads w)%nat ->
  task_since host (clock_reads w0) (clock_reads w) t ->
  entry_since host w0 w ->
  (clock_reads w <= clock_reads w')%nat
  /\ task_since host (clock_reads w0) (clock_reads w') t'
  /\ entry_since host w0 w'.
Proof.
  intros H Hle Ht He.
  assert (Hkeep : forall w1,
             jwksCache w1 = jwksCache w -> jwksFetchedAt w1 = jwksFetchedAt w ->
             (clock_reads w <= clock_reads w1)%nat -> entry_since host w0 w1).
  { intros w1 Hc Hf Hr. destruct He as [[E1 E2] | (i & pending & Hi & E1 & R & E2)].
    - left; split; congruence.
    - right; exists i, pending. rewrite Hc, Hf. repeat split; auto; lia. }
  destruct t as [|now pending|now pending|o]; simpl in H.
  - destruct (_ && _); injection H as <- <-; cbn.
    + split; [lia|]. split; [exact I|]. apply Hkeep; cbn; auto.
    + split; [lia|]. split; [|apply Hkeep; cbn; auto].
      exists (clock_reads w); split; [lia | reflexivity].
  - destruct (settle pending) as [cfg | e]; [|injection H as <- <-; cbn; auto].
    destruct (Get cfg (js "jwks_uri")) as [uri | e]; injection H as <- <-; cbn.
    + split; [lia|]. split; [|apply Hkeep; cbn; auto].
      split; [exact Ht | exists (trace w), uri; reflexivity].
    + auto.
  - destruct (settle pending) as [jwks | e] eqn:Hs; injection H as <- <-; cbn.
    + split; [lia|]. split; [exact I|].
      destruct Ht as [(i & Hi & ->) R].
      right; exists i, pending; cbn. auto.
    + auto.
  - injection H as <- <-. auto.
Qed.

Lemma run_entry (host : Host) (w0 : World) (schedule : list nat) :
  forall pool w,
    (clock_reads w0 <= clock_reads w)%nat ->
    Forall (task_since host (clock_reads w0) (clock_reads w)) pool ->
    entry_since host w0 w ->
    entry_since host w0 (snd (run host schedule pool w)).
Proof.
  induction schedule as [|i rest IH]; intros pool w Hle Hpool He; simpl.
  - exact He.
  - destruct (nth_error pool i) as [t|] eqn:Hn; [|apply IH; assumption].
    destruct (resume host t w) as [t' w'] eqn:Hr.
    assert (Ht : task_since host (clock_reads w0) (clock_reads w) t).
    { rewrite Forall_forall in Hpool. apply Hpool. eapply nth_error_In, Hn. }
    destruct (resume_entry host w0 w w' t t' Hr Hle Ht He) as (Hle' & Ht' & He').
    apply IH; [lia | | exact He'].
    apply update_Forall; [|exact Ht'].
    eapply Forall_impl; [|exact Hpool].
    intros t1; apply task_since_later; exact Hle'.
Qed.

(** X12: however [n] concurrent calls of [getJWKS] are interleaved, the
    cache entry they leave is the one they found, or the parsed body of
    one response together with a time one of them read from the clock:
    value and time are replaced together, and by nothing else. *)
Theorem cache_entry_in_any_interleaving (host : Host) (schedule : list nat)
    (n : nat) (w : World) :
  entry_since host w (snd (run host schedule (repeat Start n) w)).
Proof.
  apply run_entry; [lia | | left; auto].
  apply Forall_forall. intros t Hin. apply repeat_spec in Hin. subst t. exact I.
Qed.

Lemma requests_of_update (i : nat) (t t' : Task) (pool : list Task) :
  nth_error pool i = Some t ->
  (requests_of (update i t' pool) + requests_left t
   = requests_of pool + requests_left t')%nat.
Proof.
  unfold requests_of. revert i; induction pool as [|t0 pool IH]; intros i.
  - destruct i; discriminate.
  - destruct i; simpl.
    + intros [= ->]. lia.
    + intros H. specialize (IH i H). lia.
Qed.

Lemma resume_requests (host : Host) (w w' : World) (t t' : Task) :
  resume host t w = (t', w') ->
  exists new,
    trace w' = new ++ trace w
    /\ (List.length new + requests_left t' <= requests_left t)%nat
    /\ Forall (fun ev => is_fetch ev = true /\ without_init ev) new.
Proof.
  destruct t as [|now pending|now pending|o]; simpl.
  - destruct (_ && _); intros [= <- <-]; cbn.
    + exists []; repeat split; auto.
    + eexists [_]; split; [reflexivity|]. repeat constructor.
  - destruct (settle pending) as [cfg | e];
      [|intros [= <- <-]; exists []; repeat split; auto; simpl; lia].
    destruct (Get cfg (js "jwks_uri")) as [uri | e]; intros [= <- <-]; cbn.
    + eexists [_]; split; [reflexivity|]. repeat constructor.
    + exists []; repeat split; auto; simpl; lia.
  - destruct (settle pending) as [jwks | e]; intros [= <- <-];
      exists []; repeat split; auto.
  - intros [= <- <-]. exists []; repeat split; auto.
Qed.

Lemma run_requests (host : Host) (schedule : list nat) :
  forall pool w,
    exists new,
      trace (snd (run host schedule pool w)) = new ++ trace w
      /\ (List.length new + requests_of (fst (run host schedule pool w))
          <= requests_of pool)%nat
      /\ Forall (fun ev => is_fetch ev = true /\ without_init ev) new.
Proof.
  induction schedule as [|i rest IH]; intros pool w; simpl.
  - exists []; repeat split; auto.
  - destruct (nth_error pool i) as [t|] eqn:Hn; [|apply IH].
    destruct (resume host t w) as [t' w'] eqn:Hr.
    destruct (resume_requests host w w' t t' Hr) as (new1 & T1 & L1 & F1).
    destruct (IH (update i t' pool) w') as (new2 & T2 & L2 & F2).
    exists (new2 ++ new1). rewrite T2, T1, app_assoc. split; [reflexivity|].
    pose proof (requests_of_update i t t' pool Hn) as U.
    rewrite length_app. split; [lia|].
    apply Forall_app; auto.
Qed.

(** X13: however [n] concurrent calls of [getJWKS] are interleaved, they
    make at most [2 * n] requests, all without [init], and no other host
    call. *)
Theorem requests_in_any_interleaving (host : Host) (schedule : list nat)
    (n : nat) (w : World) :
  exists new,
    trace (snd (run host schedule (repeat Start n) w)) = new ++ trace w
    /\ (List.length new <= 2 * n)%nat
    /\ Forall (fun ev => is_fetch ev = true /\ without_init ev) new.
Proof.
  destruct (run_requests host schedule (repeat Start n) w) as (new & T & L & F).
  exists new. split; [exact T|]. split; [|exact F].
  assert (E : requests_of (repeat Start n) = (2 * n)%nat).
  { clear. unfold requests_of.
    induction n as [|n IHn]; [reflexivity|].
    change (list_sum (map requests_left (repeat Start (S n))))
      with (2 + list_sum (map requests_left (repeat Start n)))%nat.
    rewrite IHn; lia. }
  lia.
Qed.

(** ** The handler (lines 68 to 98) *)

(** X14: a request without an Authorization header, or with one that
    does not start with [Bearer ] in this very spelling, is answered 401
    [Missing Authorization header]; the handler calls nothing and reads
    no clock. *)
Theorem request_without_bearer_is_refused (host : Host) (req : Request)
    (w : World) :
  (forall auth, authorization req = Some auth ->
                Str.startsWith (js "Bearer ") auth = false) ->
  fetch host req w
  = (Return (text_response (js "Missing Authorization header") 401), w).
Proof.
  intros H. unfold fetch, try_catch.
  destruct (authorization req) as [auth|]; [|reflexivity].
  rewrite (H auth eq_refl). cbn [negb]. rewrite orb_true_r. reflexivity.
Qed.

(** The statement of X14 on a header that spells the scheme in lower
    case. *)
Lemma without_bearer_witness :
  fetch Example.host (request_with (Some (js "bearer " ++ Example.token))) initial
  = (Return (text_response (js "Missing Authorization header") 401), initial).
Proof.
  apply (request_without_bearer_is_refused Example.host).
  intros auth [= <-]. reflexivity.
Defined.

(** The requests of [validateJWT] carry no [init]. *)
Lemma validateJWT_without_init (host : Host) (token : jsstring) :
  logs without_init (validateJWT host token).
Proof.
  intros w. unfold validateJWT.
  destruct (Str.split 46 token) as [|h [|p [|s [|x l]]]];
    try (exists []; split; [reflexivity | constructor]).
  unfold validate_parts, getJWKS, bind, lift, throw, ret, Date_now,
    read_jwksCache, read_jwksFetchedAt, fetch_, subtle_importKey, subtle_verify,
    write_jwksCache, write_jwksFetchedAt, record.
  cbn [fst snd trace clock_reads jwksCache jwksFetchedAt].
  repeat (case_innermost;
          cbn [negb fst snd trace clock_reads jwksCache jwksFetchedAt]);
    first
      [ exists []; split; [reflexivity | solve [repeat constructor]]
      | eexists [_]; split; [reflexivity | solve [repeat constructor]]
      | eexists [_; _]; split; [reflexivity | solve [repeat constructor]]
      | eexists [_; _; _]; split; [reflexivity | solve [repeat constructor]]
      | eexists [_; _; _; _]; split; [reflexivity | solve [repeat constructor]] ].
Qed.

(** The one request the handler makes with an [init]. *)
Lemma fetch_backend_call (host : Host) (req : Request)
    (w : World) :
  exists new,
    trace (snd (fetch host req w)) = new ++ trace w
    /\ forall input init,
         In (EvFetch input (Some init)) new ->
         exists auth claims sub path w1,
           authorization req = Some auth
           /\ Str.startsWith (js "Bearer ") auth = true
           /\ validateJWT host (Str.substring 7 auth) w = (Return claims, w1)
           /\ Get claims (js "sub") = Return sub
           /\ ToBoolean sub = true
           /\ pathname host (url req) = Return path
           /\ input = JString (API_BACKEND ++ path)
           /\ init = req
           /\ trace (snd (fetch host req w)) = EvFetch input (Some init) :: trace w1
           /\ exists rest,
                new = EvFetch input (Some init) :: rest /\ Forall without_init rest.
Proof.
  unfold fetch, try_catch.
  destruct (authorization req) as [auth|];
    [|exists []; split; [reflexivity | intros ? ? []]].
  destruct (Str.startsWith (js "Bearer ") auth) eqn:Hb;
    [|cbn [negb]; rewrite orb_true_r; exists []; split; [reflexivity | intros ? ? []]].
  rewrite (starts_with_Bearer_truthy auth Hb). cbn [negb orb].
  destruct (validateJWT_without_init host (Str.substring 7 auth) w)
    as (new & Hnew & Hall).
  assert (Hnone : forall input init, ~ In (EvFetch input (Some init)) new).
  { intros input init Hin. rewrite Forall_forall in Hall.
    exact (Hall _ Hin). }
  unfold bind, lift, fetch_, ret.
  destruct (validateJWT host (Str.substring 7 auth) w) as [[claims | e] w1] eqn:Hv;
    cbn [snd] in Hnew;
    [|exists new; split; [exact Hnew | intros ? ? Hin; destruct (Hnone _ _ Hin)]].
  destruct (Get claims (js "sub")) as [sub | e] eqn:Hsub;
    [|exists new; split; [exact Hnew | intros ? ? Hin; destruct (Hnone _ _ Hin)]].
  destruct (ToBoolean sub) eqn:Ht; cbn [negb];
    [|exists new; split; [exact Hnew | intros ? ? Hin; destruct (Hnone _ _ Hin)]].
  destruct (pathname host (url req)) as [path | e] eqn:Hp;
    [|exists new; split; [exact Hnew | intros ? ? Hin; destruct (Hnone _ _ Hin)]].
  exists (EvFetch (JString (API_BACKEND ++ path)) (Some req) :: new).
  destruct (network host (trace w1) (JString (API_BACKEND ++ path)) (Some req))
    as [e | r]; cbn [snd record trace];
    (split; [rewrite Hnew; reflexivity|]);
    (intros input init [[= <- <-] | Hin]; [|destruct (Hnone _ _ Hin)]);
    exists auth, claims, sub, path, w1; repeat split; auto;
    (exists new; split; [reflexivity | exact Hall]).
Qed.

(** X15: the backend is requested at most once per request, as the last
    host call, and only after [validateJWT] has returned claims with a
    truthy [sub] for the text after [Bearer ]; the request goes to
    [API_BACKEND] followed by the path of the inbound URL and carries the
    inbound request as [init]. *)
Theorem backend_requested_only_for_valid_token (host : Host) (req : Request)
    (w : World) :
  exists new,
    trace (snd (fetch host req w)) = new ++ trace w
    /\ forall input init,
         In (EvFetch input (Some init)) new ->
         exists auth claims sub path w1,
           authorization req = Some auth
           /\ Str.startsWith (js "Bearer ") auth = true
           /\ validateJWT host (Str.substring 7 auth) w = (Return claims, w1)
           /\ Get claims (js "sub") = Return sub
           /\ ToBoolean sub = true
           /\ pathname host (url req) = Return path
           /\ input = JString (API_BACKEND ++ path)
           /\ init = req
           /\ trace (snd (fetch host req w)) = EvFetch input (Some init) :: trace w1
           /\ exists rest,
                new = EvFetch input (Some init) :: rest /\ Forall without_init rest.
Proof. exact (fetch_backend_call host req w). Qed.

(** X16: for a token that passes and claims with a truthy [sub], the
    answer of the handler is the backend's response as it is, whatever its
    status; if the request to the backend is rejected the client is
    answered 401 [Unauthorized: ] with the message of that failure. *)
Theorem valid_request_is_forwarded (host : Host) (req : Request)
    (auth path : jsstring) (claims sub : JSValue) (w w1 : World) :
  authorization req = Some auth ->
  Str.startsWith (js "Bearer ") auth = true ->
  validateJWT host (Str.substring 7 auth) w = (Return claims, w1) ->
  Get claims (js "sub") = Return sub ->
  ToBoolean sub = true ->
  pathname host (url req) = Return path ->
  fetch host req w
  = (match network host (trace w1) (JString (API_BACKEND ++ path)) (Some req) with
     | Fulfilled r => Return r
     | Rejected e => Return (text_response (js "Unauthorized: " ++ message e) 401)
     end,
     record (EvFetch (JString (API_BACKEND ++ path)) (Some req)) w1).
Proof.
  intros Ha Hb Hv Hsub Ht Hp. unfold fetch, try_catch. rewrite Ha, Hb.
  rewrite (starts_with_Bearer_truthy auth Hb). cbn [negb orb].
  rewrite (bind_Return _ _ _ _ _ Hv).
  unfold bind, lift, fetch_, ret. rewrite Hsub, Ht, Hp. cbn [negb].
  destruct (network host _ _ _); reflexivity.
Qed.

(** The statement of X16 on the token of the scenario: the query of the
    inbound URL is not forwarded, the backend's response is the answer;
    and with the backend out of reach the holder of a valid token is
    answered 401. *)
Lemma forwarded_witness :
  let req := request_with (Some (js "Bearer " ++ Example.token)) in
  (exists w',
     fetch Example.host req initial
     = (Return {| status := 200; body := js "backend" |}, w')
     /\ hd_error (trace w')
        = Some (EvFetch (JString (js "https://api.internal.example.com/v1/orders"))
                  (Some req)))
  /\ fst (fetch host_without_backend req initial)
     = Return (text_response (js "Unauthorized: fetch failed") 401).
Proof.
  intros req.
  assert (E : forall host,
             host = Example.host \/ host = host_without_backend ->
             exists claims w1,
               validateJWT host (Str.substring 7 (js "Bearer " ++ Example.token))
                 initial = (Return claims, w1)
               /\ Get claims (js "sub") = Return (JString (js "u1"))
               /\ pathname host (url req) = Return (js "/v1/orders")).
  { intros host [-> | ->]; eexists _, _;
      (split; [by_computation|]); split; vm_compute; reflexivity. }
  split.
  - destruct (E Example.host (or_introl eq_refl)) as (claims & w1 & Hv & Hsub & Hp).
    eexists. split.
    + exact (valid_request_is_forwarded Example.host req _ _ claims _ initial w1
               eq_refl eq_refl Hv Hsub eq_refl Hp).
    + reflexivity.
  - destruct (E host_without_backend (or_intror eq_refl))
      as (claims & w1 & Hv & Hsub & Hp).
    rewrite (valid_request_is_forwarded host_without_backend req _ _ claims _
               initial w1 eq_refl eq_refl Hv Hsub eq_refl Hp).
    reflexivity.
Defined.

Lemma startsWith_prefix (p s : jsstring) :
  Str.startsWith p s = true -> s = p ++ Str.substring (List.length p) s.
Proof.
  revert s; induction p as [|x p IH]; intros s; simpl; [reflexivity|].
  destruct s as [|y s]; [discriminate|].
  intros H. apply andb_prop in H. destruct H as [Hxy H].
  apply Z.eqb_eq in Hxy. subst y. f_equal. exact (IH s H).
Qed.

(** X17: the handler sends a request to the backend only if the
    Authorization header is [Bearer ] followed by three segments joined by
    dots, [crypto.subtle.verify] answers [true] for the decoded third
    segment over the first two under a key the host has imported, and
    the decoded second segment is an object whose [iss] is the issuer and
    whose [sub] is truthy. *)
Theorem backend_reached_only_with_verified_signature (host : Host)
    (req : Request) (w : World) :
  exists new,
    trace (snd (fetch host req w)) = new ++ trace w
    /\ forall input init,
         In (EvFetch input (Some init)) new ->
         exists h p s signature jwk key claims sub,
           authorization req = Some (js "Bearer " ++ h ++ js "." ++ p ++ js "." ++ s)
           /\ importKey host (js "jwk") jwk import_algorithm false [js "verify"]
              = Return key
           /\ atob s = Return signature
           /\ verify host RSASSA_PKCS1_v1_5 key signature
                (utf8_encode (h ++ js "." ++ p)) = Return true
           /\ decode p = Return claims
           /\ Get claims (js "iss") = Return (JString OIDC_ISSUER)
           /\ Get claims (js "sub") = Return sub
           /\ ToBoolean sub = true.
Proof.
  destruct (fetch_backend_call host req w) as (new & Hnew & Hback).
  exists new. split; [exact Hnew|].
  intros input init Hin.
  destruct (Hback input init Hin)
    as (auth & claims & sub & path & w1 & Ha & Hb & Hv & Hsub & Ht & _).
  unfold validateJWT in Hv.
  destruct (Str.split 46 (Str.substring 7 auth)) as [|h [|p [|s [|x l]]]] eqn:Hsplit;
    try discriminate.
  rewrite validate_parts_stages in Hv. unfold bind in Hv.
  destruct (verified_payload host h p s w) as [[pl | e] wv] eqn:Hvp;
    [|discriminate].
  destruct (standard_claims_returns host pl claims wv w1 Hv)
    as (-> & _ & Hiss & _).
  destruct (verified_payload_returns host h p s pl w wv Hvp)
    as (header & jwks & wg & keys & jwk & key & signature
        & _ & Hp & _ & _ & _ & _ & Hi & Hs & Hver & _).
  exists h, p, s, signature, jwk, key, pl, sub.
  split; [|repeat split; auto].
  rewrite Ha. f_equal.
  rewrite (startsWith_prefix _ _ Hb) at 1. f_equal.
  destruct (split_three_segments 46 _ h p s Hsplit) as (E & _).
  exact E.
Qed.
